(** * create-shiny-react-app: the scaffolding pipeline, embedded and verified

    The repository holds three generations of one command-line script:

    - [Part001]: the ES-module script (backends r/py, side-file
      [package-custom.json], package-manager prompt);
    - [Part002]: the CommonJS script with the [SKIP_PATHS] table (backends
      r/py/both, side-file [package-config.json]);
    - [Part003]: the oldest CommonJS script (inline build scripts, templates
      taken from the [@posit/shiny-react] package).

    Each script is a linear pipeline over the file system: template
    discovery, prompts, recursive copy, manifest patch, documentation copy.
    The embedding keeps that shape: a state-and-exception monad over a flat
    file system, the terminal input as a list of answered lines, and the
    JavaScript functions as monadic functions of the same names. *)

From Stdlib Require Import ZArith List String Ascii Bool Lia Permutation Sorted.
From stdpp Require Import base option list gmap strings pretty sorting.

Set Warnings "-register-all".
Open Scope string_scope.
Open Scope list_scope.

(* ===================================================================== *)
(** * JavaScript values as this program sees them *)
(* ===================================================================== *)

Module Js.

(** Values produced by [JSON.parse].  A [JObj] lists its properties in the
    order [Object.keys] reports them, every key once.  Numbers are only
    ever tested for truthiness by the scripts; integers stand for them. *)
Inductive json : Type :=
| JNull
| JBool (b : bool)
| JNum (n : Z)
| JStr (s : string)
| JArr (items : list json)
| JObj (props : list (string * json)).

(** Exceptions the scripts can meet. *)
Inductive error : Type :=
| TypeError
| RangeError
| SyntaxError
| SystemError (code : string)
| Error (message : string).

(** ToBoolean; [None] is [undefined]. *)
Definition truthy (v : option json) : bool :=
  match v with
  | None | Some JNull => false
  | Some (JBool b) => b
  | Some (JNum n) => negb (n =? 0)%Z
  | Some (JStr s) => negb (String.eqb s EmptyString)
  | Some (JArr _) | Some (JObj _) => true
  end.

Fixpoint assoc {A} (k : string) (l : list (string * A)) : option A :=
  match l with
  | [] => None
  | (k', v) :: l' => if String.eqb k k' then Some v else assoc k l'
  end.

(** [o[k] = v] on a property list: overwrite in place, or append. *)
Fixpoint assoc_set {A} (k : string) (v : A) (l : list (string * A))
  : list (string * A) :=
  match l with
  | [] => [(k, v)]
  | (k', v') :: l' =>
      if String.eqb k k' then (k, v) :: l' else (k', v') :: assoc_set k v l'
  end.

Definition chars (s : string) : list json :=
  map (fun c => JStr (String c EmptyString)) (list_ascii_of_string s).

Definition indexed (items : list json) : list (string * json) :=
  imap (fun i v => (pretty i, v)) items.

(** Own enumerable string-keyed properties: what [Object.keys] lists and
    what object spread copies.  Arrays and strings expose their indices;
    numbers, booleans, [null] and [undefined] expose nothing. *)
Definition own_props (v : option json) : list (string * json) :=
  match v with
  | Some (JObj props) => props
  | Some (JArr items) => indexed items
  | Some (JStr s) => indexed (chars s)
  | _ => []
  end.

Definition Object_keys (v : json) : list string := (own_props (Some v)).*1.

(** Property read [v[k]] on a parsed value.  Reading from [null] throws.
    Inherited members ([length], methods) are not listed: the scripts test
    only the fixed keys [description], [scripts], [dependencies], [r], [py],
    [both], which no JSON value inherits, and read any other key only to
    spread the result, where a function or a number contributes nothing,
    exactly as [undefined] does. *)
Definition get (v : json) (k : string) : error + option json :=
  match v with
  | JNull => inl TypeError
  | _ => inr (assoc k (own_props (Some v)))
  end.

(** [{ ...a, ...b }]: the properties of [a], overwritten and extended by
    those of [b]. *)
Definition spread (a b : option json) : json :=
  JObj (fold_left (fun acc kv => assoc_set kv.1 kv.2 acc)
                  (own_props b)
                  (fold_left (fun acc kv => assoc_set kv.1 kv.2 acc)
                             (own_props a) [])).

(** ** The object bound to [packageJson]

    The manifest is the one value the scripts assign properties to, so it
    is the one value whose assignment semantics matters: assignment to a
    primitive is ignored in sloppy mode and throws in strict mode (the
    ES-module script), assignment to [__proto__] that is not an own
    property swaps the prototype, and an array keeps a [length]. *)
Record object : Type := {
  own : list (string * json);
  inherited : list (string * json);   (* own properties of the prototype *)
  array_length : option N             (* [Some n] for an array *)
}.

Inductive value : Type :=
| Prim (j : json)      (* null, boolean, number or string *)
| Obj (o : object).

Definition of_json (j : json) : value :=
  match j with
  | JObj props =>
      Obj {| own := props; inherited := []; array_length := None |}
  | JArr items =>
      Obj {| own := indexed items; inherited := [];
             array_length := Some (N.of_nat (length items)) |}
  | _ => Prim j
  end.

(** What [JSON.stringify] keeps: the own properties of a plain object, the
    elements below [length] of an array (holes print as [null]). *)
Definition to_json (v : value) : json :=
  match v with
  | Prim j => j
  | Obj o =>
      match array_length o with
      | None => JObj (own o)
      | Some n =>
          JArr (map (fun i => default JNull (assoc (pretty i) (own o)))
                    (seq 0 (N.to_nat n)))
      end
  end.

Definition digit (c : ascii) : option N :=
  let n := N_of_ascii c in
  if (48 <=? n)%N && (n <=? 57)%N then Some (n - 48)%N else None.

Fixpoint digits (acc : N) (s : string) : option N :=
  match s with
  | EmptyString => Some acc
  | String c s' =>
      match digit c with
      | Some d => digits (10 * acc + d)%N s'
      | None => None
      end
  end.

(** An array index: the canonical decimal form of an integer below
    2^32 - 1. *)
Definition array_index (k : string) : option N :=
  match k with
  | EmptyString => None
  | _ =>
      match digits 0 k with
      | Some n =>
          if String.eqb (pretty n) k && (n <? 4294967295)%N
          then Some n else None
      | None => None
      end
  end.

Definition obj_get (o : object) (k : string) : option json :=
  match assoc k (own o), array_length o with
  | Some v, _ => Some v
  | None, Some n =>
      if String.eqb k "length" then Some (JNum (Z.of_N n))
      else assoc k (inherited o)
  | None, None =>
      match assoc k (inherited o) with
      | Some v => Some v
      | None =>
          if String.eqb k "__proto__" then Some (JObj (inherited o))
          else None
      end
  end.

(** [packageJson[k]] *)
Definition value_get (v : value) (k : string) : error + option json :=
  match v with
  | Prim j => get j k
  | Obj o => inr (obj_get o k)
  end.

Definition is_own (o : object) (k : string) : bool :=
  match assoc k (own o) with Some _ => true | None => false end.

Definition is_inherited (o : object) (k : string) : bool :=
  match assoc k (inherited o) with Some _ => true | None => false end.

(** [o[k] = x].  On an array, [length] rejects every value the scripts
    assign (a string for [name] never reaches it; a spread object is not a
    length), and an index at or beyond [length] extends the array. *)
Definition obj_set (o : object) (k : string) (x : json) : error + object :=
  if is_own o k then
    inr {| own := assoc_set k x (own o); inherited := inherited o;
           array_length := array_length o |}
  else if match array_length o with
          | Some _ => String.eqb k "length"
          | None => false
          end then inl RangeError
  else if String.eqb k "__proto__" && negb (is_inherited o k) then
    inr {| own := own o;
           inherited := match x with
                        | JObj _ | JArr _ => own_props (Some x)
                        | JNull => []
                        | _ => inherited o
                        end;
           array_length := array_length o |}
  else
    inr {| own := assoc_set k x (own o); inherited := inherited o;
           array_length :=
             match array_length o, array_index k with
             | Some n, Some i => Some (N.max n (i + 1))
             | len, _ => len
             end |}.

(** [packageJson[k] = x]; [strict] is the mode of the enclosing script. *)
Definition value_set (strict : bool) (v : value) (k : string) (x : json)
  : error + value :=
  match v with
  | Prim JNull => inl TypeError
  | Prim j => if strict then inl TypeError else inr (Prim j)
  | Obj o =>
      match obj_set o k x with
      | inl e => inl e
      | inr o' => inr (Obj o')
      end
  end.

(** [o[k][inner] = x] where [o[k]] is an object: the nested object is
    shared, so the change shows through whichever property holds it. *)
Definition nested_set (k inner : string) (x : json)
  (l : list (string * json)) : list (string * json) :=
  match assoc k l with
  | Some (JObj props) => assoc_set k (JObj (assoc_set inner x props)) l
  | _ => l
  end.

Definition value_set_nested (v : value) (k inner : string) (x : json) : value :=
  match v with
  | Prim j => Prim j
  | Obj o =>
      if is_own o k then
        Obj {| own := nested_set k inner x (own o); inherited := inherited o;
               array_length := array_length o |}
      else
        Obj {| own := own o; inherited := nested_set k inner x (inherited o);
               array_length := array_length o |}
  end.

(** ** Strings *)

Definition is_space (c : ascii) : bool :=
  let n := N_of_ascii c in
  ((9 <=? n)%N && (n <=? 13)%N) || (n =? 32)%N || (n =? 160)%N.

Fixpoint trimStart (s : string) : string :=
  match s with
  | String c s' => if is_space c then trimStart s' else s
  | EmptyString => s
  end.

Definition hex_digit (c : ascii) : option N :=
  let n := N_of_ascii c in
  if (48 <=? n)%N && (n <=? 57)%N then Some (n - 48)%N
  else if (65 <=? n)%N && (n <=? 70)%N then Some (n - 55)%N
  else if (97 <=? n)%N && (n <=? 102)%N then Some (n - 87)%N
  else None.

(** The longest prefix of digits in the radix, as a number; [None] when
    there is no digit. *)
Fixpoint leading (dig : ascii -> option N) (radix : N) (acc : option N)
  (s : string) : option N :=
  match s with
  | EmptyString => acc
  | String c s' =>
      match dig c with
      | Some d => leading dig radix (Some (radix * default 0%N acc + d)%N) s'
      | None => acc
      end
  end.

(** [parseInt(s)] without a radix argument; [None] is [NaN].  The result
    is compared with list lengths and used as an index only, which the
    rounding of very long digit strings to a double does not affect. *)
Definition parseInt (s : string) : option Z :=
  let s1 := trimStart s in
  let '(neg, s2) :=
    match s1 with
    | String "-" r => (true, r)
    | String "+" r => (false, r)
    | _ => (false, s1)
    end in
  let n :=
    match s2 with
    | String "0" (String "x" r) | String "0" (String "X" r) =>
        leading hex_digit 16 None r
    | _ => leading digit 10 None s2
    end in
  (fun m => if neg then (- Z.of_N m)%Z else Z.of_N m) <$> n.

(** [s.split(sep)] for a one-character separator. *)
Fixpoint split (sep : ascii) (s : string) : list string :=
  match s with
  | EmptyString => [EmptyString]
  | String c s' =>
      if Ascii.eqb c sep then EmptyString :: split sep s'
      else match split sep s' with
           | w :: ws => String c w :: ws
           | [] => [String c EmptyString]
           end
  end.

Definition charAt0 (s : string) : string :=
  match s with
  | String c _ => String c EmptyString
  | EmptyString => EmptyString
  end.

Definition slice1 (s : string) : string :=
  match s with
  | String _ s' => s'
  | EmptyString => EmptyString
  end.

Fixpoint join (sep : string) (l : list string) : string :=
  match l with
  | [] => EmptyString
  | [w] => w
  | w :: ws => w +:+ sep +:+ join sep ws
  end.

Definition startsWith (s : string) (c : ascii) : bool :=
  match s with
  | String c' _ => Ascii.eqb c' c
  | EmptyString => false
  end.

Definition includes (l : list string) (x : string) : bool :=
  bool_decide (x ∈ l).

(** Whether the conversion to a string, as a template literal performs it
    on a parsed value, throws.  Primitives convert; an array is joined, its
    elements converted in turn, [null] printing as nothing; an object is
    converted by its [toString], and a parsed object with a property of
    that name holds a value there, not a function: the conversion falls
    back on [valueOf], which is not callable either or hands the object
    back, and ends in a TypeError.  An object without such a property
    prints as [[object Object]]. *)
Fixpoint unprintable (v : json) : bool :=
  match v with
  | JObj props =>
      match assoc "toString" props with Some _ => true | None => false end
  | JArr items => existsb unprintable items
  | _ => false
  end.

(** The replacement text of [String.prototype.replace] for a pattern
    without capture groups: [$$] is a dollar sign, [$&] the matched text,
    [$`] what precedes the match in the subject and [$'] what follows
    it; a dollar sign before anything else, a digit included, stands for
    itself. *)
Fixpoint GetSubstitution (matched before after replacement : string)
  : string :=
  match replacement with
  | String "$" (String "$" r) =>
      String "$" (GetSubstitution matched before after r)
  | String "$" (String "&" r) =>
      matched +:+ GetSubstitution matched before after r
  | String "$" (String "`" r) =>
      before +:+ GetSubstitution matched before after r
  | String "$" (String "'" r) =>
      after +:+ GetSubstitution matched before after r
  | String c r => String c (GetSubstitution matched before after r)
  | EmptyString => EmptyString
  end.

Fixpoint drop_chars (n : nat) (s : string) : string :=
  match n, s with
  | S n', String _ s' => drop_chars n' s'
  | _, _ => s
  end.

(** The scan of [subject.replace(/pattern/g, replacement)], at the
    subject's suffix [s] with [before] already passed; [skip] counts the
    characters of a match that are still to be stepped over. *)
Fixpoint replace_from (pattern replacement before : string) (skip : nat)
  (s : string) : string :=
  match s with
  | EmptyString => EmptyString
  | String c s' =>
      let before' := before +:+ String c EmptyString in
      match skip with
      | S k => replace_from pattern replacement before' k s'
      | O =>
          if String.prefix pattern s then
            GetSubstitution pattern before
              (drop_chars (String.length pattern) s) replacement
            +:+ replace_from pattern replacement before'
                  (String.length pattern - 1) s'
          else String c (replace_from pattern replacement before' 0 s')
      end
  end.

(** [subject.replace(/pattern/g, replacement)] for a regular expression
    that is a non-empty run of literal characters, as the two patterns of
    the scripts are: every occurrence met from left to right, none
    overlapping the one before, is replaced. *)
Definition replace_g (pattern replacement subject : string) : string :=
  replace_from pattern replacement EmptyString 0 subject.

End Js.

(* ===================================================================== *)
(** * The file system *)
(* ===================================================================== *)

Module Fs.
Import Js.

(** A file is what the scripts observe of it.  [Json j] is a file holding
    a JSON document, identified with the value [JSON.parse] returns for
    it; [Text s] is a file holding the characters [s], which the scripts
    never parse with success: it is a text that is no JSON document, or a
    documentation file, which they write and read as characters only. *)
Inductive content : Type :=
| Text (s : string)
| Json (j : json).

Inductive entry : Type :=
| File (c : content)
| Dir.

(** A path is its list of components below the root; the file system maps
    the paths that exist to what they hold.  Links are not modelled. *)
Abbreviation path := (list string).
Abbreviation tree := (gmap (list string) entry).

Definition dirname (p : path) : path := removelast p.

Definition existsSync (fs : tree) (p : path) : bool :=
  match fs !! p with Some _ => true | None => false end.

Definition isDirectory (fs : tree) (p : path) : error + bool :=
  match fs !! p with
  | Some Dir => inr true
  | Some (File _) => inr false
  | None => inl (SystemError "ENOENT")
  end.

Fixpoint child_of (p q : path) : option string :=
  match p, q with
  | [], [n] => Some n
  | a :: p', b :: q' => if String.eqb a b then child_of p' q' else None
  | _, _ => None
  end.

Definition children (fs : tree) (p : path) : list string :=
  omap (fun kv => child_of p kv.1) (map_to_list fs).

Definition readdirSync (fs : tree) (p : path) : error + list string :=
  match fs !! p with
  | Some Dir => inr (children fs p)
  | Some (File _) => inl (SystemError "ENOTDIR")
  | None => inl (SystemError "ENOENT")
  end.

Definition readFileSync (fs : tree) (p : path) : error + content :=
  match fs !! p with
  | Some (File c) => inr c
  | Some Dir => inl (SystemError "EISDIR")
  | None => inl (SystemError "ENOENT")
  end.

Definition JSON_parse (c : content) : error + json :=
  match c with
  | Json j => inr j
  | _ => inl SyntaxError
  end.

(** Writing needs the parent directory and refuses a directory. *)
Definition writeFileSync (fs : tree) (p : path) (c : content) : error + tree :=
  match fs !! p with
  | Some Dir => inl (SystemError "EISDIR")
  | _ =>
      match fs !! dirname p with
      | Some Dir => inr (<[p := File c]> fs)
      | Some (File _) => inl (SystemError "ENOTDIR")
      | None => inl (SystemError "ENOENT")
      end
  end.

Definition copyFileSync (fs : tree) (src dest : path) : error + tree :=
  match readFileSync fs src with
  | inl e => inl e
  | inr c => writeFileSync fs dest c
  end.

Definition unlinkSync (fs : tree) (p : path) : error + tree :=
  match fs !! p with
  | Some (File _) => inr (delete p fs)
  | Some Dir => inl (SystemError "EISDIR")
  | None => inl (SystemError "ENOENT")
  end.

Definition prefixes (p : path) : list path :=
  map (fun n => take n p) (seq 0 (S (length p))).

Definition mkdir_step (acc : error + tree) (q : path) : error + tree :=
  match acc with
  | inl e => inl e
  | inr fs =>
      match fs !! q with
      | None => inr (<[q := Dir]> fs)
      | Some Dir => inr fs
      | Some (File _) => inl (SystemError "ENOTDIR")
      end
  end.

(** [fs.mkdirSync(p, { recursive: true })]: the directory and every
    missing ancestor. *)
Definition mkdirSync (fs : tree) (p : path) : error + tree :=
  fold_left mkdir_step (prefixes p) (inr fs).

End Fs.

(* ===================================================================== *)
(** * The process: files, terminal, control *)
(* ===================================================================== *)

Module Proc.
Import Js Fs.

(** Lines the scripts print that tell runs apart.  Menus, banners and the
    next-steps block are decoration and are not recorded. *)
Inductive message : Type :=
| Usage
| DirectoryExists (appName : string)
| TemplatesDirMissing
| TemplatesNotFound
| PackageNotFound
| UsingDevTemplates
| TemplateDirNotFound (src : path)
| InvalidChoice (upper : nat)
| SelectBetween (upper : nat)
| EnterYesNo
| ConfigNotApplied
| DocTemplateMissing (name : string)
| Creating (appName : string)
| Summary (template backend : string) (target : path) (docs : bool)
| Created
| ErrorCreatingApp (e : error).

Inductive event : Type :=
| Prompt (text : string)
| Stdout (m : message)
| Stderr (m : message).

(** [manifest] is the object bound to [packageJson] while the patcher
    runs: it is mutated in place, so what a failed [try] block did to it
    is still there after the [catch]. *)
Record world : Type := {
  files : tree;
  stdin : list string;
  log : list event;
  manifest : value
}.

Inductive result (A : Type) : Type :=
| Return (a : A) (w : world)
| Throw (e : error) (w : world)
| Exit (code : Z) (w : world)       (* process.exit(code) *)
| Blocked (w : world)               (* waiting for a line that never comes *)
| OutOfFuel (w : world).
Arguments Return {A}. Arguments Throw {A}. Arguments Exit {A}.
Arguments Blocked {A}. Arguments OutOfFuel {A}.

Definition final {A} (r : result A) : world :=
  match r with
  | Return _ w | Throw _ w | Exit _ w | Blocked w | OutOfFuel w => w
  end.

(** How a run ended, without the world it ended in. *)
Inductive outcome : Type :=
| Returned
| Thrown (e : error)
| Exited (code : Z)
| Waiting
| Starved.

Definition outcome_of {A} (r : result A) : outcome :=
  match r with
  | Return _ _ => Returned
  | Throw e _ => Thrown e
  | Exit c _ => Exited c
  | Blocked _ => Waiting
  | OutOfFuel _ => Starved
  end.

Definition M (A : Type) : Type := world -> result A.

Definition ret {A} (a : A) : M A := fun w => Return a w.

Definition bind {A B} (m : M A) (k : A -> M B) : M B :=
  fun w =>
    match m w with
    | Return a w' => k a w'
    | Throw e w' => Throw e w'
    | Exit c w' => Exit c w'
    | Blocked w' => Blocked w'
    | OutOfFuel w' => OutOfFuel w'
    end.

Notation "x <- m ;; k" := (bind m (fun x => k))
  (at level 100, m at next level, right associativity).
Notation "m ;; k" := (bind m (fun _ => k))
  (at level 100, right associativity).

Definition throw {A} (e : error) : M A := fun w => Throw e w.
Definition exit {A} (code : Z) : M A := fun w => Exit code w.
Definition out_of_fuel {A} : M A := fun w => OutOfFuel w.

(** [try { m } catch (e) { h e }]; [process.exit] is not an exception. *)
Definition try_catch {A} (m : M A) (h : error -> M A) : M A :=
  fun w =>
    match m w with
    | Throw e w' => h e w'
    | r => r
    end.

Definition lift {A} (r : error + A) : M A :=
  match r with
  | inl e => throw e
  | inr a => ret a
  end.

Definition with_files (w : world) (fs : tree) : world :=
  {| files := fs; stdin := stdin w; log := log w; manifest := manifest w |}.

Definition emit (e : event) : M unit :=
  fun w => Return tt {| files := files w; stdin := stdin w;
                        log := log w ++ [e]; manifest := manifest w |}.

Definition console_log (m : message) : M unit := emit (Stdout m).
Definition console_error (m : message) : M unit := emit (Stderr m).

(** Reading the file system. *)
Definition reading {A} (f : tree -> error + A) : M A :=
  fun w => lift (f (files w)) w.

(** Changing it. *)
Definition writing (f : tree -> error + tree) : M unit :=
  fun w =>
    match f (files w) with
    | inl e => Throw e w
    | inr fs => Return tt (with_files w fs)
    end.

Definition exists_ (p : path) : M bool :=
  fun w => Return (existsSync (files w) p) w.

(** [await question(prompt)]: print the prompt, take the next line. *)
Definition question (prompt : string) : M string :=
  fun w =>
    match stdin w with
    | [] => Blocked {| files := files w; stdin := []; manifest := manifest w;
                       log := log w ++ [Prompt prompt] |}
    | line :: rest =>
        Return line {| files := files w; stdin := rest;
                       manifest := manifest w;
                       log := log w ++ [Prompt prompt] |}
    end.

Fixpoint forEach {A} (l : list A) (f : A -> M unit) : M unit :=
  match l with
  | [] => ret tt
  | x :: l' => f x ;; forEach l' f
  end.

Definition when (b : bool) (m : M unit) : M unit := if b then m else ret tt.

(** The manifest cell. *)
Definition bind_manifest (v : value) : M unit :=
  fun w => Return tt {| files := files w; stdin := stdin w; log := log w;
                        manifest := v |}.

Definition the_manifest : M value := fun w => Return (manifest w) w.

(** [packageJson[k]] and [packageJson[k] = x] *)
Definition manifest_get (k : string) : M (option json) :=
  fun w => lift (value_get (manifest w) k) w.

Definition manifest_set_nested (k inner : string) (x : json) : M unit :=
  fun w => bind_manifest (value_set_nested (manifest w) k inner x) w.

Definition manifest_set (strict : bool) (k : string) (x : json) : M unit :=
  fun w =>
    match value_set strict (manifest w) k x with
    | inl e => Throw e w
    | inr v => bind_manifest v w
    end.

(** What the host gives the script: the collation behind [localeCompare],
    the case mapping behind [toUpperCase], [path.resolve] against the
    working directory, [__dirname], (for the oldest script) the entry
    point [require.resolve] finds for [@posit/shiny-react], if any, and
    the characters of the JSON documents on its disk, which matter only
    if such a document is read as a text. *)
Record host : Type := {
  localeCompare : string -> string -> Z;
  toUpperCase : string -> string;
  resolve : string -> path;
  dirname__ : path;
  require_resolve : option path;
  characters : json -> string
}.

(** [fs.readFileSync(p, "utf8")] as the string it is. *)
Definition utf8 (h : host) (c : content) : string :=
  match c with
  | Text s => s
  | Json j => characters h j
  end.

End Proc.

(* ===================================================================== *)
(** * Functions the three scripts share *)
(* ===================================================================== *)

Module Shared.
Import Js Fs Proc.

Record template : Type := {
  id : string;
  name : string;
  description : json
}.

Record backend : Type := {
  backend_id : string;
  backend_name : string
}.

(** [arr[i]] for a number [i]; [None] as index is [NaN], [None] as result
    is [undefined]. *)
Definition at_index {A} (arr : list A) (i : option Z) : option A :=
  match i with
  | Some z => if (z <? 0)%Z then None else arr !! Z.to_nat z
  | None => None
  end.

(** [i < 0 || i >= n], false on [NaN]. *)
Definition out_of_range (i : option Z) (n : nat) : bool :=
  match i with
  | Some z => (z <? 0)%Z || (Z.of_nat n <=? z)%Z
  | None => false
  end.

(** [parseInt(answer || dflt) - 1] *)
Definition choice (answer dflt : string) : option Z :=
  (fun z => z - 1)%Z <$> parseInt (if String.eqb answer EmptyString then dflt else answer).

Definition lower (c : ascii) : ascii :=
  let n := N_of_ascii c in
  if (65 <=? n)%N && (n <=? 90)%N then ascii_of_N (n + 32) else c.

(** [toLowerCase], used only to compare an answer with [y], [yes], [n],
    [no]: letters outside ASCII never map onto these. *)
Definition toLowerCase (s : string) : string :=
  string_of_list_ascii (map lower (list_ascii_of_string s)).

(** [do { ... } while (true)] around one [question]: the body answers
    [Some a] where the source breaks out with [a]. *)
Fixpoint do_while {A} (n : nat) (body : M (option A)) : M A :=
  match n with
  | O => out_of_fuel
  | S n' =>
      r <- body ;;
      match r with
      | Some a => ret a
      | None => do_while n' body
      end
  end.

(** Every round takes a line, so the lines left bound the rounds. *)
Definition loop {A} (body : M (option A)) : M A :=
  fun w => do_while (S (length (stdin w))) body w.

Section Discovery.
Context (h : host).
(** The filter on entry names: the scripts differ in it. *)
Context (keep : string -> bool).

Definition capitalize (part : string) : string :=
  toUpperCase h (charAt0 part) +:+ slice1 part.

Definition default_description : json := JStr "Shiny-React template".

(** The body of the [for] loop for an entry that passed the filter. *)
Definition describe (templatePath : path) (entry : string) : M template :=
  let packageJsonPath := templatePath ++ ["package.json"] in
  has <- exists_ packageJsonPath ;;
  info <-
    (if has then
       try_catch
         (text <- reading (fun fs => readFileSync fs packageJsonPath) ;;
          packageJson <- lift (JSON_parse text) ;;
          d <- lift (get packageJson "description") ;;
          let description :=
            if truthy d then default default_description d
            else default_description in
          let nameParts := tail (split "-" entry) in
          let name :=
            match nameParts with
            | [] => entry
            | _ => join " " (map capitalize nameParts)
            end in
          ret (name, description))
         (fun _ => ret (entry, default_description))
     else ret (entry, default_description)) ;;
  ret {| id := entry; name := info.1; description := info.2 |}.

Fixpoint collect (templatesDir : path) (entries : list string)
  : M (list template) :=
  match entries with
  | [] => ret []
  | entry :: rest =>
      let templatePath := templatesDir ++ [entry] in
      isDir <- reading (fun fs => isDirectory fs templatePath) ;;
      if isDir && keep entry then
        t <- describe templatePath entry ;;
        ts <- collect templatesDir rest ;;
        ret (t :: ts)
      else collect templatesDir rest
  end.

Fixpoint insert (t : template) (l : list template) : list template :=
  match l with
  | [] => [t]
  | u :: l' =>
      if (localeCompare h (id t) (id u) <=? 0)%Z then t :: l
      else u :: insert t l'
  end.

(** [templates.sort((a, b) => a.id.localeCompare(b.id))].  The sort is
    stable by specification, so for a consistent comparison its result
    is determined; insertion from the right computes it. *)
Definition sort (l : list template) : list template :=
  fold_right insert [] l.

(** The loop and the sort, for a given directory listing. *)
Definition templatesFrom (templatesDir : path) (entries : list string)
  : M (list template) :=
  templates <- collect templatesDir entries ;;
  ret (sort templates).

Definition getAvailableTemplates (templatesDir : path)
  : M (list template) :=
  present <- exists_ templatesDir ;;
  if negb present then
    console_error TemplatesNotFound ;; exit 1
  else
    entries <- reading (fun fs => readdirSync fs templatesDir) ;;
    templatesFrom templatesDir entries.
End Discovery.

Section Copy.
(** The static skip test: the scripts differ in it. *)
Context (skipped : string -> bool).

Fixpoint copyRecursive (fuel : nat) (src dest : path)
  (skipBackends : list string) : M unit :=
  match fuel with
  | O => out_of_fuel
  | S fuel' =>
      present <- exists_ src ;;
      if negb present then
        console_error (TemplateDirNotFound src) ;; exit 1
      else
        isDir <- reading (fun fs => isDirectory fs src) ;;
        if isDir then
          there <- exists_ dest ;;
          when (negb there) (writing (fun fs => mkdirSync fs dest)) ;;
          files <- reading (fun fs => readdirSync fs src) ;;
          forEach files (fun file =>
            if skipped file then ret tt
            else if includes skipBackends file then ret tt
            else copyRecursive fuel' (src ++ [file]) (dest ++ [file])
                               skipBackends)
        else
          writing (fun fs => copyFileSync fs src dest)
  end.
End Copy.

(** [x.id] on a value that may be [undefined]. *)
Definition deref {A} (x : option A) : M A :=
  match x with
  | Some a => ret a
  | None => throw TypeError
  end.

(** [skipBackends] as [main] computes it from the selected backend. *)
Definition skipBackends_for (selected : string) : list string :=
  if String.eqb selected "r" then ["py"]
  else if String.eqb selected "py" then ["r"]
  else [].

(** The documentation step for one file that is customised on the way:
    read as text, every match of the pattern replaced, written as
    text. *)
Definition render_doc (h : host) (templatesDir targetDir : path)
  (source dest pattern appName : string) : M unit :=
  let src := templatesDir ++ [source] in
  present <- exists_ src ;;
  if present then
    c <- reading (fun fs => readFileSync fs src) ;;
    let claudeContent := utf8 h c in
    let claudeContent := replace_g pattern appName claudeContent in
    writing (fun fs => writeFileSync fs (targetDir ++ [dest])
                         (Text claudeContent))
  else console_log (DocTemplateMissing source).

(** [showTemplates]: the menu lines are decoration, but each one is built
    with [`${template.description}`], and a description is whatever truthy
    value the metadata holds: the conversion can throw. *)
Definition showTemplates (templates : list template) : M unit :=
  forEach templates (fun template =>
    if unprintable (description template) then throw TypeError
    else ret tt).

End Shared.

(* ===================================================================== *)
(** * Part002: the CommonJS script with [SKIP_PATHS] *)
(* ===================================================================== *)

Module Part002.
Import Js Fs Proc Shared.

Definition BACKENDS : list backend :=
  [ {| backend_id := "r"; backend_name := "R (Shiny for R)" |};
    {| backend_id := "py"; backend_name := "Python (Shiny for Python)" |};
    {| backend_id := "both"; backend_name := "Both R and Python" |} ].

Definition SKIP_PATHS : list string :=
  ["node_modules"; "www"; "__pycache__"; ".DS_Store"].

(** A CommonJS file without a directive runs in sloppy mode. *)
Definition strict : bool := false.

Definition getAvailableTemplates (h : host) : path -> M (list template) :=
  Shared.getAvailableTemplates h (fun entry => negb (includes SKIP_PATHS entry)).

Definition copyRecursive : nat -> path -> path -> list string -> M unit :=
  Shared.copyRecursive (includes SKIP_PATHS).

(** The [try] block of [updatePackageJson]. *)
Definition apply_config (packageConfigPath : path) (selectedBackend : string)
  : M unit :=
  text <- reading (fun fs => readFileSync fs packageConfigPath) ;;
  packageConfig <- lift (JSON_parse text) ;;
  backendConfig <- lift (get packageConfig selectedBackend) ;;
  when (truthy backendConfig)
    (let scripts := assoc "scripts" (own_props backendConfig) in
     when (truthy scripts)
       (manifest_set strict "scripts" (default JNull scripts)) ;;
     forEach (own_props backendConfig).*1 (fun key =>
       if negb (String.eqb key "scripts") then
         current <- manifest_get key ;;
         manifest_set strict key
           (spread current (assoc key (own_props backendConfig)))
       else ret tt)) ;;
  writing (fun fs => unlinkSync fs packageConfigPath).

Definition updatePackageJson (targetDir : path) (appName : string)
  (selectedBackend : string) : M unit :=
  let packageJsonPath := targetDir ++ ["package.json"] in
  let packageConfigPath := targetDir ++ ["package-config.json"] in
  present <- exists_ packageJsonPath ;;
  when present
    (text <- reading (fun fs => readFileSync fs packageJsonPath) ;;
     parsed <- lift (JSON_parse text) ;;
     bind_manifest (of_json parsed) ;;
     manifest_set strict "name" (JStr appName) ;;
     configured <- exists_ packageConfigPath ;;
     when configured
       (try_catch (apply_config packageConfigPath selectedBackend)
                  (fun _ => console_log ConfigNotApplied)) ;;
     packageJson <- the_manifest ;;
     writing (fun fs => writeFileSync fs packageJsonPath
                          (Json (to_json packageJson)))).

(** The [do ... while] around the documentation question. *)
Definition ask_docs : M bool :=
  loop
    (includeClaude <- question "Include CLAUDE.md for LLM assistance? (Y/n): " ;;
     let lowerResponse := toLowerCase includeClaude in
     if String.eqb lowerResponse "n" || String.eqb lowerResponse "no" then
       ret (Some false)
     else if String.eqb lowerResponse "y" || String.eqb lowerResponse "yes"
             || String.eqb lowerResponse EmptyString then
       ret (Some true)
     else
       console_log EnterYesNo ;; ret None).

Definition main (h : host) (fuel : nat) (args : list string) : M unit :=
  match args with
  | [appName] =>
      let targetDir := resolve h appName in
      there <- exists_ targetDir ;;
      if there then
        console_error (DirectoryExists appName) ;; exit 1
      else
        let cliPackageDir := dirname (dirname__ h) in
        let templatesDir := cliPackageDir ++ ["templates"] in
        present <- exists_ templatesDir ;;
        if negb present then
          console_error TemplatesDirMissing ;; exit 1
        else
          availableTemplates <- getAvailableTemplates h templatesDir ;;
          try_catch
            (console_log (Creating appName) ;;
             showTemplates availableTemplates ;;
             templateChoice <-
               question ("Choose a template (1-"
                         +:+ pretty (length availableTemplates) +:+ ") [1]: ") ;;
             let choiceIndex := choice templateChoice "1" in
             if out_of_range choiceIndex (length availableTemplates) then
               console_error (InvalidChoice (length availableTemplates)) ;;
               exit 1
             else
               let selectedTemplate := at_index availableTemplates choiceIndex in
               template <- deref selectedTemplate ;;
               let templateDir := templatesDir ++ [id template] in
               backendChoice <- question "Choose a backend (1-3) [3]: " ;;
               let backendIndex := choice backendChoice "3" in
               if out_of_range backendIndex (length BACKENDS) then
                 console_error (InvalidChoice 3) ;; exit 1
               else
                 let selectedBackend := at_index BACKENDS backendIndex in
                 backend <- deref selectedBackend ;;
                 let skipBackends := skipBackends_for (backend_id backend) in
                 shouldIncludeClaude <- ask_docs ;;
                 console_log (Summary (id template) (backend_id backend)
                                      targetDir shouldIncludeClaude) ;;
                 copyRecursive fuel templateDir targetDir skipBackends ;;
                 updatePackageJson targetDir appName (backend_id backend) ;;
                 when shouldIncludeClaude
                   (render_doc h templatesDir targetDir "CLAUDE.md.template"
                               "CLAUDE.md" "hello-world-app" appName) ;;
                 console_log Created)
            (fun error => console_error (ErrorCreatingApp error) ;; exit 1)
  | _ =>
      console_log Usage ;; exit 1
  end.

End Part002.

(* ===================================================================== *)
(** * Part001: the ES-module script *)
(* ===================================================================== *)

Module Part001.
Import Js Fs Proc Shared.

Definition BACKENDS : list backend :=
  [ {| backend_id := "r"; backend_name := "R (Shiny for R)" |};
    {| backend_id := "py"; backend_name := "Python (Shiny for Python)" |} ].

Definition SKIP_PATHS : list string :=
  ["node_modules"; "www"; "__pycache__"; ".DS_Store"].

(** An ES module runs in strict mode. *)
Definition strict : bool := true.

Definition getAvailableTemplates (h : host) : path -> M (list template) :=
  Shared.getAvailableTemplates h (fun entry => negb (includes SKIP_PATHS entry)).

Definition copyRecursive : nat -> path -> path -> list string -> M unit :=
  Shared.copyRecursive (includes SKIP_PATHS).

(** The [try] block of [updatePackageJson]. *)
Definition apply_custom (packageCustomPath : path) (selectedBackend : string)
  : M unit :=
  text <- reading (fun fs => readFileSync fs packageCustomPath) ;;
  packageConfig <- lift (JSON_parse text) ;;
  backendConfig <- lift (get packageConfig selectedBackend) ;;
  when (truthy backendConfig)
    (forEach (own_props backendConfig).*1 (fun key =>
       current <- manifest_get key ;;
       manifest_set strict key
         (spread current (assoc key (own_props backendConfig))))) ;;
  writing (fun fs => unlinkSync fs packageCustomPath).

Definition updatePackageJson (targetDir : path) (appName : string)
  (selectedBackend : string) : M unit :=
  let packageJsonPath := targetDir ++ ["package.json"] in
  let packageCustomPath := targetDir ++ ["package-custom.json"] in
  present <- exists_ packageJsonPath ;;
  when present
    (text <- reading (fun fs => readFileSync fs packageJsonPath) ;;
     parsed <- lift (JSON_parse text) ;;
     bind_manifest (of_json parsed) ;;
     manifest_set strict "name" (JStr appName) ;;
     customized <- exists_ packageCustomPath ;;
     when customized
       (try_catch (apply_custom packageCustomPath selectedBackend)
                  (fun _ => console_log ConfigNotApplied)) ;;
     packageJson <- the_manifest ;;
     writing (fun fs => writeFileSync fs packageJsonPath
                          (Json (to_json packageJson)))).

Definition managers : list string := ["uv"; "pip"; "none"].

Definition ask_package_manager : M (option string) :=
  loop
    (packageManagerChoice <- question "Choose package manager (1-3) [1]: " ;;
     let pmIndex := choice packageManagerChoice "1" in
     match pmIndex with
     | Some i =>
         if (0 <=? i)%Z && (i <=? 2)%Z then
           ret (Some (at_index managers pmIndex))
         else console_log (SelectBetween 3) ;; ret None
     | None => console_log (SelectBetween 3) ;; ret None
     end).

Definition ask_docs : M bool :=
  loop
    (claudeChoice <- question "Choose an option (1-2) [1]: " ;;
     let choiceIndex := choice claudeChoice "1" in
     match choiceIndex with
     | Some 0%Z => ret (Some true)
     | Some 1%Z => ret (Some false)
     | _ => console_log (SelectBetween 2) ;; ret None
     end).

Definition main (h : host) (fuel : nat) (args : list string) : M unit :=
  match args with
  | [appName] =>
      let targetDir := resolve h appName in
      there <- exists_ targetDir ;;
      if there then
        console_error (DirectoryExists appName) ;; exit 1
      else
        let cliPackageDir := dirname (dirname__ h) in
        let templatesDir := cliPackageDir ++ ["templates"] in
        present <- exists_ templatesDir ;;
        if negb present then
          console_error TemplatesDirMissing ;; exit 1
        else
          availableTemplates <- getAvailableTemplates h templatesDir ;;
          try_catch
            (console_log (Creating appName) ;;
             showTemplates availableTemplates ;;
             templateChoice <-
               question ("Choose a template (1-"
                         +:+ pretty (length availableTemplates) +:+ ") [2]: ") ;;
             let choiceIndex := choice templateChoice "2" in
             if out_of_range choiceIndex (length availableTemplates) then
               console_error (InvalidChoice (length availableTemplates)) ;;
               exit 1
             else
               let selectedTemplate := at_index availableTemplates choiceIndex in
               template <- deref selectedTemplate ;;
               let templateDir := templatesDir ++ [id template] in
               backendChoice <- question "Choose a backend (1-2) [1]: " ;;
               let backendIndex := choice backendChoice "3" in
               if out_of_range backendIndex (length BACKENDS) then
                 console_error (InvalidChoice 2) ;; exit 1
               else
                 let selectedBackend := at_index BACKENDS backendIndex in
                 backend <- deref selectedBackend ;;
                 let skipBackends := skipBackends_for (backend_id backend) in
                 pythonPackageManager <-
                   (if String.eqb (backend_id backend) "py"
                    then ask_package_manager else ret None) ;;
                 shouldIncludeClaude <- ask_docs ;;
                 console_log (Summary (id template) (backend_id backend)
                                      targetDir shouldIncludeClaude) ;;
                 copyRecursive fuel templateDir targetDir skipBackends ;;
                 updatePackageJson targetDir appName (backend_id backend) ;;
                 when shouldIncludeClaude
                   (render_doc h templatesDir targetDir "CLAUDE.md.template"
                               "CLAUDE.md" "{project_name}" appName ;;
                    let shinyReactDocsPath := templatesDir ++ ["SHINY-REACT.md"] in
                    documented <- exists_ shinyReactDocsPath ;;
                    if documented then
                      writing (fun fs =>
                        copyFileSync fs shinyReactDocsPath
                                     (targetDir ++ ["SHINY-REACT.md"]))
                    else console_log (DocTemplateMissing "SHINY-REACT.md")) ;;
                 console_log Created)
            (fun error => console_error (ErrorCreatingApp error) ;; exit 1)
  | _ =>
      console_log Usage ;; exit 1
  end.

End Part001.

(* ===================================================================== *)
(** * Part003: the oldest script *)
(* ===================================================================== *)

Module Part003.
Import Js Fs Proc Shared.

Definition BACKENDS : list backend :=
  [ {| backend_id := "r"; backend_name := "R (Shiny for R)" |};
    {| backend_id := "py"; backend_name := "Python (Shiny for Python)" |};
    {| backend_id := "both"; backend_name := "Both R and Python" |} ].

Definition strict : bool := false.

Definition getAvailableTemplates (h : host) : path -> M (list template) :=
  Shared.getAvailableTemplates h (fun entry => negb (startsWith entry ".")).

(** [file === "node_modules" || file === "www"] *)
Definition skipped (file : string) : bool :=
  String.eqb file "node_modules" || String.eqb file "www".

Definition copyRecursive : nat -> path -> path -> list string -> M unit :=
  Shared.copyRecursive skipped.

Definition dq : string := String "034"%char EmptyString.

Definition esbuild (outdir tail : string) : string :=
  "esbuild srcts/main.tsx --bundle --outfile=" +:+ outdir
  +:+ "/www/main.js --format=esm --minify --alias:react=react" +:+ tail.

Definition concurrently (commands : list string) : string :=
  "concurrently " +:+ join " " (map (fun c => dq +:+ c +:+ dq) commands).

(** The [scripts] object built from the backend id. *)
Definition scripts_for (selectedBackend : string) : list (string * json) :=
  if String.eqb selectedBackend "r" then
    [ ("build", JStr (esbuild "r" " && tsc --noEmit"));
      ("watch", JStr (concurrently [esbuild "r" " --watch"; "tsc --noEmit --watch"]));
      ("clean", JStr "rm -rf r/www") ]
  else if String.eqb selectedBackend "py" then
    [ ("build", JStr (esbuild "py" " && tsc --noEmit"));
      ("watch", JStr (concurrently [esbuild "py" " --watch"; "tsc --noEmit --watch"]));
      ("clean", JStr "rm -rf py/www") ]
  else if String.eqb selectedBackend "both" then
    [ ("build", JStr (concurrently ["npm run build-r"; "npm run build-py"; "tsc --noEmit"]));
      ("watch", JStr (concurrently ["npm run watch-r"; "npm run watch-py"; "tsc --noEmit --watch"]));
      ("build-r", JStr (esbuild "r" EmptyString));
      ("watch-r", JStr (esbuild "r" " --watch"));
      ("build-py", JStr (esbuild "py" EmptyString));
      ("watch-py", JStr (esbuild "py" " --watch"));
      ("clean", JStr "rm -rf r/www py/www") ]
  else [].

Definition updatePackageJson (targetDir : path) (appName : string)
  (selectedBackend : string) : M unit :=
  let packageJsonPath := targetDir ++ ["package.json"] in
  present <- exists_ packageJsonPath ;;
  when present
    (text <- reading (fun fs => readFileSync fs packageJsonPath) ;;
     parsed <- lift (JSON_parse text) ;;
     bind_manifest (of_json parsed) ;;
     manifest_set strict "name" (JStr appName) ;;
     manifest_set strict "version" (JStr "1.0.0") ;;
     dependencies <- manifest_get "dependencies" ;;
     when (truthy dependencies
           && truthy (assoc "@posit/shiny-react" (own_props dependencies)))
       (manifest_set_nested "dependencies" "@posit/shiny-react" (JStr "^0.0.6")) ;;
     manifest_set strict "scripts" (JObj (scripts_for selectedBackend)) ;;
     packageJson <- the_manifest ;;
     writing (fun fs => writeFileSync fs packageJsonPath
                          (Json (to_json packageJson)))).

(** Where the templates are: the installed package, else the development
    checkout. *)
Definition locate_templates (h : host) : M path :=
  let cliPackageDir := dirname (dirname__ h) in
  shinyReactPath <-
    try_catch
      (try_catch
         (match require_resolve h with
          | Some resolvedPath => ret (dirname (dirname resolvedPath))
          | None => throw (Error "Cannot find module")
          end)
         (fun _ =>
            let directPath :=
              cliPackageDir ++ ["node_modules"; "@posit"; "shiny-react"] in
            there <- exists_ directPath ;;
            if there then ret directPath
            else throw (Error "Package not found")))
      (fun _ => console_error PackageNotFound ;; exit 1) ;;
  let templatesDir := shinyReactPath ++ ["templates"] in
  present <- exists_ templatesDir ;;
  if negb present then
    let devTemplatesDir := dirname (dirname (dirname__ h)) ++ ["templates"] in
    dev <- exists_ devTemplatesDir ;;
    if dev then console_log UsingDevTemplates ;; ret devTemplatesDir
    else console_error TemplatesDirMissing ;; exit 1
  else ret templatesDir.

Definition main (h : host) (fuel : nat) (args : list string) : M unit :=
  match args with
  | [appName] =>
      let targetDir := resolve h appName in
      there <- exists_ targetDir ;;
      if there then
        console_error (DirectoryExists appName) ;; exit 1
      else
        templatesDir <- locate_templates h ;;
        availableTemplates <- getAvailableTemplates h templatesDir ;;
        try_catch
          (console_log (Creating appName) ;;
           showTemplates availableTemplates ;;
           templateChoice <-
             question ("Choose a template (1-"
                       +:+ pretty (length availableTemplates) +:+ ") [1]: ") ;;
           let choiceIndex := choice templateChoice "1" in
           if out_of_range choiceIndex (length availableTemplates) then
             console_error (InvalidChoice (length availableTemplates)) ;;
             exit 1
           else
             let selectedTemplate := at_index availableTemplates choiceIndex in
             template <- deref selectedTemplate ;;
             let templateDir := templatesDir ++ [id template] in
             backendChoice <- question "Choose a backend (1-3) [3]: " ;;
             let backendIndex := choice backendChoice "3" in
             if out_of_range backendIndex (length BACKENDS) then
               console_error (InvalidChoice 3) ;; exit 1
             else
               let selectedBackend := at_index BACKENDS backendIndex in
               backend <- deref selectedBackend ;;
               let skipBackends := skipBackends_for (backend_id backend) in
               includeClaude <-
                 question "Include CLAUDE.md for LLM assistance? (y/N): " ;;
               let shouldIncludeClaude :=
                 String.eqb (toLowerCase includeClaude) "y"
                 || String.eqb (toLowerCase includeClaude) "yes" in
               console_log (Summary (id template) (backend_id backend)
                                    targetDir shouldIncludeClaude) ;;
               copyRecursive fuel templateDir targetDir skipBackends ;;
               updatePackageJson targetDir appName (backend_id backend) ;;
               when shouldIncludeClaude
                 (render_doc h templatesDir targetDir "CLAUDE.md.template"
                             "CLAUDE.md" "hello-world-app" appName) ;;
               console_log Created)
          (fun error => console_error (ErrorCreatingApp error) ;; exit 1)
  | _ =>
      console_log Usage ;; exit 1
  end.

(** [getBackendInstructions]: the commands printed at the end of a run. *)
Definition getBackendInstructions (selectedBackend : string) : list string :=
  let instructions := [] in
  let instructions :=
    if String.eqb selectedBackend "r" || String.eqb selectedBackend "both"
    then instructions
         ++ [ "  # For R backend:";
              "  R -e " +:+ dq
              +:+ "options(shiny.autoreload = TRUE); shiny::runApp('r/app.R', port=8000)"
              +:+ dq ]
    else instructions in
  if String.eqb selectedBackend "py" || String.eqb selectedBackend "both"
  then (if Nat.ltb 0 (length instructions)
        then instructions ++ [EmptyString] else instructions)
       ++ [ "  # For Python backend:";
            "  shiny run py/app.py --port 8000 --reload" ]
  else instructions.

End Part003.

(* ===================================================================== *)
(** * Vocabulary for statements about runs *)
(* ===================================================================== *)

Module Runs.
Import Js Fs Proc Shared.

(** The world once the script has taken lines up to [rest] and printed
    [events]. *)
Definition after (w : world) (rest : list string) (events : list event)
  : world :=
  {| files := files w; stdin := rest; log := log w ++ events;
     manifest := manifest w |}.

(** The menu of templates can be printed: every description converts to
    a string. *)
Definition shown (templates : list template) : Prop :=
  forallb (fun t => negb (unprintable (description t))) templates = true.

(** [main] got as far as its first prompt: the target is free, the
    templates directory is found, discovery returned [templates] in world
    [w1], and the menu was printed. *)
Definition ready (discover : path -> M (list template)) (h : host)
  (appName : string) (w : world) (templates : list template) (w1 : world)
  : Prop :=
  existsSync (files w) (resolve h appName) = false
  /\ existsSync (files w) (dirname (dirname__ h) ++ ["templates"]) = true
  /\ discover (dirname (dirname__ h) ++ ["templates"]) w = Return templates w1
  /\ shown templates.

Definition ready003 (h : host) (appName : string) (w : world)
  (templates : list template) (w1 : world) : Prop :=
  existsSync (files w) (resolve h appName) = false
  /\ (exists templatesDir w0,
        Part003.locate_templates h w = Return templatesDir w0
        /\ Part003.getAvailableTemplates h templatesDir w0
           = Return templates w1)
  /\ shown templates.

Definition template_prompt (n : nat) (dflt : string) : string :=
  "Choose a template (1-" +:+ pretty n +:+ ") [" +:+ dflt +:+ "]: ".

(** The answer picks an entry of the list. *)
Definition picks {A} (answer dflt : string) (options : list A) : Prop :=
  out_of_range (choice answer dflt) (length options) = false
  /\ is_Some (at_index options (choice answer dflt)).

(** ** What discovery computes, as a function of the files *)

(** The metadata the loop body gets to use: [package.json] exists, is a
    file, parses, and is not [null]. *)
Definition metadata (fs : tree) (templatePath : path) : option json :=
  match fs !! (templatePath ++ ["package.json"]) with
  | Some (File (Json JNull)) => None
  | Some (File (Json j)) => Some j
  | _ => None
  end.

(** The display name in the words of the specification: drop the segment
    before the first hyphen, capitalise the hyphen-separated words that
    remain. *)
Definition spec_display_name (h : host) (id : string) : string :=
  join " " (map (capitalize h) (tail (split "-" id))).

Definition has_hyphen (s : string) : bool :=
  existsb (Ascii.eqb "-") (list_ascii_of_string s).

Definition described (h : host) (fs : tree) (templatePath : path)
  (entry : string) : template :=
  match metadata fs templatePath with
  | Some j =>
      {| id := entry;
         name := if has_hyphen entry then spec_display_name h entry
                 else entry;
         description :=
           let d := assoc "description" (own_props (Some j)) in
           if truthy d then default default_description d
           else default_description |}
  | None =>
      {| id := entry; name := entry; description := default_description |}
  end.

(** The entries the loop keeps: directories that pass the name filter. *)
Definition listed (keep : string -> bool) (fs : tree) (dir : path)
  (entry : string) : bool :=
  match fs !! (dir ++ [entry]) with
  | Some Dir => keep entry
  | _ => false
  end.

(** ** What the patcher computes, on a manifest that is a JSON object *)

Definition plain (props : list (string * json)) : object :=
  {| own := props; inherited := []; array_length := None |}.

Definition holding (w : world) (v : value) : world :=
  {| files := files w; stdin := stdin w; log := log w; manifest := v |}.

(** One round of the merging loop over the keys of the backend entry; on
    a plain object the assignment cannot throw. *)
Definition merge_round (cond : string -> bool) (entry : option json)
  (o : object) (key : string) : object :=
  if cond key then
    match obj_set o key (spread (obj_get o key)
                                (assoc key (own_props entry))) with
    | inr o' => o'
    | inl _ => o
    end
  else o.

Definition merge_rounds (cond : string -> bool) (entry : option json)
  (keys : list string) (o : object) : object :=
  fold_left (merge_round cond entry) keys o.

(** The manifest object after the [try] block of the [package-config.json]
    script went through: the scripts replaced, the other keys merged. *)
Definition patched002 (entry : option json) (o1 : object) : object :=
  if truthy entry then
    let scripts := assoc "scripts" (own_props entry) in
    merge_rounds (fun key => negb (String.eqb key "scripts")) entry
      (own_props entry).*1
      (if truthy scripts then
         match obj_set o1 "scripts" (default JNull scripts) with
         | inr o' => o'
         | inl _ => o1
         end
       else o1)
  else o1.

(** The same for the [package-custom.json] script: every key merged. *)
Definition patched001 (entry : option json) (o1 : object) : object :=
  if truthy entry then
    merge_rounds (fun _ => true) entry (own_props entry).*1 o1
  else o1.

(** The manifest object when the patcher writes it back, for a manifest
    that parsed to the object [props]: the name set, then the side-file
    applied if it is a file that parses and is not [null]. *)
Definition patched (patch : option json -> object -> object) (fs : tree)
  (side : path) (backend appName : string) (props : list (string * json))
  : object :=
  let o1 := plain (assoc_set "name" (JStr appName) props) in
  match fs !! side with
  | Some (File (Json JNull)) => o1
  | Some (File (Json cfg)) => patch (assoc backend (own_props (Some cfg))) o1
  | _ => o1
  end.

(** The properties the oldest script writes back. *)
Definition patched003 (selectedBackend appName : string)
  (props : list (string * json)) : list (string * json) :=
  let p1 := assoc_set "name" (JStr appName) props in
  let p2 := assoc_set "version" (JStr "1.0.0") p1 in
  let dependencies := assoc "dependencies" p2 in
  let p3 :=
    if truthy dependencies
       && truthy (assoc "@posit/shiny-react" (own_props dependencies))
    then nested_set "dependencies" "@posit/shiny-react" (JStr "^0.0.6") p2
    else p2 in
  assoc_set "scripts" (JObj (Part003.scripts_for selectedBackend)) p3.

(** The entry of the side-file that gets merged: the side-file is a file,
    parses, is not [null], and holds a truthy value under the backend id. *)
Definition entry_of (fs : tree) (side : path) (selectedBackend : string)
  : option json :=
  match fs !! side with
  | Some (File (Json packageConfig)) =>
      match get packageConfig selectedBackend with
      | inr (Some e) => if truthy (Some e) then Some e else None
      | _ => None
      end
  | _ => None
  end.

(** The side-file is consumed: it is a file that parses and is not
    [null]. *)
Definition consumable (fs : tree) (side : path) : bool :=
  match fs !! side with
  | Some (File (Json JNull)) => false
  | Some (File (Json _)) => true
  | _ => false
  end.

(** The run returned and left the JSON object [props] at [p]. *)
Definition written (r : result unit) (p : path)
  (props : list (string * json)) : Prop :=
  outcome_of r = Returned
  /\ files (final r) !! p = Some (File (Json (JObj props))).

(** ** What the copy does to the files *)

(** A name the copy lets through: not caught by the static skip test, not
    a backend directory to skip. *)
Definition allowed (skipped : string -> bool) (skipBackends : list string)
  (name : string) : bool :=
  negb (skipped name) && negb (includes skipBackends name).

(** The paths the copy into [dest] may create or change: [dest], the
    ancestors [mkdir] may have to create, and paths below [dest] whose
    every component is allowed. *)
Definition reached (skipped : string -> bool) (skipBackends : list string)
  (dest q : path) : Prop :=
  q `prefix_of` dest
  \/ exists rel, q = dest ++ rel
                 /\ Forall (fun n => allowed skipped skipBackends n = true) rel.

(** [q] holds the same in both worlds. *)
Definition keeps (q : path) (w w' : world) : Prop :=
  files w' !! q = files w !! q.

(** Every existing path has a directory for parent. *)
Definition wf (fs : tree) : Prop :=
  forall (p : path) (n : string), is_Some (fs !! (p ++ [n])) -> fs !! p = Some Dir.

(** Nothing exists at or below [p]. *)
Definition fresh (fs : tree) (p : path) : Prop :=
  forall rel, fs !! (p ++ rel) = None.

(** The tree at [p] is less than [n] levels deep. *)
Definition shallow (fs : tree) (p : path) (n : nat) : Prop :=
  forall rel, is_Some (fs !! (p ++ rel)) -> length rel < n.

(** The callback of [files.forEach] in [copyRecursive]. *)
Definition copy_entry (skipped : string -> bool) (skipBackends : list string)
  (fuel : nat) (src dest : path) (file : string) : M unit :=
  if skipped file then ret tt
  else if includes skipBackends file then ret tt
  else Shared.copyRecursive skipped fuel (src ++ [file]) (dest ++ [file])
                            skipBackends.

(** What a completed copy of [src] into the fresh [dest] leaves: nothing
    changed outside [dest], and below [dest] the mirror of [src] without
    the names that are not allowed. *)
Definition mirrors (skipped : string -> bool) (skipBackends : list string)
  (fs fs' : tree) (src dest : path) : Prop :=
  (forall q, ~ dest `prefix_of` q -> fs' !! q = fs !! q)
  /\ (forall rel, fs' !! (dest ++ rel)
                  = if forallb (allowed skipped skipBackends) rel
                    then fs !! (src ++ rel) else None).

(** The state of the loop over the entries of [src]: the entries in
    [done] are mirrored, nothing else is below [dest]. *)
Definition half_way (skipped : string -> bool) (skipBackends : list string)
  (fs fsv : tree) (src dest : path) (done : list string) : Prop :=
  wf fsv
  /\ fsv !! dest = Some Dir
  /\ (forall q, ~ dest `prefix_of` q -> fsv !! q = fs !! q)
  /\ (forall c rel, fsv !! (dest ++ c :: rel)
                    = if bool_decide (c ∈ done)
                         && forallb (allowed skipped skipBackends) (c :: rel)
                      then fs !! (src ++ c :: rel) else None).

(** Ordered by id, as [localeCompare] orders. *)
Definition by_id (h : host) (a b : template) : Prop :=
  (localeCompare h (id a) (id b) <= 0)%Z.

(** Two names the collation does not tell apart. *)
Definition tied (h : host) (a b : string) : bool :=
  (localeCompare h a b <=? 0)%Z && (localeCompare h b a <=? 0)%Z.

(** Lexicographic order of the ids, by code units. *)
Definition lexicographic (a b : template) : Prop :=
  String.leb (id a) (id b) = true.

(** The ids of the templates a discovery returned. *)
Definition ids (r : result (list template)) : list string :=
  match r with
  | Return ts _ => map id ts
  | _ => []
  end.

(** ** Decidable forms of the conditions on a tree *)

(** [p] is a prefix of [q]. *)
Fixpoint starts_with (p q : path) : bool :=
  match p, q with
  | [], _ => true
  | a :: p', b :: q' => String.eqb a b && starts_with p' q'
  | _ :: _, [] => false
  end.

(** Every path of the tree has a directory for parent. *)
Definition wf_check (fs : tree) : bool :=
  forallb (fun kv => match kv.1 with
                     | [] => true
                     | _ => match fs !! dirname kv.1 with
                            | Some Dir => true
                            | _ => false
                            end
                     end) (map_to_list fs).

(** No path of the tree is at or below [p]. *)
Definition fresh_check (fs : tree) (p : path) : bool :=
  forallb (fun kv => negb (starts_with p kv.1)) (map_to_list fs).

(** The paths of the tree below [p] are less than [n] levels deep. *)
Definition shallow_check (fs : tree) (p : path) (n : nat) : bool :=
  forallb (fun kv => negb (starts_with p kv.1)
                     || Nat.ltb (length kv.1) (length p + n)) (map_to_list fs).

(** ** Vocabulary for the prompts and the merge *)

(** A string of decimal digits. *)
Fixpoint numeral (s : string) : bool :=
  match s with
  | EmptyString => true
  | String c s' => match digit c with Some _ => numeral s' | None => false end
  end.

(** One round of a prompt loop: ask, read the line, complain when it is
    not understood. *)
Definition asking {A} (prompt : string) (complaint : message)
  (understood : string -> option A) : M (option A) :=
  line <- question prompt ;;
  match understood line with
  | Some a => ret (Some a)
  | None => console_log complaint ;; ret None
  end.

(** What the rounds spent on the lines [refused] print. *)
Definition rounds (prompt : string) (complaint : message)
  (refused : list string) : list event :=
  flat_map (fun _ => [Prompt prompt; Stdout complaint]) refused.

(** White space only. *)
Fixpoint blank (s : string) : bool :=
  match s with
  | EmptyString => true
  | String c s' => is_space c && blank s'
  end.

(** The string does not go on with a decimal digit. *)
Definition stops (s : string) : bool :=
  match s with
  | EmptyString => true
  | String c _ => match digit c with Some _ => false | None => true end
  end.

(** The merging loop on the property list of a plain object. *)
Definition merge_props (cond : string -> bool) (entry : option json)
  (keys : list string) (l : list (string * json)) : list (string * json) :=
  fold_left (fun l key =>
               if cond key
               then assoc_set key (spread (assoc key l)
                                          (assoc key (own_props entry))) l
               else l) keys l.

(** The list [b] assigned, pair by pair, onto [acc]: the way object
    spread fills an object. *)
Definition assign {A} (b acc : list (string * A)) : list (string * A) :=
  fold_left (fun acc kv => assoc_set kv.1 kv.2 acc) b acc.

(** An assignment made before the merging loop, if any. *)
Definition assigned_first (first_key : option (string * json))
  (l : list (string * json)) : list (string * json) :=
  match first_key with
  | Some (k0, v0) => assoc_set k0 v0 l
  | None => l
  end.

(** The property list of the manifest after the [try] block of the
    [package-config.json] script, for an entry without a [__proto__]
    key. *)
Definition props002 (entry : option json) (l : list (string * json))
  : list (string * json) :=
  if truthy entry then
    let scripts := assoc "scripts" (own_props entry) in
    merge_props (fun key => negb (String.eqb key "scripts")) entry
      (own_props entry).*1
      (assigned_first (if truthy scripts
                       then Some ("scripts", default JNull scripts)
                       else None) l)
  else l.

(** The same for the [package-custom.json] script. *)
Definition props001 (entry : option json) (l : list (string * json))
  : list (string * json) :=
  if truthy entry then
    merge_props (fun _ => true) entry (own_props entry).*1
                (assigned_first None l)
  else l.

(** The world in which the side-file has been put back. *)
Definition resupplied (w : world) (side : path) (cfg : json) : world :=
  with_files w (<[side := File (Json cfg)]> (files w)).

(** How the documentation question of the [SKIP_PATHS] script reads a
    line. *)
Definition yes_no (line : string) : option bool :=
  let lowerResponse := toLowerCase line in
  if String.eqb lowerResponse "n" || String.eqb lowerResponse "no"
  then Some false
  else if String.eqb lowerResponse "y" || String.eqb lowerResponse "yes"
          || String.eqb lowerResponse EmptyString
       then Some true
       else None.

(** How the documentation menu of the ES-module script reads a line. *)
Definition yes_no_menu (line : string) : option bool :=
  match choice line "1" with
  | Some 0%Z => Some true
  | Some 1%Z => Some false
  | _ => None
  end.

(** How its package-manager menu reads a line. *)
Definition manager_of (line : string) : option (option string) :=
  match choice line "1" with
  | Some i =>
      if (0 <=? i)%Z && (i <=? 2)%Z
      then Some (at_index Part001.managers (choice line "1"))
      else None
  | None => None
  end.

(** The world in which other lines are waiting at the terminal. *)
Definition typed (w : world) (lines : list string) : world :=
  {| files := files w; stdin := lines; log := log w; manifest := manifest w |}.

(** A name without a dollar sign. *)
Definition no_dollar (name : string) : bool :=
  forallb (fun c => negb (Ascii.eqb c "$")) (list_ascii_of_string name).

End Runs.

(* ===================================================================== *)
(** * A small installation to run the scripts on *)
(* ===================================================================== *)

Module Demo.
Import Js Fs Proc Shared.

Definition upper (c : ascii) : ascii :=
  let n := N_of_ascii c in
  if (97 <=? n)%N && (n <=? 122)%N then ascii_of_N (n - 32) else c.

Definition upcase (s : string) : string :=
  string_of_list_ascii (map upper (list_ascii_of_string s)).

(** Comparison by code units.  It agrees with the host's collation on the
    names used below, which a leading digit or a lower-case letter
    already tells apart. *)
Fixpoint compare_units (a b : string) : Z :=
  match a, b with
  | EmptyString, EmptyString => 0
  | EmptyString, String _ _ => -1
  | String _ _, EmptyString => 1
  | String x a', String y b' =>
      if (N_of_ascii x <? N_of_ascii y)%N then -1
      else if (N_of_ascii y <? N_of_ascii x)%N then 1
      else compare_units a' b'
  end.

(** The script lives in [/cli/bin], its templates in [/cli/templates], and
    it is started in [/work]. *)
Definition h : host := {|
  localeCompare := compare_units;
  toUpperCase := upcase;
  resolve := fun appName => ["work"; appName];
  dirname__ := ["cli"; "bin"];
  require_resolve := Some ["cli"; "dist"; "index.js"];
  characters := fun _ => EmptyString
|}.

(** A collation that passes over control characters, as the default
    collation of the platform does: two names that differ only in such
    characters compare equal. *)
Definition visible (s : string) : string :=
  string_of_list_ascii
    (List.filter (fun c => (32 <=? N_of_ascii c)%N) (list_ascii_of_string s)).

Definition collate (a b : string) : Z :=
  compare_units (visible a) (visible b).

Definition collating : host := {|
  localeCompare := collate;
  toUpperCase := upcase;
  resolve := fun appName => ["work"; appName];
  dirname__ := ["cli"; "bin"];
  require_resolve := Some ["cli"; "dist"; "index.js"];
  characters := fun _ => EmptyString
|}.

Definition templates : path := ["cli"; "templates"].
Definition basic : path := templates ++ ["1-basic"].

Definition package_json : json :=
  JObj [ ("name", JStr "template");
         ("description", JStr "Hello world");
         ("scripts", JObj [("build", JStr "build-all"); ("dev", JStr "dev-py")]) ].

(** The entry for [r] overrides one script. *)
Definition package_config : json :=
  JObj [ ("r", JObj [("scripts", JObj [("dev", JStr "dev-r")])]) ].

(** An entry that carries a [name]. *)
Definition naming_config : json :=
  JObj [ ("r", JObj [("name", JObj [("full", JStr "Demo")])]) ].

Definition installation (side_file : string) (config : content) : tree :=
  list_to_map [
    ([], Dir);
    (["work"], Dir);
    (["work"; "taken"], Dir);
    (["cli"], Dir);
    (["cli"; "bin"], Dir);
    (templates, Dir);
    (templates ++ ["CLAUDE.md.template"], File (Text "# {project_name}"));
    (templates ++ ["2-shadcn"], Dir);
    (templates ++ ["plain"], Dir);
    (templates ++ ["plain"; "package.json"],
       File (Json (JObj [("description", JStr "No prefix")])));
    (basic, Dir);
    (basic ++ ["package.json"], File (Json package_json));
    (basic ++ [side_file], File config);
    (basic ++ ["srcts"], Dir);
    (basic ++ ["srcts"; "main.tsx"], File (Text "render"));
    (basic ++ ["r"], Dir);
    (basic ++ ["r"; "app.R"], File (Text "shinyApp"));
    (basic ++ ["r"; "www"], Dir);
    (basic ++ ["r"; "www"; "main.js"], File (Text "bundle"));
    (basic ++ ["py"], Dir);
    (basic ++ ["py"; "app.py"], File (Text "App"));
    (basic ++ ["py"; "__pycache__"], Dir);
    (basic ++ ["py"; "__pycache__"; "app.pyc"], File (Text "bytecode"));
    (basic ++ ["node_modules"], Dir);
    (basic ++ ["node_modules"; "react"], Dir)
  ].

(** What discovery finds there. *)
Definition discovered : list template :=
  [ {| id := "1-basic"; name := "Basic"; description := JStr "Hello world" |};
    {| id := "2-shadcn"; name := "2-shadcn";
       description := default_description |};
    {| id := "plain"; name := "plain"; description := JStr "No prefix" |} ].

Definition target : path := ["work"; "demo"].

(** The target as the copy leaves it: the manifest of the template and a
    side-file next to it. *)
Definition copied (side_file : string) (config : content) : tree :=
  <[target ++ [side_file] := File config]>
    (<[target ++ ["package.json"] := File (Json package_json)]>
       (<[target := Dir]> (installation side_file config))).

Definition boot (fs : tree) (lines : list string) : world :=
  {| files := fs; stdin := lines; log := []; manifest := Prim JNull |}.

End Demo.

(* ===================================================================== *)
(** * Properties *)
(* ===================================================================== *)

Import Js Fs Proc Shared.

(** ** Running monadic code *)

Lemma eqb_empty_false (s : string) :
  s <> EmptyString -> String.eqb s EmptyString = false.
Proof. intros H. destruct s; [congruence | reflexivity]. Qed.

Ltac run :=
  unfold bind, try_catch, when, deref, exists_, reading, writing, question,
    console_error, console_log, emit, lift, exit, ret, throw; cbn beta iota.

(** Equations between closed terms are settled by evaluation; the right
    side is given, so nothing large is ever printed back. *)
Ltac by_evaluation :=
  match goal with
  | |- _ = ?r => vm_cast_no_check (eq_refl r)
  end.

Ltac evaluate_all :=
  repeat match goal with |- _ /\ _ => split end; by_evaluation.

(** *** Claim C1 *)

(** C1: in every script, when the target path exists at startup the run
    ends at once with exit code 1; the files and the pending terminal
    input are as they were, only the error line has been printed. *)
Theorem existing_target_exits_untouched
  (h : host) (fuel : nat) (appName : string) (w : world) :
  existsSync (files w) (resolve h appName) = true ->
  let stopped :=
    Exit 1 {| files := files w; stdin := stdin w;
              log := log w ++ [Stderr (DirectoryExists appName)];
              manifest := manifest w |} in
  Part001.main h fuel [appName] w = stopped
  /\ Part002.main h fuel [appName] w = stopped
  /\ Part003.main h fuel [appName] w = stopped.
Proof.
  intros H stopped.
  unfold Part001.main, Part002.main, Part003.main, stopped.
  run. rewrite H. repeat split; reflexivity.
Qed.

Lemma existing_target_exits_untouched_witness :
  let w := Demo.boot (Demo.installation "package-config.json"
                        (Json Demo.package_config)) ["1"; "1"] in
  existsSync (files w) (resolve Demo.h "taken") = true
  /\ Part002.main Demo.h 10 ["taken"] w
     = Exit 1 {| files := files w; stdin := ["1"; "1"];
                 log := [Stderr (DirectoryExists "taken")];
                 manifest := manifest w |}.
Proof.
  split; [vm_compute; reflexivity |].
  apply (existing_target_exits_untouched Demo.h 10 "taken").
  vm_compute; reflexivity.
Defined.

(** *** Claim C10 *)

Import Runs.

Lemma choice_nan (answer dflt : string) :
  answer <> EmptyString -> parseInt answer = None -> choice answer dflt = None.
Proof.
  intros Hne Hnan. unfold choice. rewrite (eqb_empty_false _ Hne), Hnan.
  reflexivity.
Qed.

Lemma template_prompt_unfold (n : nat) (dflt : string) :
  template_prompt n dflt
  = "Choose a template (1-" +:+ pretty n +:+ ") [" +:+ dflt +:+ "]: ".
Proof. reflexivity. Qed.

(** A menu that can be printed leaves no trace; one that cannot throws at
    its first description that does not convert. *)
Lemma showTemplates_shown (templates : list template) (v : world) :
  shown templates -> showTemplates templates v = Return tt v.
Proof.
  unfold shown, showTemplates. induction templates as [| t ts IH]; cbn.
  - reflexivity.
  - intros H. apply andb_prop in H as [Ht Hts]. unfold bind at 1.
    destruct (unprintable (description t)); [discriminate Ht |].
    cbn. apply IH, Hts.
Qed.

Lemma showTemplates_throws (templates : list template) (v : world) :
  ~ shown templates -> showTemplates templates v = Throw TypeError v.
Proof.
  unfold shown, showTemplates. induction templates as [| t ts IH]; cbn.
  - intros H. exfalso. apply H. reflexivity.
  - intros H. unfold bind at 1.
    destruct (unprintable (description t)); [reflexivity |].
    cbn. apply IH. exact H.
Qed.

Ltac at_prompts H :=
  let Hfree := fresh in let Hdir := fresh in let Hts := fresh in
  let Hshown := fresh in
  destruct H as (Hfree & Hdir & Hts & Hshown);
  run; rewrite Hfree, Hdir; cbn [negb]; rewrite Hts;
  cbn [stdin files log manifest];
  rewrite (showTemplates_shown _ _ Hshown); cbn [stdin files log manifest].

Section NaN.
Variables (h : host) (fuel : nat) (appName answer : string).
Variables (w w1 : world) (templates : list template) (rest : list string).
Hypothesis Hnonempty : answer <> EmptyString.
Hypothesis Hnan : parseInt answer = None.

Lemma nan_template_001 :
  ready (Part001.getAvailableTemplates h) h appName w templates w1 ->
  stdin w1 = answer :: rest ->
  Part001.main h fuel [appName] w
  = Exit 1 (after w1 rest
      [ Stdout (Creating appName);
        Prompt (template_prompt (length templates) "2");
        Stderr (ErrorCreatingApp TypeError) ]).
Proof.
  intros H Hin. unfold Part001.main. at_prompts H.
  rewrite Hin, (choice_nan _ _ Hnonempty Hnan). cbn.
  unfold after. rewrite <- !app_assoc. reflexivity.
Qed.

Lemma nan_template_002 :
  ready (Part002.getAvailableTemplates h) h appName w templates w1 ->
  stdin w1 = answer :: rest ->
  Part002.main h fuel [appName] w
  = Exit 1 (after w1 rest
      [ Stdout (Creating appName);
        Prompt (template_prompt (length templates) "1");
        Stderr (ErrorCreatingApp TypeError) ]).
Proof.
  intros H Hin. unfold Part002.main. at_prompts H.
  rewrite Hin, (choice_nan _ _ Hnonempty Hnan). cbn.
  unfold after. rewrite <- !app_assoc. reflexivity.
Qed.

Lemma nan_template_003 :
  ready003 h appName w templates w1 ->
  stdin w1 = answer :: rest ->
  Part003.main h fuel [appName] w
  = Exit 1 (after w1 rest
      [ Stdout (Creating appName);
        Prompt (template_prompt (length templates) "1");
        Stderr (ErrorCreatingApp TypeError) ]).
Proof.
  intros (Hfree & (dir & w0 & Hdir & Hts) & Hshown) Hin. unfold Part003.main.
  run. rewrite Hfree, Hdir, Hts. cbn [stdin files log manifest].
      rewrite (showTemplates_shown _ _ Hshown). cbn [stdin files log manifest].
  rewrite Hin, (choice_nan _ _ Hnonempty Hnan). cbn.
  unfold after. rewrite <- !app_assoc. reflexivity.
Qed.

Variable first : string.

Lemma nan_backend_001 :
  ready (Part001.getAvailableTemplates h) h appName w templates w1 ->
  stdin w1 = first :: answer :: rest ->
  picks first "2" templates ->
  Part001.main h fuel [appName] w
  = Exit 1 (after w1 rest
      [ Stdout (Creating appName);
        Prompt (template_prompt (length templates) "2");
        Prompt "Choose a backend (1-2) [1]: ";
        Stderr (ErrorCreatingApp TypeError) ]).
Proof.
  intros H Hin (Hrange & t & Ht). unfold Part001.main. at_prompts H.
  rewrite Hin, Hrange, Ht. cbn [stdin files log manifest].
  rewrite (choice_nan _ _ Hnonempty Hnan). cbn.
  unfold after. rewrite <- !app_assoc. reflexivity.
Qed.

Lemma nan_backend_002 :
  ready (Part002.getAvailableTemplates h) h appName w templates w1 ->
  stdin w1 = first :: answer :: rest ->
  picks first "1" templates ->
  Part002.main h fuel [appName] w
  = Exit 1 (after w1 rest
      [ Stdout (Creating appName);
        Prompt (template_prompt (length templates) "1");
        Prompt "Choose a backend (1-3) [3]: ";
        Stderr (ErrorCreatingApp TypeError) ]).
Proof.
  intros H Hin (Hrange & t & Ht). unfold Part002.main. at_prompts H.
  rewrite Hin, Hrange, Ht. cbn [stdin files log manifest].
  rewrite (choice_nan _ _ Hnonempty Hnan). cbn.
  unfold after. rewrite <- !app_assoc. reflexivity.
Qed.

Lemma nan_backend_003 :
  ready003 h appName w templates w1 ->
  stdin w1 = first :: answer :: rest ->
  picks first "1" templates ->
  Part003.main h fuel [appName] w
  = Exit 1 (after w1 rest
      [ Stdout (Creating appName);
        Prompt (template_prompt (length templates) "1");
        Prompt "Choose a backend (1-3) [3]: ";
        Stderr (ErrorCreatingApp TypeError) ]).
Proof.
  intros (Hfree & (dir & w0 & Hdir & Hts) & Hshown) Hin (Hrange & t & Ht).
  unfold Part003.main.
  run. rewrite Hfree, Hdir, Hts. cbn [stdin files log manifest].
      rewrite (showTemplates_shown _ _ Hshown). cbn [stdin files log manifest].
  rewrite Hin, Hrange, Ht. cbn [stdin files log manifest].
  rewrite (choice_nan _ _ Hnonempty Hnan). cbn.
  unfold after. rewrite <- !app_assoc. reflexivity.
Qed.

End NaN.

(** C10: a non-empty answer on which [parseInt] yields NaN, given to the
    template prompt or to the backend prompt of any of the three scripts,
    passes the range check (no "Invalid choice" line is printed), selects
    [undefined], and the run ends in the catch-all handler: it prints
    "Error creating app" for a TypeError and exits with code 1, the files
    untouched. *)
Theorem nan_choice_fails_through_catch_all
  (h : host) (fuel : nat) (appName answer first : string)
  (w w1 : world) (templates : list template) (rest : list string) :
  answer <> EmptyString ->
  parseInt answer = None ->
  let failed prompts :=
    Exit 1 (after w1 rest
      ([Stdout (Creating appName)] ++ prompts
       ++ [Stderr (ErrorCreatingApp TypeError)])) in
  let asked dflt := Prompt (template_prompt (length templates) dflt) in
  (ready (Part001.getAvailableTemplates h) h appName w templates w1 ->
     (stdin w1 = answer :: rest ->
        Part001.main h fuel [appName] w = failed [asked "2"])
     /\ (stdin w1 = first :: answer :: rest -> picks first "2" templates ->
          Part001.main h fuel [appName] w
          = failed [asked "2"; Prompt "Choose a backend (1-2) [1]: "]))
  /\ (ready (Part002.getAvailableTemplates h) h appName w templates w1 ->
      (stdin w1 = answer :: rest ->
         Part002.main h fuel [appName] w = failed [asked "1"])
      /\ (stdin w1 = first :: answer :: rest -> picks first "1" templates ->
           Part002.main h fuel [appName] w
           = failed [asked "1"; Prompt "Choose a backend (1-3) [3]: "]))
  /\ (ready003 h appName w templates w1 ->
      (stdin w1 = answer :: rest ->
         Part003.main h fuel [appName] w = failed [asked "1"])
      /\ (stdin w1 = first :: answer :: rest -> picks first "1" templates ->
           Part003.main h fuel [appName] w
           = failed [asked "1"; Prompt "Choose a backend (1-3) [3]: "])).
Proof.
  intros Hne Hnan failed asked. unfold failed, asked.
  repeat split; intros.
  - eapply nan_template_001; eauto.
  - eapply nan_backend_001; eauto.
  - eapply nan_template_002; eauto.
  - eapply nan_backend_002; eauto.
  - eapply nan_template_003; eauto.
  - eapply nan_backend_003; eauto.
Qed.

(** ** Template discovery *)

Lemma split_nonempty (sep : ascii) (s : string) : split sep s <> [].
Proof.
  induction s as [|c s IH]; cbn; [discriminate |].
  destruct (Ascii.eqb c sep); [discriminate |].
  destruct (split sep s); discriminate.
Qed.

Lemma tail_split (sep c : ascii) (s : string) :
  tail (split sep (String c s))
  = if Ascii.eqb c sep then split sep s else tail (split sep s).
Proof.
  cbn. destruct (Ascii.eqb c sep); [reflexivity |].
  destruct (split sep s) eqn:E; [|reflexivity].
  exfalso. exact (split_nonempty _ _ E).
Qed.

Lemma no_hyphen_no_parts (s : string) :
  has_hyphen s = false <-> tail (split "-" s) = [].
Proof.
  unfold has_hyphen. induction s as [|c s IH].
  - cbn. tauto.
  - rewrite tail_split. cbn [list_ascii_of_string existsb].
    rewrite (Ascii.eqb_sym "-"%char c).
    destruct (Ascii.eqb c "-"); cbn [orb].
    + split; [discriminate |]. intros E. exfalso. exact (split_nonempty _ _ E).
    + exact IH.
Qed.

(** The name the loop body computes from the parts after the first
    hyphen. *)
Lemma derived_name (h : host) (entry : string) :
  match tail (split "-" entry) with
  | [] => entry
  | _ :: _ => join " " (map (capitalize h) (tail (split "-" entry)))
  end
  = if has_hyphen entry then spec_display_name h entry else entry.
Proof.
  destruct (has_hyphen entry) eqn:E.
  - destruct (tail (split "-" entry)) eqn:T; [|unfold spec_display_name; rewrite T; reflexivity].
    apply no_hyphen_no_parts in T. congruence.
  - apply no_hyphen_no_parts in E. rewrite E. reflexivity.
Qed.

Lemma describe_spec (h : host) (templatePath : path) (entry : string)
  (w : world) :
  describe h templatePath entry w
  = Return (described h (files w) templatePath entry) w.
Proof.
  unfold describe, described, metadata. run.
  unfold existsSync, readFileSync. cbn beta.
  destruct (files w !! (templatePath ++ ["package.json"])) as [e|] eqn:E;
    cbn beta iota; rewrite ?E; [| reflexivity].
  destruct e as [c|]; [| reflexivity].
  destruct c as [t | j]; [reflexivity |].
  destruct j; cbn; try reflexivity;
    rewrite derived_name; reflexivity.
Qed.

Lemma child_of_Some (p q : path) (n : string) :
  child_of p q = Some n <-> q = p ++ [n].
Proof.
  revert q. induction p as [|a p IH]; intros q.
  - destruct q as [|b [|c q]]; cbn; split; intros H; try discriminate;
      congruence.
  - destruct q as [|b q]; cbn; [split; discriminate |].
    destruct (String.eqb_spec a b) as [->|Hne].
    + rewrite IH. split; congruence.
    + split; [discriminate | congruence].
Qed.

Lemma elem_of_children (fs : tree) (p : path) (n : string) :
  n ∈ children fs p <-> is_Some (fs !! (p ++ [n])).
Proof.
  unfold children. rewrite list_elem_of_omap. split.
  - intros ([q e] & Hin & Hq). apply elem_of_map_to_list in Hin.
    apply child_of_Some in Hq. cbn in Hq. subst q. eauto.
  - intros [e He]. exists (p ++ [n], e). split.
    + apply elem_of_map_to_list. exact He.
    + apply child_of_Some. reflexivity.
Qed.

Lemma collect_spec (h : host) (keep : string -> bool) (dir : path)
  (entries : list string) (w : world) :
  collect h keep dir entries w
  = if forallb (fun e => existsSync (files w) (dir ++ [e])) entries
    then Return (map (fun e => described h (files w) (dir ++ [e]) e)
                     (filter (fun e => listed keep (files w) dir e = true)
                             entries)) w
    else Throw (SystemError "ENOENT") w.
Proof.
  induction entries as [|e rest IH]; [reflexivity |].
  cbn [collect forallb]. run. unfold isDirectory, existsSync at 1, listed at 1.
  rewrite filter_cons. unfold listed at 1.
  destruct (files w !! (dir ++ [e])) as [[c|]|] eqn:E; cbn [andb].
  - rewrite IH. rewrite decide_False by discriminate. reflexivity.
  - destruct (keep e).
    + rewrite describe_spec, IH. rewrite decide_True by reflexivity.
      destruct (forallb _ rest); reflexivity.
    + rewrite IH. rewrite decide_False by discriminate. reflexivity.
  - reflexivity.
Qed.

Lemma insert_Permutation (h : host) (t : template) (l : list template) :
  insert h t l ≡ₚ t :: l.
Proof.
  induction l as [|u l IH]; cbn; [reflexivity |].
  destruct (localeCompare h (id t) (id u) <=? 0)%Z; [reflexivity |].
  rewrite IH. apply perm_swap.
Qed.

Lemma sort_Permutation (h : host) (l : list template) : sort h l ≡ₚ l.
Proof.
  induction l as [|t l IH]; cbn; [reflexivity |].
  rewrite insert_Permutation, IH. reflexivity.
Qed.

Section Collation.
Variable h : host.
Hypothesis total :
  forall a b, (localeCompare h a b <= 0)%Z \/ (localeCompare h b a <= 0)%Z.
Hypothesis transitive :
  forall a b c, (localeCompare h a b <= 0)%Z -> (localeCompare h b c <= 0)%Z ->
                (localeCompare h a c <= 0)%Z.

Lemma insert_sorted (t : template) (l : list template) :
  StronglySorted (by_id h) l -> StronglySorted (by_id h) (insert h t l).
Proof.
  induction 1 as [|u l Hl IH Hu]; cbn.
  - repeat constructor.
  - destruct (Z.leb_spec (localeCompare h (id t) (id u)) 0) as [Hle|Hgt].
    + constructor; [constructor; assumption |].
      constructor; [exact Hle |].
      eapply Forall_impl; [exact Hu |]. intros v Hv. unfold by_id in *.
      eapply transitive; eassumption.
    + constructor; [exact IH |].
      rewrite insert_Permutation. constructor; [| exact Hu].
      unfold by_id. destruct (total (id t) (id u)); [lia | assumption].
Qed.

Lemma sort_sorted (l : list template) : StronglySorted (by_id h) (sort h l).
Proof.
  induction l as [|t l IH]; cbn; [constructor | apply insert_sorted, IH].
Qed.

End Collation.

Lemma described_id (h : host) (fs : tree) (p : path) (e : string) :
  id (described h fs p e) = e.
Proof. unfold described. destruct (metadata fs p); reflexivity. Qed.

Lemma children_exist (fs : tree) (p : path) :
  forallb (fun e => existsSync fs (p ++ [e])) (children fs p) = true.
Proof.
  apply forallb_forall. intros e He. apply list_elem_of_In in He.
  apply elem_of_children in He. destruct He as [x Hx].
  unfold existsSync. rewrite Hx. reflexivity.
Qed.

(** Discovery on a directory: the listing, filtered, described, sorted. *)
Lemma getAvailableTemplates_spec (h : host) (keep : string -> bool)
  (dir : path) (w : world) :
  files w !! dir = Some Dir ->
  Shared.getAvailableTemplates h keep dir w
  = Return (sort h (map (fun e => described h (files w) (dir ++ [e]) e)
                        (filter (fun e => listed keep (files w) dir e = true)
                                (children (files w) dir)))) w.
Proof.
  intros Hdir. unfold Shared.getAvailableTemplates, templatesFrom. run.
  unfold existsSync, readdirSync. rewrite Hdir. cbn [negb]. cbn beta iota.
  rewrite Hdir. cbn beta iota.
  rewrite collect_spec, children_exist. reflexivity.
Qed.

Lemma getAvailableTemplates_Return (h : host) (keep : string -> bool)
  (dir : path) (w w' : world) (ts : list template) :
  Shared.getAvailableTemplates h keep dir w = Return ts w' ->
  files w !! dir = Some Dir.
Proof.
  unfold Shared.getAvailableTemplates. run. unfold existsSync, readdirSync.
  destruct (files w !! dir) as [[c|]|] eqn:E; cbn [negb]; cbn beta iota;
    rewrite ?E; cbn beta iota; try discriminate. reflexivity.
Qed.

(** *** Claim C5 *)

Lemma filter_insert_other (h : host) (P : template -> bool) (t : template)
  (l : list template) :
  P t = false ->
  filter (fun u => P u = true) (insert h t l)
  = filter (fun u => P u = true) l.
Proof.
  intros Ht. induction l as [| u l IH]; cbn [insert].
  - rewrite filter_cons, decide_False by congruence. reflexivity.
  - destruct (localeCompare h (id t) (id u) <=? 0)%Z.
    + rewrite filter_cons, decide_False by congruence. reflexivity.
    + rewrite !(filter_cons _ u), IH. reflexivity.
Qed.

Section Stable.
Variable h : host.
Hypothesis transitive :
  forall a b c, (localeCompare h a b <= 0)%Z -> (localeCompare h b c <= 0)%Z ->
                (localeCompare h a c <= 0)%Z.

(** An inserted descriptor lands before every descriptor it is tied
    with. *)
Lemma insert_stable (x : string) (t : template) (l : list template) :
  tied h x (id t) = true ->
  filter (fun u => tied h x (id u) = true) (insert h t l)
  = t :: filter (fun u => tied h x (id u) = true) l.
Proof.
  intros Ht. induction l as [| u l IH]; cbn [insert].
  - rewrite filter_cons, decide_True by exact Ht. reflexivity.
  - destruct (Z.leb_spec (localeCompare h (id t) (id u)) 0) as [Hle | Hgt].
    + rewrite filter_cons, decide_True by exact Ht. reflexivity.
    + assert (Hu : tied h x (id u) = false).
      { destruct (tied h x (id u)) eqn:Hu; [| reflexivity]. exfalso.
        unfold tied in Ht, Hu.
        apply andb_prop in Ht as [_ Htx]. apply andb_prop in Hu as [Hxu _].
        apply Z.leb_le in Htx, Hxu.
        pose proof (transitive _ _ _ Htx Hxu). lia. }
      rewrite !(filter_cons _ u), !decide_False by congruence. exact IH.
Qed.

Lemma sort_stable (x : string) (l : list template) :
  filter (fun u => tied h x (id u) = true) (sort h l)
  = filter (fun u => tied h x (id u) = true) l.
Proof.
  induction l as [| t l IH]; [reflexivity |].
  change (sort h (t :: l)) with (insert h t (sort h l)).
  destruct (tied h x (id t)) eqn:Ht.
  - rewrite insert_stable by exact Ht.
    rewrite filter_cons, decide_True by exact Ht. rewrite IH. reflexivity.
  - rewrite (filter_insert_other h (fun u => tied h x (id u))) by exact Ht.
    rewrite filter_cons, decide_False by congruence. exact IH.
Qed.

End Stable.

Lemma StronglySorted_among {A} (R R' : A -> A -> Prop) (l : list A) :
  (forall x y, x ∈ l -> y ∈ l -> R x y -> R' x y) ->
  StronglySorted R l -> StronglySorted R' l.
Proof.
  intros Himpl Hl. induction Hl as [| x l Hl IH Hx]; [constructor |].
  constructor.
  - apply IH. intros a b Ha Hb. apply Himpl; right; assumption.
  - apply Forall_forall. intros y Hy. apply Himpl.
    + left.
    + right. exact Hy.
    + rewrite Forall_forall in Hx. apply Hx, Hy.
Qed.

(** The code-unit comparison of the demonstration host is a total order. *)
Lemma compare_units_total (a b : string) :
  (Demo.compare_units a b <= 0)%Z \/ (Demo.compare_units b a <= 0)%Z.
Proof.
  revert b. induction a as [|x a IH]; intros [|y b]; cbn; try lia.
  destruct (N.ltb_spec (N_of_ascii x) (N_of_ascii y));
    destruct (N.ltb_spec (N_of_ascii y) (N_of_ascii x)); try lia. apply IH.
Qed.

Lemma compare_units_transitive (a b c : string) :
  (Demo.compare_units a b <= 0)%Z -> (Demo.compare_units b c <= 0)%Z ->
  (Demo.compare_units a c <= 0)%Z.
Proof.
  revert b c. induction a as [|x a IH]; intros [|y b] [|z c]; cbn; try lia.
  destruct (N.ltb_spec (N_of_ascii x) (N_of_ascii y));
    destruct (N.ltb_spec (N_of_ascii y) (N_of_ascii x));
    destruct (N.ltb_spec (N_of_ascii y) (N_of_ascii z));
    destruct (N.ltb_spec (N_of_ascii z) (N_of_ascii y));
    destruct (N.ltb_spec (N_of_ascii x) (N_of_ascii z));
    destruct (N.ltb_spec (N_of_ascii z) (N_of_ascii x)); try lia.
  apply IH.
Qed.

Lemma compare_units_antisym (a b : string) :
  (Demo.compare_units a b <= 0)%Z -> (Demo.compare_units b a <= 0)%Z -> a = b.
Proof.
  revert b. induction a as [|x a IH]; intros [|y b]; cbn; try lia;
    [reflexivity |].
  destruct (N.ltb_spec (N_of_ascii x) (N_of_ascii y));
    destruct (N.ltb_spec (N_of_ascii y) (N_of_ascii x)); try lia.
  intros Hab Hba. f_equal; [| apply IH; assumption].
  rewrite <- (ascii_N_embedding x), <- (ascii_N_embedding y). f_equal. lia.
Qed.

(** C5 as stated fails where the collation ties two names: the sort is
    stable, so the order in which the directory lists them shows through.
    With a collation that passes over control characters (a consistent
    comparison: total and transitive), the same two entries listed in the
    two possible orders give two different sequences, and one of them is
    not in lexicographic order. *)
Lemma listing_order_shows_through_counterexample :
  let a := "a" in
  let a' := String "a" (String "001" EmptyString) in
  let fs : tree :=
    list_to_map [([], Dir); (["t"], Dir); (["t"; a], Dir); (["t"; a'], Dir)] in
  let w := Demo.boot fs [] in
  let keep := fun entry => negb (includes Part002.SKIP_PATHS entry) in
  ((forall x y, (Demo.collate x y <= 0)%Z \/ (Demo.collate y x <= 0)%Z)
   /\ (forall x y z, (Demo.collate x y <= 0)%Z -> (Demo.collate y z <= 0)%Z ->
                     (Demo.collate x z <= 0)%Z))
  /\ ids (templatesFrom Demo.collating keep ["t"] [a; a'] w) = [a; a']
  /\ ids (templatesFrom Demo.collating keep ["t"] [a'; a] w) = [a'; a]
  /\ String.leb a' a = false.
Proof.
  cbv zeta. split; [split |].
  - intros x y. apply compare_units_total.
  - intros x y z. apply compare_units_transitive.
  - split; [| split]; by_evaluation.
Qed.

(** C5, amended: for a collation that is a consistent comparison (total
    and transitive), discovery of a directory returns, and what it returns
    is the stable sort of the descriptors of the kept directories by the
    collation of their ids: it holds exactly these descriptors, in
    ascending order of collation, those with tied ids in the order of the
    listing.  Where the collation agrees with the lexicographic order on
    the names of the directory, the result is in lexicographic order of
    the ids.  Two listings of the same entries give the same sequence
    when the collation ties no two different entries. *)
Theorem discovery_is_the_stable_sort_by_collation
  (h : host) (keep : string -> bool) (dir : path) :
  (forall a b, (localeCompare h a b <= 0)%Z \/ (localeCompare h b a <= 0)%Z) ->
  (forall a b c, (localeCompare h a b <= 0)%Z -> (localeCompare h b c <= 0)%Z ->
                 (localeCompare h a c <= 0)%Z) ->
  (forall w,
     files w !! dir = Some Dir ->
     let kept :=
       map (fun e => described h (files w) (dir ++ [e]) e)
           (filter (fun e => listed keep (files w) dir e = true)
                   (children (files w) dir)) in
     exists ts,
       Shared.getAvailableTemplates h keep dir w = Return ts w
       /\ ts ≡ₚ kept
       /\ StronglySorted (by_id h) ts
       /\ (forall x, filter (fun t => tied h x (id t) = true) ts
                     = filter (fun t => tied h x (id t) = true) kept)
       /\ ((forall a b, a ∈ children (files w) dir ->
                        b ∈ children (files w) dir ->
                        (localeCompare h a b <= 0)%Z ->
                        String.leb a b = true) ->
           StronglySorted lexicographic ts))
  /\ (forall w entries1 entries2,
        entries1 ≡ₚ entries2 ->
        (forall a b, a ∈ entries1 -> b ∈ entries1 ->
                     tied h a b = true -> a = b) ->
        templatesFrom h keep dir entries1 w
        = templatesFrom h keep dir entries2 w).
Proof.
  intros total transitive. split.
  - intros w Hdir kept. exists (sort h kept).
    split; [apply getAvailableTemplates_spec, Hdir |].
    split; [apply sort_Permutation |].
    split; [apply sort_sorted; assumption |].
    split; [intros x; apply sort_stable, transitive |].
    intros Hagree.
    apply (StronglySorted_among (by_id h));
      [| apply sort_sorted; assumption].
    intros t u Ht Hu Htu. rewrite sort_Permutation in Ht, Hu.
    apply list_elem_of_fmap in Ht as (e1 & -> & He1).
    apply list_elem_of_fmap in Hu as (e2 & -> & He2).
    apply list_elem_of_filter in He1 as [_ He1].
    apply list_elem_of_filter in He2 as [_ He2].
    unfold by_id in Htu. unfold lexicographic.
    rewrite !described_id in *. apply Hagree; assumption.
  - intros w entries1 entries2 Hperm Huntied. unfold templatesFrom. run.
    rewrite !collect_spec.
    assert (forallb (fun e => existsSync (files w) (dir ++ [e])) entries1
            = forallb (fun e => existsSync (files w) (dir ++ [e])) entries2)
      as ->.
    { apply eq_true_iff_eq. rewrite !forallb_forall. split; intros H e He;
        apply H; apply list_elem_of_In; apply list_elem_of_In in He;
        [rewrite Hperm | rewrite <- Hperm]; exact He. }
    destruct (forallb _ entries2); [| reflexivity]. f_equal.
    apply (StronglySorted_unique_strong (by_id h)).
    + intros x1 x2 H1 H2 H12 H21.
      rewrite sort_Permutation in H1, H2.
      apply list_elem_of_fmap in H1 as (e1 & -> & He1).
      apply list_elem_of_fmap in H2 as (e2 & -> & He2).
      apply list_elem_of_filter in He1 as [_ He1].
      apply list_elem_of_filter in He2 as [_ He2].
      assert (e1 = e2) as ->; [| reflexivity].
      unfold by_id in H12, H21. rewrite !described_id in H12, H21.
      apply Huntied; [exact He1 | rewrite Hperm; exact He2 |].
      unfold tied. apply andb_true_intro. split; apply Z.leb_le; assumption.
    + apply sort_sorted; assumption.
    + apply sort_sorted; assumption.
    + rewrite !sort_Permutation. rewrite Hperm. reflexivity.
Qed.

(** The comparison by code units is the lexicographic order, and ties
    nothing. *)
Lemma compare_units_leb (a b : string) :
  (Demo.compare_units a b <= 0)%Z -> String.leb a b = true.
Proof.
  unfold String.leb. revert b.
  induction a as [| x a IH]; intros [| y b]; cbn; try lia; try reflexivity.
  unfold Ascii.compare. rewrite N.compare_antisym.
  destruct (N.ltb_spec (N_of_ascii x) (N_of_ascii y)) as [Hlt | Hge].
  - intros _. apply (proj2 (N.compare_gt_iff _ _)) in Hlt.
    rewrite Hlt. reflexivity.
  - destruct (N.ltb_spec (N_of_ascii y) (N_of_ascii x)) as [Hlt' | Hge'].
    + lia.
    + intros H. assert (E : N_of_ascii y = N_of_ascii x) by lia.
      rewrite E, N.compare_refl. cbn. apply IH, H.
Qed.

Lemma discovery_is_the_stable_sort_by_collation_witness :
  let w := Demo.boot (Demo.installation "package-config.json"
                        (Json Demo.package_config)) [] in
  let keep := fun entry => negb (includes Part002.SKIP_PATHS entry) in
  ((forall a b, (Demo.compare_units a b <= 0)%Z \/ (Demo.compare_units b a <= 0)%Z)
   /\ (forall a b c, (Demo.compare_units a b <= 0)%Z ->
                     (Demo.compare_units b c <= 0)%Z ->
                     (Demo.compare_units a c <= 0)%Z)
   /\ files w !! Demo.templates = Some Dir
   /\ ["2-shadcn"; "1-basic"] ≡ₚ ["1-basic"; "2-shadcn"])
  /\ (exists ts,
        Shared.getAvailableTemplates Demo.h keep Demo.templates w = Return ts w
        /\ ts ≡ₚ map (fun e => described Demo.h (files w)
                                    (Demo.templates ++ [e]) e)
                     (filter (fun e => listed keep (files w) Demo.templates e
                                       = true)
                             (children (files w) Demo.templates))
        /\ StronglySorted lexicographic ts)
  /\ templatesFrom Demo.h keep Demo.templates ["2-shadcn"; "1-basic"] w
     = templatesFrom Demo.h keep Demo.templates ["1-basic"; "2-shadcn"] w.
Proof.
  intros w keep.
  assert (Hdir : files w !! Demo.templates = Some Dir) by by_evaluation.
  assert (Hperm : ["2-shadcn"; "1-basic"] ≡ₚ ["1-basic"; "2-shadcn"])
    by apply perm_swap.
  assert (Hagree : forall a b : string,
            a ∈ children (files w) Demo.templates ->
            b ∈ children (files w) Demo.templates ->
            (localeCompare Demo.h a b <= 0)%Z -> String.leb a b = true)
    by (intros a b _ _; apply compare_units_leb).
  assert (Huntied : forall a b : string,
            a ∈ ["2-shadcn"; "1-basic"] -> b ∈ ["2-shadcn"; "1-basic"] ->
            tied Demo.h a b = true -> a = b).
  { intros a b _ _ H. unfold tied in H. apply andb_prop in H as [H1 H2].
    apply Z.leb_le in H1, H2. exact (compare_units_antisym a b H1 H2). }
  pose proof (discovery_is_the_stable_sort_by_collation
                Demo.h keep Demo.templates
                compare_units_total compare_units_transitive) as [Hone Htwo].
  destruct (Hone w Hdir) as (ts & Hts & Hkept & _ & _ & Hlex).
  split;
    [exact (conj compare_units_total
              (conj compare_units_transitive (conj Hdir Hperm))) |].
  split; [exists ts; exact (conj Hts (conj Hkept (Hlex Hagree))) |].
  exact (Htwo w _ _ Hperm Huntied).
Defined.

(** *** Claim C9 *)

(** C9 as stated fails: a template directory whose name has no hyphen,
    with a metadata file that parses, keeps its raw name; dropping the
    segment before the first hyphen and capitalising the rest would give
    the empty string. *)
Lemma display_name_without_hyphen_counterexample :
  let w := Demo.boot (Demo.installation "package-config.json"
                        (Json Demo.package_config)) [] in
  exists ts t,
    Part002.getAvailableTemplates Demo.h Demo.templates w = Return ts w
    /\ t ∈ ts
    /\ id t = "plain"
    /\ is_Some (metadata (files w) (Demo.templates ++ [id t]))
    /\ name t = "plain"
    /\ spec_display_name Demo.h (id t) = EmptyString.
Proof.
  exists Demo.discovered,
    {| id := "plain"; name := "plain"; description := JStr "No prefix" |}.
  split; [by_evaluation |].
  split; [unfold Demo.discovered; set_solver |].
  split; [reflexivity |].
  split; [vm_compute; eauto |].
  split; reflexivity.
Qed.

(** C9, amended: discovery of a directory never fails, whatever the
    metadata files hold.  For a descriptor whose [package.json] exists,
    parses and is not [null], the display name is the id with the segment
    before the first hyphen dropped and the remaining hyphen-separated
    words capitalised when the id has a hyphen, and the id itself when it
    has none; the description is the metadata's, when truthy.  When the
    metadata is missing or does not parse, name and description fall back
    to the id and the default text. *)
Theorem display_name_of_discovered_template
  (h : host) (keep : string -> bool) (dir : path) (w : world) :
  files w !! dir = Some Dir ->
  exists ts,
    Shared.getAvailableTemplates h keep dir w = Return ts w
    /\ forall t, t ∈ ts ->
         match metadata (files w) (dir ++ [id t]) with
         | Some j =>
             name t = (if has_hyphen (id t) then spec_display_name h (id t)
                       else id t)
             /\ description t
                = (if truthy (assoc "description" (own_props (Some j)))
                   then default default_description
                          (assoc "description" (own_props (Some j)))
                   else default_description)
         | None => name t = id t /\ description t = default_description
         end.
Proof.
  intros Hdir. eexists. split; [apply getAvailableTemplates_spec, Hdir |].
  intros t Ht. rewrite sort_Permutation in Ht.
  apply list_elem_of_fmap in Ht as (e & -> & _).
  rewrite described_id. unfold described.
  destruct (metadata (files w) (dir ++ [e])); split; reflexivity.
Qed.

Lemma display_name_of_discovered_template_witness :
  let w := Demo.boot (Demo.installation "package-config.json"
                        (Json Demo.package_config)) [] in
  files w !! Demo.templates = Some Dir
  /\ exists ts,
       Part002.getAvailableTemplates Demo.h Demo.templates w = Return ts w
       /\ forall t, t ∈ ts ->
            match metadata (files w) (Demo.templates ++ [id t]) with
            | Some j =>
                name t = (if has_hyphen (id t)
                          then spec_display_name Demo.h (id t) else id t)
                /\ description t
                   = (if truthy (assoc "description" (own_props (Some j)))
                      then default default_description
                             (assoc "description" (own_props (Some j)))
                      else default_description)
            | None => name t = id t /\ description t = default_description
            end.
Proof.
  split; [vm_compute; reflexivity |].
  apply (display_name_of_discovered_template Demo.h).
  vm_compute; reflexivity.
Defined.

(** The example of the specification: [1-basic] is shown as [Basic]. *)
Example basic_is_shown_as_Basic :
  spec_display_name Demo.h "1-basic" = "Basic"
  /\ spec_display_name Demo.h "2-ai-chat" = "Ai Chat".
Proof. split; reflexivity. Qed.

Lemma nan_choice_fails_through_catch_all_witness :
  let w := Demo.boot (Demo.installation "package-config.json"
                        (Json Demo.package_config)) ["abc"; "1"] in
  ("abc" <> EmptyString
   /\ parseInt "abc" = None
   /\ ready (Part002.getAvailableTemplates Demo.h) Demo.h "demo" w
            Demo.discovered w
   /\ stdin w = ["abc"; "1"])
  /\ Part002.main Demo.h 10 ["demo"] w
     = Exit 1 (after w ["1"]
         [ Stdout (Creating "demo");
           Prompt "Choose a template (1-3) [1]: ";
           Stderr (ErrorCreatingApp TypeError) ]).
Proof.
  intros w.
  assert (Hne : "abc" <> EmptyString) by discriminate.
  assert (Hnan : parseInt "abc" = None) by reflexivity.
  assert (Hready : ready (Part002.getAvailableTemplates Demo.h) Demo.h "demo"
                     w Demo.discovered w)
    by (split; [reflexivity
              | split; [reflexivity | split; [by_evaluation | reflexivity]]]).
  split; [repeat split; assumption || reflexivity |].
  destruct (nan_choice_fails_through_catch_all Demo.h 10 "demo" "abc" "1"
              w w Demo.discovered ["1"] Hne Hnan) as (_ & H2 & _).
  apply (proj1 (H2 Hready)). reflexivity.
Defined.

(** *** Claim C2 *)

(** With an empty answer [choice] falls back on the default it is given. *)
Lemma choice_empty (dflt : string) :
  dflt <> EmptyString -> choice EmptyString dflt = choice dflt dflt.
Proof.
  intros H. unfold choice. rewrite (eqb_empty_false _ H). reflexivity.
Qed.

(** The backend prompt of the ES-module script announces [1] as its
    default and substitutes "3": with two backends an empty answer is out
    of range, whatever was answered before. *)
Lemma part001_empty_backend_answer
  (h : host) (fuel : nat) (appName first : string)
  (w w1 : world) (templates : list template) (rest : list string) :
  ready (Part001.getAvailableTemplates h) h appName w templates w1 ->
  stdin w1 = first :: EmptyString :: rest ->
  picks first "2" templates ->
  Part001.main h fuel [appName] w
  = Exit 1 (after w1 rest
      [ Stdout (Creating appName);
        Prompt (template_prompt (length templates) "2");
        Prompt "Choose a backend (1-2) [1]: ";
        Stderr (InvalidChoice 2) ]).
Proof.
  intros H Hin (Hrange & t & Ht). unfold Part001.main. at_prompts H.
  rewrite Hin, Hrange, Ht. cbn [stdin files log manifest].
  change (out_of_range (choice EmptyString "3") (length Part001.BACKENDS))
    with true.
  cbn [stdin files log manifest].
  unfold after. rewrite <- !app_assoc. reflexivity.
Qed.

(** C2, the defect: in the ES-module script an empty line at the backend
    prompt, which shows [[1]], does not select backend 1: the run prints
    "Invalid choice" and exits with code 1 without creating anything,
    whereas the answer "1" selects R and the run completes. *)
Theorem part001_backend_default_is_rejected :
  let fs := Demo.installation "package-custom.json" (Json Demo.package_config) in
  let empty := Part001.main Demo.h 10 ["demo"] (Demo.boot fs ["1"; EmptyString]) in
  let typed := Part001.main Demo.h 10 ["demo"]
                 (Demo.boot fs ["1"; "1"; EmptyString]) in
  (outcome_of empty = Exited 1
   /\ log (final empty)
      = [ Stdout (Creating "demo");
          Prompt "Choose a template (1-3) [2]: ";
          Prompt "Choose a backend (1-2) [1]: ";
          Stderr (InvalidChoice 2) ]
   /\ files (final empty) = fs)
  /\ (outcome_of typed = Returned
      /\ log (final typed)
         = [ Stdout (Creating "demo");
             Prompt "Choose a template (1-3) [2]: ";
             Prompt "Choose a backend (1-2) [1]: ";
             Prompt "Choose an option (1-2) [1]: ";
             Stdout (Summary "1-basic" "r" ["work"; "demo"] true);
             Stdout (DocTemplateMissing "SHINY-REACT.md");
             Stdout Created ]
      /\ files (final typed) !! ["work"; "demo"; "r"; "app.R"]
         = Some (File (Text "shinyApp"))).
Proof.
  cbv zeta. repeat split; by_evaluation.
Qed.

(** In the other two scripts the substituted defaults are the announced
    ones: empty lines select template 1, backend 3 and the documentation
    default, exactly as typing them does. *)
Example announced_defaults_are_used :
  let fs := Demo.installation "package-config.json" (Json Demo.package_config) in
  let same (a b : result unit) :=
    exists o l fs',
      (outcome_of a = o /\ log (final a) = l
       /\ map_to_list (files (final a)) = fs')
      /\ (outcome_of b = o /\ log (final b) = l
          /\ map_to_list (files (final b)) = fs') in
  same (Part002.main Demo.h 10 ["demo"]
          (Demo.boot fs [EmptyString; EmptyString; EmptyString]))
       (Part002.main Demo.h 10 ["demo"] (Demo.boot fs ["1"; "3"; "y"]))
  /\ same (Part003.main Demo.h 10 ["demo"]
             (Demo.boot fs [EmptyString; EmptyString; EmptyString]))
          (Part003.main Demo.h 10 ["demo"] (Demo.boot fs ["1"; "3"; "n"])).
Proof.
  cbv zeta. split.
  - do 3 eexists.
    split; [split; [| split]; vm_compute; reflexivity | evaluate_all].
  - do 3 eexists.
    split; [split; [| split]; vm_compute; reflexivity | evaluate_all].
Qed.

(** ** The manifest patcher *)

Lemma assoc_set_eq {A} (k : string) (v : A) (l : list (string * A)) :
  assoc k (assoc_set k v l) = Some v.
Proof.
  induction l as [|[k' v'] l IH]; cbn.
  - rewrite String.eqb_refl. reflexivity.
  - destruct (String.eqb k k') eqn:E; cbn.
    + rewrite String.eqb_refl. reflexivity.
    + rewrite E. exact IH.
Qed.

Lemma assoc_set_ne {A} (k k' : string) (v : A) (l : list (string * A)) :
  k <> k' -> assoc k (assoc_set k' v l) = assoc k l.
Proof.
  intros Hne. induction l as [|[k0 v0] l IH]; cbn.
  - destruct (String.eqb_spec k k'); [contradiction | reflexivity].
  - destruct (String.eqb_spec k' k0) as [->|Hne0]; cbn.
    + destruct (String.eqb_spec k k0); [contradiction | reflexivity].
    + destruct (String.eqb k k0); [reflexivity | exact IH].
Qed.

Lemma assoc_set_is_Some {A} (k k' : string) (v : A) (l : list (string * A)) :
  is_Some (assoc k l) -> is_Some (assoc k (assoc_set k' v l)).
Proof.
  destruct (String.eqb_spec k k') as [->|Hne].
  - rewrite assoc_set_eq. eauto.
  - rewrite assoc_set_ne by exact Hne. exact (fun H => H).
Qed.

Lemma fold_set_is_Some {A} (k : string) (b acc : list (string * A)) :
  is_Some (assoc k acc) ->
  is_Some (assoc k (fold_left (fun acc kv => assoc_set kv.1 kv.2 acc) b acc)).
Proof.
  revert acc. induction b as [|[k' v'] b IH]; intros acc H; [exact H |].
  cbn [fold_left]. apply IH, assoc_set_is_Some, H.
Qed.

Lemma fold_set_from {A} (k : string) (b acc : list (string * A)) :
  is_Some (assoc k b) ->
  is_Some (assoc k (fold_left (fun acc kv => assoc_set kv.1 kv.2 acc) b acc)).
Proof.
  revert acc. induction b as [|[k' v'] b IH]; intros acc H.
  - destruct H as [x Hx]. discriminate.
  - cbn [fold_left]. cbn in H. destruct (String.eqb_spec k k') as [->|Hne].
    + apply fold_set_is_Some. cbn. rewrite assoc_set_eq. eauto.
    + apply IH, H.
Qed.

(** [{ ...a, ...b }] loses no key of [a]. *)
Lemma spread_keeps_keys (a b : option json) (k : string) :
  is_Some (assoc k (own_props a)) ->
  is_Some (assoc k (own_props (Some (spread a b)))).
Proof.
  intros H. unfold spread. cbn [own_props].
  apply fold_set_is_Some, fold_set_from, H.
Qed.

Lemma obj_set_plain (o : object) (k : string) (x : json) :
  array_length o = None ->
  exists o',
    obj_set o k x = inr o'
    /\ array_length o' = None
    /\ (forall k', k' <> k -> assoc k' (own o') = assoc k' (own o))
    /\ (k <> "__proto__" ->
        assoc k (own o') = Some x /\ inherited o' = inherited o).
Proof.
  intros Hplain. unfold obj_set. rewrite Hplain.
  destruct (is_own o k); cbn [negb andb].
  - eexists. split; [reflexivity |]. cbn.
    split; [reflexivity |]. split.
    + intros k' Hne. apply assoc_set_ne, Hne.
    + intros _. split; [apply assoc_set_eq | reflexivity].
  - destruct (String.eqb_spec k "__proto__") as [->|Hne]; cbn [andb].
    + destruct (is_inherited o "__proto__"); cbn [negb];
        (eexists; split; [reflexivity |]; cbn; split; [reflexivity |]; split;
         [| congruence]).
      * intros k' Hne. apply assoc_set_ne, Hne.
      * reflexivity.
    + eexists. split; [reflexivity |]. cbn. split; [reflexivity |]. split.
      * intros k' Hne'. apply assoc_set_ne, Hne'.
      * intros _. split; [apply assoc_set_eq | reflexivity].
Qed.

Lemma merge_round_plain (cond : string -> bool) (entry : option json)
  (o : object) (key : string) :
  array_length o = None ->
  array_length (merge_round cond entry o key) = None
  /\ (forall k, k <> key ->
        assoc k (own (merge_round cond entry o key)) = assoc k (own o)).
Proof.
  intros Hplain. unfold merge_round. destruct (cond key); [| auto].
  destruct (obj_set_plain o key
              (spread (obj_get o key) (assoc key (own_props entry))) Hplain)
    as (o' & -> & Hp & Hothers & _).
  auto.
Qed.

Lemma merge_rounds_plain (cond : string -> bool) (entry : option json)
  (keys : list string) (o : object) :
  array_length o = None ->
  array_length (merge_rounds cond entry keys o) = None
  /\ (forall k, k ∉ keys ->
        assoc k (own (merge_rounds cond entry keys o)) = assoc k (own o)).
Proof.
  revert o. induction keys as [|key keys IH]; intros o Hplain; [auto |].
  destruct (merge_round_plain cond entry o key Hplain) as (Hp & Hothers).
  pose proof (IH _ Hp) as (Hp' & Hothers').
  cbn [merge_rounds fold_left] in Hp', Hothers' |- *.
  split; [exact Hp' |]. intros k Hk.
  apply not_elem_of_cons in Hk as [Hne Hk].
  rewrite Hothers' by exact Hk. apply Hothers, Hne.
Qed.

Lemma merge_step (strict : bool) (entry : option json) (key : string)
  (w : world) (o : object) :
  manifest w = Obj o ->
  array_length o = None ->
  (current <- manifest_get key ;;
   manifest_set strict key (spread current (assoc key (own_props entry)))) w
  = Return tt (holding w (Obj (merge_round (fun _ => true) entry o key))).
Proof.
  intros Hw Hplain.
  unfold bind, manifest_get, manifest_set, lift, ret, merge_round.
  rewrite Hw. cbn. rewrite Hw. cbn.
  destruct (obj_set_plain o key
              (spread (obj_get o key) (assoc key (own_props entry)))
              Hplain) as (o' & -> & _).
  reflexivity.
Qed.

(** The loops as the two scripts write them, on a plain object. *)
Lemma merge_loop_002 (entry : option json) (keys : list string)
  (w : world) (o : object) :
  manifest w = Obj o ->
  array_length o = None ->
  forEach keys (fun key =>
    if negb (String.eqb key "scripts") then
      current <- manifest_get key ;;
      manifest_set Part002.strict key
        (spread current (assoc key (own_props entry)))
    else ret tt) w
  = Return tt (holding w
      (Obj (merge_rounds (fun key => negb (String.eqb key "scripts"))
                         entry keys o))).
Proof.
  revert w o. induction keys as [|key keys IH]; intros w o Hw Hplain.
  - destruct w; cbn in *; subst; reflexivity.
  - cbn [forEach merge_rounds fold_left]. unfold bind at 1.
    unfold merge_round at 2.
    destruct (negb (String.eqb key "scripts")).
    + rewrite (merge_step _ _ _ _ o Hw Hplain).
      rewrite (IH _ (merge_round (fun _ => true) entry o key));
        [reflexivity | reflexivity |].
      apply merge_round_plain, Hplain.
    + unfold ret at 1. apply IH; assumption.
Qed.

Lemma merge_loop_001 (entry : option json) (keys : list string)
  (w : world) (o : object) :
  manifest w = Obj o ->
  array_length o = None ->
  forEach keys (fun key =>
    current <- manifest_get key ;;
    manifest_set Part001.strict key
      (spread current (assoc key (own_props entry)))) w
  = Return tt (holding w
      (Obj (merge_rounds (fun _ => true) entry keys o))).
Proof.
  revert w o. induction keys as [|key keys IH]; intros w o Hw Hplain.
  - destruct w; cbn in *; subst; reflexivity.
  - cbn [forEach merge_rounds fold_left]. unfold bind at 1.
    rewrite (merge_step _ _ _ _ o Hw Hplain).
    rewrite (IH _ (merge_round (fun _ => true) entry o key));
      [reflexivity | reflexivity |].
    apply merge_round_plain, Hplain.
Qed.

Lemma obj_set_plain_key (props : list (string * json)) (k : string) (x : json) :
  k <> "__proto__" ->
  obj_set (plain props) k x = inr (plain (assoc_set k x props)).
Proof.
  intros Hk. unfold obj_set, plain. cbn [array_length own inherited].
  destruct (is_own _ k); [reflexivity |].
  destruct (String.eqb_spec k "__proto__"); [contradiction | reflexivity].
Qed.

Lemma path_snoc_ne (p : path) (a b : string) : a <> b -> p ++ [a] <> p ++ [b].
Proof. intros Hne H. apply app_inv_head in H. congruence. Qed.

Lemma path_snoc_self (p : path) (a : string) : p ++ [a] <> p.
Proof.
  intros H. apply (f_equal length) in H. rewrite length_app in H. cbn in H. lia.
Qed.

Lemma dirname_snoc (p : path) (a : string) : dirname (p ++ [a]) = p.
Proof. unfold dirname. apply removelast_last. Qed.

Ltac step := unfold bind at 1; cbn [files stdin log manifest].

Lemma apply_config_consumed (side : path) (backend : string) (cfg : json)
  (o : object) (w : world) :
  files w !! side = Some (File (Json cfg)) ->
  cfg <> JNull ->
  manifest w = Obj o ->
  array_length o = None ->
  Part002.apply_config side backend w
  = Return tt
      {| files := delete side (files w); stdin := stdin w; log := log w;
         manifest := Obj (patched002 (assoc backend (own_props (Some cfg))) o) |}.
Proof.
  intros Hside Hcfg Hw Hplain. unfold Part002.apply_config.
  step. unfold reading at 1, readFileSync. rewrite Hside. cbn [lift ret].
  step. cbn [JSON_parse lift ret].
  step. assert (get cfg backend = inr (assoc backend (own_props (Some cfg)))) as ->
    by (destruct cfg; [contradiction | reflexivity..]).
  cbn [lift ret]. unfold patched002.
  set (entry := assoc backend (own_props (Some cfg))).
  step. unfold when at 1. destruct (truthy entry).
  - step. unfold when at 1.
    destruct (truthy (assoc "scripts" (own_props entry))).
    + unfold manifest_set at 1. rewrite Hw. cbn [value_set].
      destruct (obj_set_plain o "scripts"
                  (default JNull (assoc "scripts" (own_props entry))) Hplain)
        as (o' & -> & Hp & _).
      cbn [bind_manifest].
      rewrite (merge_loop_002 entry _ _ o'); [| reflexivity | exact Hp].
      unfold writing, unlinkSync, holding. cbn [files stdin log manifest].
      rewrite Hside. reflexivity.
    + unfold ret at 1.
      rewrite (merge_loop_002 entry _ _ o); [| exact Hw | exact Hplain].
      unfold writing, unlinkSync, holding. cbn [files stdin log manifest].
      rewrite Hside. reflexivity.
  - unfold ret at 1. unfold writing, unlinkSync. rewrite Hside.
    unfold with_files. rewrite Hw. reflexivity.
Qed.

Lemma apply_config_fails (side : path) (backend : string) (w : world) :
  is_Some (files w !! side) ->
  consumable (files w) side = false ->
  exists e, Part002.apply_config side backend w = Throw e w.
Proof.
  intros [x Hx] Hc. unfold consumable in Hc. rewrite Hx in Hc.
  unfold Part002.apply_config.
  step. unfold reading at 1, readFileSync. rewrite Hx.
  destruct x as [c|]; [| eexists; reflexivity].
  cbn [lift ret]. step.
  destruct c as [t | j]; [eexists; reflexivity |].
  destruct j; try discriminate. eexists; reflexivity.
Qed.

Lemma patched002_plain (entry : option json) (o : object) :
  array_length o = None -> array_length (patched002 entry o) = None.
Proof.
  intros H. unfold patched002. destruct (truthy entry); [| exact H].
  apply merge_rounds_plain.
  destruct (truthy _); [| exact H].
  destruct (obj_set_plain o "scripts"
              (default JNull (assoc "scripts" (own_props entry))) H)
    as (o' & -> & Hp & _). exact Hp.
Qed.

Lemma write_manifest (p : path) (name : string) (o : object) (w : world)
  (e : content) :
  manifest w = Obj o ->
  array_length o = None ->
  files w !! p = Some Dir ->
  files w !! (p ++ [name]) = Some (File e) ->
  (packageJson <- the_manifest ;;
   writing (fun fs => writeFileSync fs (p ++ [name])
                        (Json (to_json packageJson)))) w
  = Return tt {| files := <[p ++ [name] := File (Json (JObj (own o)))]> (files w);
                 stdin := stdin w; log := log w; manifest := Obj o |}.
Proof.
  intros Hw Hplain Hdir Hfile. step. unfold the_manifest.
  unfold writing, writeFileSync. rewrite Hfile, dirname_snoc, Hdir, Hw.
  cbn [to_json]. rewrite Hplain. unfold with_files. rewrite Hw. reflexivity.
Qed.

Lemma part002_patch (target : path) (appName backend : string)
  (props : list (string * json)) (w : world) :
  files w !! target = Some Dir ->
  files w !! (target ++ ["package.json"]) = Some (File (Json (JObj props))) ->
  let side := target ++ ["package-config.json"] in
  let o := patched patched002 (files w) side backend appName props in
  Part002.updatePackageJson target appName backend w
  = Return tt
      {| files := <[target ++ ["package.json"] := File (Json (JObj (own o)))]>
                    (if consumable (files w) side then delete side (files w)
                     else files w);
         stdin := stdin w;
         log := log w ++
                (if existsSync (files w) side && negb (consumable (files w) side)
                 then [Stdout ConfigNotApplied] else []);
         manifest := Obj o |}.
Proof.
  intros Hdir Hpkg side o.
  assert (Hne : target ++ ["package.json"] <> side)
    by (apply path_snoc_ne; discriminate).
  unfold Part002.updatePackageJson.
  step. unfold exists_ at 1, existsSync at 1. rewrite Hpkg.
  unfold when at 1.
  step. unfold reading at 1, readFileSync. rewrite Hpkg. cbn [lift ret].
  step. cbn [JSON_parse lift ret].
  step. cbn [of_json bind_manifest].
  step. unfold manifest_set at 1. cbn [manifest value_set].
  change {| own := props; inherited := []; array_length := None |}
    with (plain props).
  rewrite obj_set_plain_key by discriminate. cbn [bind_manifest].
  cbn [files stdin log manifest].
  set (o1 := plain (assoc_set "name" (JStr appName) props)).
  set (w1 := {| files := files w; stdin := stdin w; log := log w;
                manifest := Obj o1 |}).
  step. unfold exists_ at 1. fold side.
  change (files w1) with (files w).
  unfold o, patched, consumable, existsSync.
  destruct (files w !! side) as [x|] eqn:Hside.
  - unfold when at 1. step. unfold try_catch.
    destruct (decide (consumable (files w) side = true)) as [Hc|Hc].
    + unfold consumable in Hc. rewrite Hside in Hc.
      destruct x as [[t|cfg]|]; try discriminate.
      assert (cfg <> JNull) as Hcfg by (intros ->; discriminate).
      rewrite (apply_config_consumed side backend cfg o1 w1 Hside Hcfg eq_refl eq_refl).
      cbn [andb negb]. etrans.
      { eapply (write_manifest target "package.json" _ _ (Json (JObj props)));
          cbn [files stdin log manifest].
        - reflexivity.
        - apply patched002_plain. reflexivity.
        - rewrite lookup_delete_ne; [exact Hdir |].
          intros H. exact (path_snoc_self _ _ H).
        - rewrite lookup_delete_ne; [exact Hpkg | congruence]. }
      cbn [files stdin log manifest].
      destruct cfg; try contradiction; cbn [negb andb];
        rewrite app_nil_r; reflexivity.
    + apply not_true_is_false in Hc.
      destruct (apply_config_fails side backend w1) as [e He];
        [exists x; exact Hside | exact Hc |].
      rewrite He. unfold console_log, emit. cbn [files stdin log manifest].
      unfold consumable in Hc. rewrite Hside in Hc. etrans.
      { eapply (write_manifest target "package.json" _ _ (Json (JObj props)));
          cbn [files stdin log manifest];
          [reflexivity | reflexivity | exact Hdir | exact Hpkg]. }
      cbn [files stdin log manifest].
      destruct x as [[t|cfg]|]; try reflexivity.
      destruct cfg; try discriminate. reflexivity.
  - unfold when at 1. step. unfold ret at 1. etrans.
    { eapply (write_manifest target "package.json" _ _ (Json (JObj props)));
        cbn [files stdin log manifest];
        [reflexivity | reflexivity | exact Hdir | exact Hpkg]. }
    cbn [files stdin log manifest andb]. rewrite app_nil_r. reflexivity.
Qed.

Lemma apply_custom_consumed (side : path) (backend : string) (cfg : json)
  (o : object) (w : world) :
  files w !! side = Some (File (Json cfg)) ->
  cfg <> JNull ->
  manifest w = Obj o ->
  array_length o = None ->
  Part001.apply_custom side backend w
  = Return tt
      {| files := delete side (files w); stdin := stdin w; log := log w;
         manifest := Obj (patched001 (assoc backend (own_props (Some cfg))) o) |}.
Proof.
  intros Hside Hcfg Hw Hplain. unfold Part001.apply_custom.
  step. unfold reading at 1, readFileSync. rewrite Hside. cbn [lift ret].
  step. cbn [JSON_parse lift ret].
  step. assert (get cfg backend = inr (assoc backend (own_props (Some cfg)))) as ->
    by (destruct cfg; [contradiction | reflexivity..]).
  cbn [lift ret]. unfold patched001.
  set (entry := assoc backend (own_props (Some cfg))).
  step. unfold when at 1. destruct (truthy entry).
  - rewrite (merge_loop_001 entry _ _ o); [| exact Hw | exact Hplain].
    unfold writing, unlinkSync, holding. cbn [files stdin log manifest].
    rewrite Hside. reflexivity.
  - unfold ret at 1. unfold writing, unlinkSync. rewrite Hside.
    unfold with_files. rewrite Hw. reflexivity.
Qed.

Lemma apply_custom_fails (side : path) (backend : string) (w : world) :
  is_Some (files w !! side) ->
  consumable (files w) side = false ->
  exists e, Part001.apply_custom side backend w = Throw e w.
Proof.
  intros [x Hx] Hc. unfold consumable in Hc. rewrite Hx in Hc.
  unfold Part001.apply_custom.
  step. unfold reading at 1, readFileSync. rewrite Hx.
  destruct x as [c|]; [| eexists; reflexivity].
  cbn [lift ret]. step.
  destruct c as [t | j]; [eexists; reflexivity |].
  destruct j; try discriminate. eexists; reflexivity.
Qed.

Lemma patched001_plain (entry : option json) (o : object) :
  array_length o = None -> array_length (patched001 entry o) = None.
Proof.
  intros H. unfold patched001. destruct (truthy entry); [| exact H].
  apply merge_rounds_plain, H.
Qed.

Lemma part001_patch (target : path) (appName backend : string)
  (props : list (string * json)) (w : world) :
  files w !! target = Some Dir ->
  files w !! (target ++ ["package.json"]) = Some (File (Json (JObj props))) ->
  let side := target ++ ["package-custom.json"] in
  let o := patched patched001 (files w) side backend appName props in
  Part001.updatePackageJson target appName backend w
  = Return tt
      {| files := <[target ++ ["package.json"] := File (Json (JObj (own o)))]>
                    (if consumable (files w) side then delete side (files w)
                     else files w);
         stdin := stdin w;
         log := log w ++
                (if existsSync (files w) side && negb (consumable (files w) side)
                 then [Stdout ConfigNotApplied] else []);
         manifest := Obj o |}.
Proof.
  intros Hdir Hpkg side o.
  assert (Hne : target ++ ["package.json"] <> side)
    by (apply path_snoc_ne; discriminate).
  unfold Part001.updatePackageJson.
  step. unfold exists_ at 1, existsSync at 1. rewrite Hpkg.
  unfold when at 1.
  step. unfold reading at 1, readFileSync. rewrite Hpkg. cbn [lift ret].
  step. cbn [JSON_parse lift ret].
  step. cbn [of_json bind_manifest].
  step. unfold manifest_set at 1. cbn [manifest value_set].
  change {| own := props; inherited := []; array_length := None |}
    with (plain props).
  rewrite obj_set_plain_key by discriminate. cbn [bind_manifest].
  cbn [files stdin log manifest].
  set (o1 := plain (assoc_set "name" (JStr appName) props)).
  set (w1 := {| files := files w; stdin := stdin w; log := log w;
                manifest := Obj o1 |}).
  step. unfold exists_ at 1. fold side.
  change (files w1) with (files w).
  unfold o, patched, consumable, existsSync.
  destruct (files w !! side) as [x|] eqn:Hside.
  - unfold when at 1. step. unfold try_catch.
    destruct (decide (consumable (files w) side = true)) as [Hc|Hc].
    + unfold consumable in Hc. rewrite Hside in Hc.
      destruct x as [[t|cfg]|]; try discriminate.
      assert (cfg <> JNull) as Hcfg by (intros ->; discriminate).
      rewrite (apply_custom_consumed side backend cfg o1 w1 Hside Hcfg eq_refl eq_refl).
      cbn [andb negb]. etrans.
      { eapply (write_manifest target "package.json" _ _ (Json (JObj props)));
          cbn [files stdin log manifest].
        - reflexivity.
        - apply patched001_plain. reflexivity.
        - rewrite lookup_delete_ne; [exact Hdir |].
          intros H. exact (path_snoc_self _ _ H).
        - rewrite lookup_delete_ne; [exact Hpkg | congruence]. }
      cbn [files stdin log manifest].
      destruct cfg; try contradiction; cbn [negb andb];
        rewrite app_nil_r; reflexivity.
    + apply not_true_is_false in Hc.
      destruct (apply_custom_fails side backend w1) as [e He];
        [exists x; exact Hside | exact Hc |].
      rewrite He. unfold console_log, emit. cbn [files stdin log manifest].
      unfold consumable in Hc. rewrite Hside in Hc. etrans.
      { eapply (write_manifest target "package.json" _ _ (Json (JObj props)));
          cbn [files stdin log manifest];
          [reflexivity | reflexivity | exact Hdir | exact Hpkg]. }
      cbn [files stdin log manifest].
      destruct x as [[t|cfg]|]; try reflexivity.
      destruct cfg; try discriminate. reflexivity.
  - unfold when at 1. step. unfold ret at 1. etrans.
    { eapply (write_manifest target "package.json" _ _ (Json (JObj props)));
        cbn [files stdin log manifest];
        [reflexivity | reflexivity | exact Hdir | exact Hpkg]. }
    cbn [files stdin log manifest andb]. rewrite app_nil_r. reflexivity.
Qed.

Lemma obj_get_own (o : object) (k : string) :
  array_length o = None -> inherited o = [] -> k <> "__proto__" ->
  obj_get o k = assoc k (own o).
Proof.
  intros Hp Hi Hk. unfold obj_get. rewrite Hp, Hi. cbn.
  destruct (assoc k (own o)); [reflexivity |].
  destruct (String.eqb_spec k "__proto__"); [contradiction | reflexivity].
Qed.

Lemma merge_rounds_skips (cond : string -> bool) (entry : option json)
  (keys : list string) (o : object) (k : string) :
  cond k = false ->
  array_length o = None ->
  assoc k (own (merge_rounds cond entry keys o)) = assoc k (own o).
Proof.
  intros Hk. revert o. induction keys as [|key keys IH]; intros o Hplain;
    [reflexivity |].
  change (merge_rounds cond entry (key :: keys) o)
    with (merge_rounds cond entry keys (merge_round cond entry o key)).
  destruct (merge_round_plain cond entry o key Hplain) as (Hp & Hothers).
  etrans; [apply (IH _ Hp) |].
  unfold merge_round in *. destruct (cond key) eqn:Hc; [| reflexivity].
  apply Hothers. congruence.
Qed.

Lemma merge_round_inherited (cond : string -> bool) (entry : option json)
  (o : object) (key : string) :
  array_length o = None -> key <> "__proto__" ->
  inherited (merge_round cond entry o key) = inherited o.
Proof.
  intros Hplain Hk. unfold merge_round. destruct (cond key); [| reflexivity].
  destruct (obj_set_plain o key
              (spread (obj_get o key) (assoc key (own_props entry))) Hplain)
    as (o' & -> & _ & _ & H).
  apply H, Hk.
Qed.

Lemma merge_rounds_value (cond : string -> bool) (entry : option json)
  (keys : list string) (o : object) (k : string) :
  array_length o = None -> inherited o = [] ->
  "__proto__" ∉ keys -> NoDup keys -> k ∈ keys -> cond k = true ->
  assoc k (own (merge_rounds cond entry keys o))
  = Some (spread (assoc k (own o)) (assoc k (own_props entry))).
Proof.
  revert o. induction keys as [|key keys IH];
    intros o Hplain Hinh Hproto Hnodup Hin Hcond.
  - inversion Hin.
  - apply not_elem_of_cons in Hproto as [Hkey Hproto].
    apply NoDup_cons in Hnodup as [Hfresh Hnodup].
    destruct (merge_round_plain cond entry o key Hplain) as (Hp & Hothers).
    pose proof (merge_round_inherited cond entry o key Hplain
                  (fun H => Hkey (eq_sym H))) as Hinh'.
    change (merge_rounds cond entry (key :: keys) o)
      with (merge_rounds cond entry keys (merge_round cond entry o key)).
    destruct (decide (k = key)) as [->|Hne].
    + destruct (merge_rounds_plain cond entry keys _ Hp) as (_ & Hrest).
      rewrite (Hrest _ Hfresh).
      unfold merge_round. rewrite Hcond.
      destruct (obj_set_plain o key
                  (spread (obj_get o key) (assoc key (own_props entry)))
                  Hplain) as (o' & -> & _ & _ & H).
      destruct (H (fun H => Hkey (eq_sym H))) as [-> _].
      rewrite obj_get_own; [reflexivity | assumption..|].
      intros H'. exact (Hkey (eq_sym H')).
    + apply elem_of_cons in Hin as [Heq|Hin]; [contradiction |].
      rewrite IH; try assumption; [| congruence].
      rewrite (Hothers _ Hne). reflexivity.
Qed.

Lemma part003_patch (target : path) (appName backend : string)
  (props : list (string * json)) (w : world) :
  files w !! target = Some Dir ->
  files w !! (target ++ ["package.json"]) = Some (File (Json (JObj props))) ->
  Part003.updatePackageJson target appName backend w
  = Return tt
      {| files := <[target ++ ["package.json"] :=
                      File (Json (JObj (patched003 backend appName props)))]>
                    (files w);
         stdin := stdin w; log := log w;
         manifest := Obj (plain (patched003 backend appName props)) |}.
Proof.
  intros Hdir Hpkg. unfold Part003.updatePackageJson.
  step. unfold exists_ at 1, existsSync at 1. rewrite Hpkg.
  unfold when at 1.
  step. unfold reading at 1, readFileSync. rewrite Hpkg. cbn [lift ret].
  step. cbn [JSON_parse lift ret].
  step. cbn [of_json bind_manifest].
  change {| own := props; inherited := []; array_length := None |}
    with (plain props).
  step. unfold manifest_set at 1. cbn [manifest value_set].
  rewrite obj_set_plain_key by discriminate. cbn [bind_manifest].
  cbn [files stdin log manifest].
  step. unfold manifest_set at 1. cbn [manifest value_set].
  rewrite obj_set_plain_key by discriminate. cbn [bind_manifest].
  cbn [files stdin log manifest].
  set (p2 := assoc_set "version" (JStr "1.0.0")
               (assoc_set "name" (JStr appName) props)).
  step. unfold manifest_get at 1. cbn [manifest value_get].
  rewrite obj_get_own by (reflexivity || discriminate). cbn [lift ret own plain].
  step. unfold when at 1.
  unfold patched003. fold p2.
  set (deps := assoc "dependencies" p2).
  assert (Hset : forall (l : list (string * json)) (v : world),
    manifest v = Obj (plain l) ->
    (manifest_set Part003.strict "scripts" (JObj (Part003.scripts_for backend)) ;;
     packageJson <- the_manifest ;;
     writing (fun fs => writeFileSync fs (target ++ ["package.json"])
                          (Json (to_json packageJson)))) v
    = (packageJson <- the_manifest ;;
       writing (fun fs => writeFileSync fs (target ++ ["package.json"])
                            (Json (to_json packageJson))))
        (holding v (Obj (plain (assoc_set "scripts"
                           (JObj (Part003.scripts_for backend)) l))))).
  { intros l v Hv. step. unfold manifest_set at 1. rewrite Hv.
    cbn [value_set]. rewrite obj_set_plain_key by discriminate. reflexivity. }
  destruct (truthy deps && truthy (assoc "@posit/shiny-react" (own_props deps)))
    eqn:Hdeps.
  - unfold manifest_set_nested at 1. cbn [manifest value_set_nested].
    assert (is_own (plain p2) "dependencies" = true) as ->.
    { unfold is_own. cbn [own plain]. fold deps.
      destruct deps; [reflexivity | discriminate]. }
    cbn [bind_manifest own plain inherited array_length].
    rewrite (Hset (nested_set "dependencies" "@posit/shiny-react"
                     (JStr "^0.0.6") p2)) by reflexivity.
    etrans.
    { eapply (write_manifest target "package.json" _ _ (Json (JObj props)));
        cbn [files stdin log manifest];
        [reflexivity | reflexivity | exact Hdir | exact Hpkg]. }
    reflexivity.
  - unfold ret at 1. rewrite (Hset p2) by reflexivity.
    etrans.
    { eapply (write_manifest target "package.json" _ _ (Json (JObj props)));
        cbn [files stdin log manifest];
        [reflexivity | reflexivity | exact Hdir | exact Hpkg]. }
    reflexivity.
Qed.

Lemma get_entry (cfg : json) (backend : string) :
  cfg <> JNull -> get cfg backend = inr (assoc backend (own_props (Some cfg))).
Proof. destruct cfg; [contradiction | reflexivity..]. Qed.

Lemma returned_written (w' : world) (p : path) (props : list (string * json)) :
  files w' !! p = Some (File (Json (JObj props))) ->
  written (Return tt w') p props.
Proof. intros H. split; [reflexivity | exact H]. Qed.

Lemma patched_consumed (patch : option json -> object -> object) (fs : tree)
  (side : path) (backend appName : string) (props : list (string * json))
  (cfg : json) :
  fs !! side = Some (File (Json cfg)) -> cfg <> JNull ->
  patched patch fs side backend appName props
  = patch (assoc backend (own_props (Some cfg)))
          (plain (assoc_set "name" (JStr appName) props))
  /\ consumable fs side = true.
Proof.
  intros H Hcfg. unfold patched, consumable. rewrite H.
  destruct cfg; try contradiction; split; reflexivity.
Qed.

(** *** Claim C3 *)

(** C3 as stated fails on the [package-custom.json] script: the entry for
    [r] has a [scripts] field, and after patching the manifest's scripts
    are not that field: the prior [build] script is still there. *)
Lemma scripts_merged_counterexample :
  let w := Demo.boot (Demo.copied "package-custom.json"
                        (Json Demo.package_config)) [] in
  let r := Part001.updatePackageJson Demo.target "demo" "r" w in
  entry_of (files w) (Demo.target ++ ["package-custom.json"]) "r"
  = Some (JObj [("scripts", JObj [("dev", JStr "dev-r")])])
  /\ written r (Demo.target ++ ["package.json"])
       [ ("name", JStr "demo");
         ("description", JStr "Hello world");
         ("scripts", JObj [("build", JStr "build-all"); ("dev", JStr "dev-r")]) ].
Proof.
  cbv zeta. split; [by_evaluation |]. split; by_evaluation.
Qed.

(** C3, amended: when the side-file has a truthy entry for the selected
    backend, the [package-config.json] script replaces the manifest's
    [scripts] by the entry's (truthy) [scripts] field and merges every
    other key of the entry shallowly into the manifest; the
    [package-custom.json] script has no replacement: it merges [scripts]
    shallowly like every other key, so no prior script key is lost.  (The
    manifest is a JSON object, the entry lists each key once and none is
    [__proto__].) *)
Theorem scripts_replaced_or_merged
  (target : path) (appName backend : string) (props : list (string * json))
  (cfg entry : json) (w : world) :
  files w !! target = Some Dir ->
  files w !! (target ++ ["package.json"]) = Some (File (Json (JObj props))) ->
  cfg <> JNull ->
  assoc backend (own_props (Some cfg)) = Some entry ->
  truthy (Some entry) = true ->
  NoDup (Object_keys entry) ->
  "__proto__" ∉ Object_keys entry ->
  let before := assoc_set "name" (JStr appName) props in
  let merged k :=
    Some (spread (assoc k before) (assoc k (own_props (Some entry)))) in
  (files w !! (target ++ ["package-config.json"]) = Some (File (Json cfg)) ->
   forall scripts,
     assoc "scripts" (own_props (Some entry)) = Some scripts ->
     truthy (Some scripts) = true ->
     exists props',
       written (Part002.updatePackageJson target appName backend w)
               (target ++ ["package.json"]) props'
       /\ assoc "scripts" props' = Some scripts
       /\ forall k, k ∈ Object_keys entry -> k <> "scripts" ->
                    assoc k props' = merged k)
  /\ (files w !! (target ++ ["package-custom.json"]) = Some (File (Json cfg)) ->
      exists props',
        written (Part001.updatePackageJson target appName backend w)
                (target ++ ["package.json"]) props'
        /\ (forall k, k ∈ Object_keys entry -> assoc k props' = merged k)
        /\ (forall name, "scripts" ∈ Object_keys entry ->
              is_Some (assoc name (own_props (assoc "scripts" before))) ->
              is_Some (assoc name (own_props (assoc "scripts" props'))))).
Proof.
  intros Hdir Hpkg Hcfg Hentry Htruthy Hnodup Hproto before merged.
  unfold Object_keys in *. split.
  - intros Hside scripts Hscripts Hst.
    rewrite (part002_patch _ _ _ _ _ Hdir Hpkg). cbv zeta.
    destruct (patched_consumed patched002 (files w) _ backend appName props
                cfg Hside Hcfg) as [-> _].
    eexists. split; [apply returned_written; cbn [files];
                     apply lookup_insert_eq |].
    unfold patched002. rewrite Hentry, Htruthy, Hscripts.
    cbn [default]. rewrite Hst.
    rewrite obj_set_plain_key by discriminate. split.
    + rewrite merge_rounds_skips by reflexivity. cbn [own plain].
      apply assoc_set_eq.
    + intros k Hk Hne. rewrite merge_rounds_value; try assumption;
        try reflexivity.
      * cbn [own plain]. rewrite assoc_set_ne by exact Hne. reflexivity.
      * destruct (String.eqb_spec k "scripts"); [contradiction | reflexivity].
  - intros Hside.
    rewrite (part001_patch _ _ _ _ _ Hdir Hpkg). cbv zeta.
    destruct (patched_consumed patched001 (files w) _ backend appName props
                cfg Hside Hcfg) as [-> _].
    eexists. split; [apply returned_written; cbn [files];
                     apply lookup_insert_eq |].
    unfold patched001. rewrite Hentry, Htruthy.
    assert (Hmerged : forall k, k ∈ (own_props (Some entry)).*1 ->
      assoc k (own (merge_rounds (fun _ => true) (Some entry)
                      (own_props (Some entry)).*1 (plain before)))
      = merged k).
    { intros k Hk. rewrite merge_rounds_value; try assumption; reflexivity. }
    split; [exact Hmerged |].
    intros name Hk Hname.
    match goal with
    | |- is_Some (assoc name (own_props ?x)) =>
        replace x with (merged "scripts") by (symmetry; exact (Hmerged _ Hk))
    end.
    unfold merged. apply spread_keeps_keys, Hname.
Qed.

Lemma scripts_replaced_or_merged_witness :
  let w := Demo.boot (Demo.copied "package-custom.json"
                        (Json Demo.package_config)) [] in
  let entry := JObj [("scripts", JObj [("dev", JStr "dev-r")])] in
  let before := assoc_set "name" (JStr "demo")
                  (own_props (Some Demo.package_json)) in
  (files w !! Demo.target = Some Dir
   /\ files w !! (Demo.target ++ ["package.json"])
      = Some (File (Json Demo.package_json))
   /\ files w !! (Demo.target ++ ["package-custom.json"])
      = Some (File (Json Demo.package_config))
   /\ Demo.package_config <> JNull
   /\ assoc "r" (own_props (Some Demo.package_config)) = Some entry
   /\ truthy (Some entry) = true
   /\ NoDup (Object_keys entry)
   /\ "__proto__" ∉ Object_keys entry)
  /\ exists props',
       written (Part001.updatePackageJson Demo.target "demo" "r" w)
               (Demo.target ++ ["package.json"]) props'
       /\ (forall k, k ∈ Object_keys entry ->
             assoc k props'
             = Some (spread (assoc k before) (assoc k (own_props (Some entry)))))
       /\ (forall name, "scripts" ∈ Object_keys entry ->
             is_Some (assoc name (own_props (assoc "scripts" before))) ->
             is_Some (assoc name (own_props (assoc "scripts" props')))).
Proof.
  intros w entry before.
  assert (H1 : files w !! Demo.target = Some Dir) by by_evaluation.
  assert (H2 : files w !! (Demo.target ++ ["package.json"])
               = Some (File (Json Demo.package_json))) by by_evaluation.
  assert (H3 : files w !! (Demo.target ++ ["package-custom.json"])
               = Some (File (Json Demo.package_config))) by by_evaluation.
  assert (H4 : Demo.package_config <> JNull) by discriminate.
  assert (H5 : assoc "r" (own_props (Some Demo.package_config)) = Some entry)
    by reflexivity.
  assert (H6 : truthy (Some entry) = true) by reflexivity.
  assert (H7 : NoDup (Object_keys entry)) by apply NoDup_singleton.
  assert (H8 : "__proto__" ∉ Object_keys entry).
  { apply not_elem_of_cons. split; [discriminate | apply not_elem_of_nil]. }
  split; [repeat split; assumption |].
  exact (proj2 (scripts_replaced_or_merged Demo.target "demo" "r" _
                  Demo.package_config entry w H1 H2 H4 H5 H6 H7 H8) H3).
Defined.

(** *** Claim C4 *)

(** C4 as stated fails: a side-file that does not parse is downgraded to
    a warning and is still in the target when the patcher finishes. *)
Lemma unparsable_side_file_counterexample :
  let broken := Text "{ r: " in
  let w := Demo.boot (Demo.copied "package-config.json" broken) [] in
  let r := Part002.updatePackageJson Demo.target "demo" "r" w in
  files w !! (Demo.target ++ ["package.json"])
  = Some (File (Json Demo.package_json))
  /\ files w !! (Demo.target ++ ["package-config.json"]) = Some (File broken)
  /\ outcome_of r = Returned
  /\ log (final r) = [Stdout ConfigNotApplied]
  /\ files (final r) !! (Demo.target ++ ["package-config.json"])
     = Some (File broken).
Proof.
  cbv zeta. repeat split; by_evaluation.
Qed.

(** C4, amended: for a manifest that is a JSON object, the patcher
    returns; a side-file that is a file, parses and is not [null] is
    absent afterwards and no warning is printed; any other side-file
    (unparsable, [null], a directory) is left where it is, the warning is
    printed, and the manifest is written back with only its name
    changed. *)
Theorem side_file_deleted_when_applied
  (target : path) (appName backend : string) (props : list (string * json))
  (w : world) :
  files w !! target = Some Dir ->
  files w !! (target ++ ["package.json"]) = Some (File (Json (JObj props))) ->
  let fate (r : result unit) (side : path) :=
    outcome_of r = Returned
    /\ if consumable (files w) side
       then files (final r) !! side = None /\ log (final r) = log w
       else files (final r) !! side = files w !! side
            /\ log (final r) = log w ++ [Stdout ConfigNotApplied]
            /\ files (final r) !! (target ++ ["package.json"])
               = Some (File (Json (JObj (assoc_set "name" (JStr appName)
                                                    props)))) in
  (is_Some (files w !! (target ++ ["package-custom.json"])) ->
   fate (Part001.updatePackageJson target appName backend w)
        (target ++ ["package-custom.json"]))
  /\ (is_Some (files w !! (target ++ ["package-config.json"])) ->
      fate (Part002.updatePackageJson target appName backend w)
           (target ++ ["package-config.json"])).
Proof.
  intros Hdir Hpkg fate. unfold fate. split; intros [x Hx].
  - rewrite (part001_patch _ _ _ _ _ Hdir Hpkg). cbv zeta.
    split; [reflexivity |]. cbn [final files log].
    assert (Hne : target ++ ["package.json"] <> target ++ ["package-custom.json"])
      by (apply path_snoc_ne; discriminate).
    unfold existsSync. rewrite Hx.
    destruct (consumable (files w) (target ++ ["package-custom.json"])) eqn:Hc;
      cbn [andb negb].
    + rewrite lookup_insert_ne, lookup_delete_eq, app_nil_r by exact Hne. auto.
    + rewrite lookup_insert_ne by exact Hne. rewrite lookup_insert_eq.
      split; [first [exact Hx | symmetry; exact Hx | reflexivity] |].
      split; [reflexivity |].
      unfold patched. unfold consumable in Hc. rewrite Hx in Hc |- *.
      destruct x as [[t|j]|]; try reflexivity.
      destruct j; try discriminate. reflexivity.
  - rewrite (part002_patch _ _ _ _ _ Hdir Hpkg). cbv zeta.
    split; [reflexivity |]. cbn [final files log].
    assert (Hne : target ++ ["package.json"] <> target ++ ["package-config.json"])
      by (apply path_snoc_ne; discriminate).
    unfold existsSync. rewrite Hx.
    destruct (consumable (files w) (target ++ ["package-config.json"])) eqn:Hc;
      cbn [andb negb].
    + rewrite lookup_insert_ne, lookup_delete_eq, app_nil_r by exact Hne. auto.
    + rewrite lookup_insert_ne by exact Hne. rewrite lookup_insert_eq.
      split; [first [exact Hx | symmetry; exact Hx | reflexivity] |].
      split; [reflexivity |].
      unfold patched. unfold consumable in Hc. rewrite Hx in Hc |- *.
      destruct x as [[t|j]|]; try reflexivity.
      destruct j; try discriminate. reflexivity.
Qed.

Lemma side_file_deleted_when_applied_witness :
  let w := Demo.boot (Demo.copied "package-config.json"
                        (Json Demo.package_config)) [] in
  let r := Part002.updatePackageJson Demo.target "demo" "r" w in
  (files w !! Demo.target = Some Dir
   /\ files w !! (Demo.target ++ ["package.json"])
      = Some (File (Json Demo.package_json))
   /\ is_Some (files w !! (Demo.target ++ ["package-config.json"])))
  /\ outcome_of r = Returned
  /\ files (final r) !! (Demo.target ++ ["package-config.json"]) = None
  /\ log (final r) = log w.
Proof.
  intros w r.
  assert (H1 : files w !! Demo.target = Some Dir) by by_evaluation.
  assert (H2 : files w !! (Demo.target ++ ["package.json"])
               = Some (File (Json Demo.package_json))) by by_evaluation.
  assert (H3 : files w !! (Demo.target ++ ["package-config.json"])
               = Some (File (Json Demo.package_config))) by by_evaluation.
  split; [repeat split; try assumption; rewrite H3; eauto |].
  pose proof (proj2 (side_file_deleted_when_applied Demo.target "demo" "r" _ w
                       H1 H2) (ex_intro _ _ H3)) as [Hr Hfate].
  split; [exact Hr |].
  unfold consumable in Hfate. rewrite H3 in Hfate. exact Hfate.
Defined.

(** *** Claim C8 *)

(** C8 as stated fails: a side-file entry with a [name] key is merged
    over the name the patcher has just set, and the manifest's name is no
    longer the project name. *)
Lemma side_file_name_counterexample :
  let w := Demo.boot (Demo.copied "package-config.json"
                        (Json Demo.naming_config)) [] in
  let r := Part002.updatePackageJson Demo.target "demo" "r" w in
  written r (Demo.target ++ ["package.json"])
    [ ("name", JObj [ ("0", JStr "d"); ("1", JStr "e"); ("2", JStr "m");
                      ("3", JStr "o"); ("full", JStr "Demo") ]);
      ("description", JStr "Hello world");
      ("scripts", JObj [("build", JStr "build-all"); ("dev", JStr "dev-py")]) ].
Proof.
  cbv zeta. split; by_evaluation.
Qed.

Lemma patched001_name (entry : option json) (o : object) (k : string) :
  array_length o = None ->
  match entry with
  | Some e => if truthy entry then k ∉ Object_keys e else True
  | None => True
  end ->
  assoc k (own (patched001 entry o)) = assoc k (own o).
Proof.
  intros Hplain Hk. unfold patched001.
  destruct entry as [e|]; [| reflexivity].
  destruct (truthy (Some e)); [| reflexivity].
  apply merge_rounds_plain; assumption.
Qed.

Lemma patched002_name (entry : option json) (o : object) (k : string) :
  array_length o = None ->
  k <> "scripts" ->
  match entry with
  | Some e => if truthy entry then k ∉ Object_keys e else True
  | None => True
  end ->
  assoc k (own (patched002 entry o)) = assoc k (own o).
Proof.
  intros Hplain Hne Hk. unfold patched002.
  destruct entry as [e|]; [| reflexivity].
  destruct (truthy (Some e)); [| reflexivity].
  destruct (truthy (assoc "scripts" (own_props (Some e)))).
  - destruct (obj_set_plain o "scripts"
                (default JNull (assoc "scripts" (own_props (Some e)))) Hplain)
      as (o' & -> & Hp & Hothers & _).
    etrans; [apply merge_rounds_plain; assumption |].
    apply Hothers, Hne.
  - apply merge_rounds_plain; assumption.
Qed.

Lemma patched_name (patch : option json -> object -> object) (fs : tree)
  (side : path) (backend appName : string) (props : list (string * json)) :
  (forall entry o,
     array_length o = None ->
     match entry with
     | Some e => if truthy entry then "name" ∉ Object_keys e else True
     | None => True
     end ->
     assoc "name" (own (patch entry o)) = assoc "name" (own o)) ->
  match entry_of fs side backend with
  | Some e => "name" ∉ Object_keys e
  | None => True
  end ->
  assoc "name" (own (patched patch fs side backend appName props))
  = Some (JStr appName).
Proof.
  intros Hpatch Hk. unfold patched, entry_of in *.
  destruct (fs !! side) as [[[t|cfg]|]|]; try apply assoc_set_eq.
  assert (cfg = JNull \/ cfg <> JNull) as [->|Hcfg]
    by (destruct cfg; auto; right; discriminate);
    [apply assoc_set_eq |].
  rewrite (get_entry _ _ Hcfg) in Hk.
  assert (assoc "name"
            (own (patch (assoc backend (own_props (Some cfg)))
                        (plain (assoc_set "name" (JStr appName) props))))
          = Some (JStr appName)).
  { rewrite Hpatch; [apply assoc_set_eq | reflexivity |].
    destruct (assoc backend (own_props (Some cfg))) as [e|]; [| exact I].
    destruct (truthy (Some e)); [exact Hk | exact I]. }
  destruct cfg; try contradiction; assumption.
Qed.

(** C8, amended: for a manifest that is a JSON object the patcher
    returns, and the manifest it writes back has the project name as its
    [name], verbatim, in the oldest script always, and in the two scripts
    with a side-file whenever the entry that gets merged has no [name]
    key (in particular when there is no side-file, or none that parses).
    An entry with a [name] key overwrites the name. *)
Theorem manifest_name_is_project_name
  (target : path) (appName backend : string) (props : list (string * json))
  (w : world) :
  files w !! target = Some Dir ->
  files w !! (target ++ ["package.json"]) = Some (File (Json (JObj props))) ->
  let named (r : result unit) :=
    exists props',
      written r (target ++ ["package.json"]) props'
      /\ assoc "name" props' = Some (JStr appName) in
  let nameless (side : path) :=
    match entry_of (files w) side backend with
    | Some e => "name" ∉ Object_keys e
    | None => True
    end in
  (nameless (target ++ ["package-custom.json"]) ->
   named (Part001.updatePackageJson target appName backend w))
  /\ (nameless (target ++ ["package-config.json"]) ->
      named (Part002.updatePackageJson target appName backend w))
  /\ named (Part003.updatePackageJson target appName backend w).
Proof.
  intros Hdir Hpkg named nameless. unfold named, nameless.
  split; [| split].
  - intros Hk. rewrite (part001_patch _ _ _ _ _ Hdir Hpkg). cbv zeta.
    eexists. split; [apply returned_written; cbn [files];
                     apply lookup_insert_eq |].
    apply patched_name; [| exact Hk].
    intros entry o. apply patched001_name.
  - intros Hk. rewrite (part002_patch _ _ _ _ _ Hdir Hpkg). cbv zeta.
    eexists. split; [apply returned_written; cbn [files];
                     apply lookup_insert_eq |].
    apply patched_name; [| exact Hk].
    intros entry o Hp. apply patched002_name; [exact Hp | discriminate].
  - rewrite (part003_patch _ _ _ _ _ Hdir Hpkg).
    eexists. split; [apply returned_written; cbn [files];
                     apply lookup_insert_eq |].
    unfold patched003. rewrite assoc_set_ne by discriminate.
    match goal with
    | |- assoc "name" (if ?c then _ else _) = _ => destruct c
    end.
    + unfold nested_set.
      destruct (assoc "dependencies" _) as [[| | | | |deps]|];
        rewrite ?assoc_set_ne by discriminate; apply assoc_set_eq.
    + rewrite assoc_set_ne by discriminate. apply assoc_set_eq.
Qed.

Lemma manifest_name_is_project_name_witness :
  let w := Demo.boot (Demo.copied "package-config.json"
                        (Json Demo.package_config)) [] in
  (files w !! Demo.target = Some Dir
   /\ files w !! (Demo.target ++ ["package.json"])
      = Some (File (Json Demo.package_json))
   /\ match entry_of (files w) (Demo.target ++ ["package-config.json"]) "r" with
      | Some e => "name" ∉ Object_keys e
      | None => True
      end)
  /\ exists props',
       written (Part002.updatePackageJson Demo.target "demo" "r" w)
               (Demo.target ++ ["package.json"]) props'
       /\ assoc "name" props' = Some (JStr "demo").
Proof.
  intros w.
  assert (H1 : files w !! Demo.target = Some Dir) by by_evaluation.
  assert (H2 : files w !! (Demo.target ++ ["package.json"])
               = Some (File (Json Demo.package_json))) by by_evaluation.
  assert (H3 : match entry_of (files w)
                       (Demo.target ++ ["package-config.json"]) "r" with
               | Some e => "name" ∉ Object_keys e
               | None => True
               end).
  { replace (entry_of (files w) (Demo.target ++ ["package-config.json"]) "r")
      with (Some (JObj [("scripts", JObj [("dev", JStr "dev-r")])]))
      by (symmetry; by_evaluation).
    apply not_elem_of_cons. split; [discriminate | apply not_elem_of_nil]. }
  split; [split; [exact H1 | split; [exact H2 | exact H3]] |].
  exact (proj1 (proj2 (manifest_name_is_project_name Demo.target "demo" "r" _ w
                         H1 H2)) H3).
Defined.

(** ** The recursive copy *)

(** Relations between the world before and after that every step of the
    copy respects. *)
Section Invariant.
Variable R : world -> world -> Prop.
Hypothesis R_refl : forall w, R w w.
Hypothesis R_trans : forall w1 w2 w3, R w1 w2 -> R w2 w3 -> R w1 w3.

Lemma bind_final {A B} (m : M A) (k : A -> M B) (w : world) :
  R w (final (m w)) ->
  (forall a w', m w = Return a w' -> R w' (final (k a w'))) ->
  R w (final (bind m k w)).
Proof.
  intros Hm Hk. unfold bind. destruct (m w) as [a w'| | | |] eqn:E;
    try exact Hm.
  eapply R_trans; [exact Hm | apply Hk; reflexivity].
Qed.

Lemma forEach_final {A} (f : A -> M unit) (l : list A) (w : world) :
  (forall x v, x ∈ l -> R v (final (f x v))) ->
  R w (final (forEach l f w)).
Proof.
  revert w. induction l as [|x l IH]; intros w Hf; [apply R_refl |].
  cbn [forEach]. apply bind_final.
  - apply Hf. left.
  - intros _ w' _. apply IH. intros y v Hy. apply Hf. right. exact Hy.
Qed.

End Invariant.

Lemma keeps_refl (q : path) (w : world) : keeps q w w.
Proof. reflexivity. Qed.

Lemma keeps_trans (q : path) (w1 w2 w3 : world) :
  keeps q w1 w2 -> keeps q w2 w3 -> keeps q w1 w3.
Proof. unfold keeps. congruence. Qed.

Lemma mkdir_fold_frame (ps : list path) (acc : error + tree) (fs' : tree)
  (q : path) :
  fold_left mkdir_step ps acc = inr fs' ->
  q ∉ ps ->
  exists fs, acc = inr fs /\ fs' !! q = fs !! q.
Proof.
  revert acc. induction ps as [|p ps IH]; intros acc H Hq.
  - cbn in H. subst. eauto.
  - cbn [fold_left] in H. apply not_elem_of_cons in Hq as [Hne Hq].
    destruct (IH _ H Hq) as (fs1 & H1 & E).
    destruct acc as [e|fs]; [discriminate |]. exists fs. split; [reflexivity |].
    rewrite E. cbn in H1.
    destruct (fs !! p) as [[c|]|]; try discriminate; injection H1 as <-;
      [reflexivity |].
    apply lookup_insert_ne. congruence.
Qed.

Lemma elem_of_prefixes (p q : path) : q ∈ prefixes p <-> q `prefix_of` p.
Proof.
  unfold prefixes. rewrite list_elem_of_fmap. split.
  - intros (n & -> & _). apply prefix_take.
  - intros [k ->]. exists (length q). split.
    + rewrite take_app_length. reflexivity.
    + apply elem_of_seq. rewrite length_app. lia.
Qed.

Lemma mkdirSync_frame (fs fs' : tree) (p q : path) :
  mkdirSync fs p = inr fs' -> ~ q `prefix_of` p -> fs' !! q = fs !! q.
Proof.
  intros H Hq. unfold mkdirSync in H.
  destruct (mkdir_fold_frame _ _ _ q H) as (fs0 & E & ->).
  - rewrite elem_of_prefixes. exact Hq.
  - congruence.
Qed.

Lemma writing_keeps (f : tree -> error + tree) (q : path) (w : world) :
  (forall fs', f (files w) = inr fs' -> fs' !! q = files w !! q) ->
  keeps q w (final (writing f w)).
Proof.
  intros H. unfold writing, keeps. destruct (f (files w)) eqn:E; cbn;
    [reflexivity | apply H; reflexivity].
Qed.

Lemma reading_keeps {A} (f : tree -> error + A) (q : path) (w : world) :
  keeps q w (final (reading f w)).
Proof. unfold reading, lift. destruct (f (files w)); reflexivity. Qed.

Lemma reading_Return {A} (f : tree -> error + A) (w w' : world) (a : A) :
  reading f w = Return a w' -> w' = w /\ f (files w) = inr a.
Proof.
  unfold reading, lift. destruct (f (files w)); cbn; intros H;
    inversion H; auto.
Qed.

Lemma copyFileSync_frame (fs fs' : tree) (src dest q : path) :
  copyFileSync fs src dest = inr fs' -> q <> dest -> fs' !! q = fs !! q.
Proof.
  unfold copyFileSync, writeFileSync. intros H Hq.
  destruct (readFileSync fs src); [discriminate |].
  destruct (fs !! dest) as [[c'|]|]; try discriminate;
    destruct (fs !! dirname dest) as [[d|]|]; try discriminate;
    injection H as <-; apply lookup_insert_ne; congruence.
Qed.

Lemma reached_child (skipped : string -> bool) (skips : list string)
  (dest q : path) (file : string) :
  allowed skipped skips file = true ->
  reached skipped skips (dest ++ [file]) q -> reached skipped skips dest q.
Proof.
  intros Hok [Hpre | (rel & -> & Hrel)].
  - destruct Hpre as [k Hk].
    destruct (decide (k = [])) as [->|Hne].
    + rewrite app_nil_r in Hk. subst q. right. exists [file].
      split; [reflexivity | constructor; [exact Hok | constructor]].
    + left. destruct (exists_last Hne) as (k' & x & ->).
      rewrite app_assoc in Hk. apply app_inj_tail in Hk as [-> _].
      exists k'. reflexivity.
  - right. exists (file :: rel). split.
    + rewrite <- app_assoc. reflexivity.
    + constructor; assumption.
Qed.

(** The copy changes nothing outside what it may reach, however it ends:
    with or without fuel left, by an exception or by [process.exit]. *)
Lemma copy_keeps (skipped : string -> bool) (skips : list string)
  (fuel : nat) (src dest q : path) (w : world) :
  ~ reached skipped skips dest q ->
  keeps q w (final (Shared.copyRecursive skipped fuel src dest skips w)).
Proof.
  revert src dest w. induction fuel as [|fuel IH]; intros src dest w Hq;
    [reflexivity |].
  cbn [Shared.copyRecursive].
  apply (bind_final _ (keeps_trans q)); [reflexivity |].
  intros present w1 _. destruct present; cbn [negb]; [| reflexivity].
  apply (bind_final _ (keeps_trans q));
    [apply reading_keeps |].
  intros isDir w2 _. destruct isDir.
  - apply (bind_final _ (keeps_trans q)); [reflexivity |].
    intros there w3 _.
    apply (bind_final _ (keeps_trans q)).
    { destruct there; cbn [negb when]; [reflexivity |].
      apply writing_keeps. intros fs' H. eapply mkdirSync_frame; [exact H |].
      intros Hpre. apply Hq. left. exact Hpre. }
    intros _ w4 _.
    apply (bind_final _ (keeps_trans q));
      [apply reading_keeps |].
    intros files w5 _.
    apply (forEach_final _ (keeps_refl q) (keeps_trans q)).
    intros file v _.
    destruct (skipped file) eqn:Hs; [reflexivity |].
    destruct (includes skips file) eqn:Hb; [reflexivity |].
    apply IH. intros Hr. apply Hq. eapply reached_child; [| exact Hr].
    unfold allowed. rewrite Hs, Hb. reflexivity.
  - apply writing_keeps. intros fs' H. eapply copyFileSync_frame; [exact H |].
    intros ->. apply Hq. left. reflexivity.
Qed.

Lemma wf_ancestor (fs : tree) (p k : path) :
  wf fs -> is_Some (fs !! (p ++ k)) -> k <> [] -> fs !! p = Some Dir.
Proof.
  intros Hwf. induction k as [|x k IH] using rev_ind; [congruence |].
  intros Hx _. rewrite app_assoc in Hx. apply Hwf in Hx.
  destruct (decide (k = [])) as [->|Hk].
  - rewrite app_nil_r in Hx. exact Hx.
  - apply IH; [rewrite Hx; eauto | exact Hk].
Qed.

Lemma mkdir_fold_dirs (ps : list path) (fs : tree) :
  (forall p, p ∈ ps -> fs !! p = Some Dir) ->
  fold_left mkdir_step ps (inr fs) = inr fs.
Proof.
  induction ps as [|p ps IH]; intros H; [reflexivity |].
  cbn. rewrite (H p) by left. apply IH. intros p' Hp'. apply H. right. exact Hp'.
Qed.

Lemma prefixes_snoc (p : path) (n : string) :
  prefixes (p ++ [n]) = prefixes p ++ [p ++ [n]].
Proof.
  unfold prefixes. rewrite length_app. cbn [length].
  replace (S (length p + 1)) with (S (length p) + 1) by lia.
  rewrite seq_app, map_app. f_equal.
  - apply map_ext_in. intros k Hk. apply in_seq in Hk.
    apply take_app_le. lia.
  - cbn [seq map]. f_equal.
    replace (0 + S (length p)) with (length (p ++ [n]))
      by (rewrite length_app; cbn; lia).
    apply firstn_all.
Qed.

(** In a well-formed tree, creating a directory whose parent exists
    creates just that directory. *)
Lemma mkdirSync_child (fs : tree) (p : path) (n : string) :
  wf fs -> fs !! p = Some Dir -> fs !! (p ++ [n]) = None ->
  mkdirSync fs (p ++ [n]) = inr (<[p ++ [n] := Dir]> fs).
Proof.
  intros Hwf Hp Hn. unfold mkdirSync. rewrite prefixes_snoc, fold_left_app.
  rewrite mkdir_fold_dirs.
  - cbn. rewrite Hn. reflexivity.
  - intros q Hq. apply elem_of_prefixes in Hq as [k ->].
    destruct (decide (k = [])) as [->|Hk].
    + rewrite app_nil_r in Hp. exact Hp.
    + apply (wf_ancestor fs q k Hwf); [rewrite Hp; eauto | exact Hk].
Qed.

Lemma NoDup_children (fs : tree) (p : path) : NoDup (children fs p).
Proof.
  unfold children.
  pose proof (NoDup_fst_map_to_list fs) as Hnd.
  induction (map_to_list fs) as [|[q e] l IH]; [constructor |].
  cbn in Hnd. apply NoDup_cons in Hnd as [Hq Hl]. cbn [omap list_omap].
  unfold omap in *. cbn [list_omap fst].
  destruct (child_of p q) as [n|] eqn:E; [| apply IH, Hl].
  apply NoDup_cons. split; [| apply IH, Hl].
  intros Hin. apply list_elem_of_omap in Hin as ([q' e'] & Hin & Hq').
  apply child_of_Some in E. apply child_of_Some in Hq'. cbn in Hq'. subst.
  apply Hq. apply list_elem_of_fmap. exists (p ++ [n], e'). auto.
Qed.

Lemma snoc_cons {A} (l : list A) (x : A) (k : list A) :
  (l ++ [x]) ++ k = l ++ x :: k.
Proof. rewrite <- app_assoc. reflexivity. Qed.

Lemma not_prefix_self_snoc (p : path) (n : string) : ~ (p ++ [n]) `prefix_of` p.
Proof.
  intros [k H]. apply (f_equal length) in H. rewrite !length_app in H.
  cbn in H. lia.
Qed.

(** Source and destination do not overlap. *)
Lemma apart (fs : tree) (src dest : path) (k : path) :
  fresh fs dest -> is_Some (fs !! src) -> ~ src `prefix_of` dest ->
  ~ dest `prefix_of` (src ++ k).
Proof.
  intros Hfresh [e He] Hnot Hpre.
  destruct (prefix_weak_total src dest (src ++ k)) as [H|H];
    [apply prefix_app_r; reflexivity | exact Hpre | contradiction |].
  destruct H as [j ->]. rewrite Hfresh in He. discriminate.
Qed.

Lemma wf_after (skipped : string -> bool) (skips : list string)
  (fs fs' : tree) (src p : path) (n : string) :
  wf fs -> fs !! p = Some Dir ->
  (forall q, ~ (p ++ [n]) `prefix_of` q -> fs' !! q = fs !! q) ->
  (forall rel, fs' !! ((p ++ [n]) ++ rel)
               = if forallb (allowed skipped skips) rel
                 then fs !! (src ++ rel) else None) ->
  wf fs'.
Proof.
  intros Hwf Hp H1 H2 x m Hx.
  destruct (decide ((p ++ [n]) `prefix_of` (x ++ [m]))) as [[rel Hrel]|Hout].
  - destruct rel as [|y rel _] using rev_ind.
    + rewrite app_nil_r in Hrel. apply app_inj_tail in Hrel as [-> _].
      rewrite H1 by apply not_prefix_self_snoc. exact Hp.
    + rewrite app_assoc in Hrel. apply app_inj_tail in Hrel as [-> ->].
      rewrite <- (app_assoc (p ++ [n])) in Hx. rewrite H2 in Hx. rewrite H2.
      rewrite forallb_app in Hx.
      destruct (forallb (allowed skipped skips) rel); cbn in Hx;
        [| destruct Hx; discriminate].
      destruct (allowed skipped skips y); cbn in Hx;
        [| destruct Hx; discriminate].
      rewrite app_assoc in Hx. apply Hwf in Hx. exact Hx.
  - assert (~ (p ++ [n]) `prefix_of` x) as Hx'.
    { intros H. apply Hout. apply prefix_app_r. exact H. }
    rewrite H1 in Hx by exact Hout. rewrite H1 by exact Hx'.
    apply Hwf in Hx. exact Hx.
Qed.

Section Mirror.
Variables (skipped : string -> bool) (skips : list string).

Lemma copy_dir (fuel : nat) (src dest : path) (w : world) (fs1 : tree) :
  files w !! src = Some Dir ->
  files w !! dest = None ->
  mkdirSync (files w) dest = inr fs1 ->
  fs1 !! src = Some Dir ->
  Shared.copyRecursive skipped (S fuel) src dest skips w
  = forEach (children fs1 src) (copy_entry skipped skips fuel src dest) (with_files w fs1).
Proof.
  intros Hsrc Hdest Hmk Hsrc1. cbn [Shared.copyRecursive].
  unfold bind at 1. unfold exists_ at 1, existsSync. rewrite Hsrc. cbn [negb].
  unfold bind at 1. unfold reading at 1, isDirectory. rewrite Hsrc.
  cbn [lift ret].
  unfold bind at 1. unfold exists_ at 1, existsSync. rewrite Hdest.
  cbn [negb when].
  unfold bind at 1. unfold writing at 1. rewrite Hmk.
  unfold bind at 1. unfold reading at 1, readdirSync.
  cbn [files with_files]. rewrite Hsrc1. cbn [lift ret]. reflexivity.
Qed.

Lemma copy_file (fuel : nat) (src dest : path) (w : world) (c : content) :
  files w !! src = Some (File c) ->
  Shared.copyRecursive skipped (S fuel) src dest skips w
  = writing (fun fs => copyFileSync fs src dest) w.
Proof.
  intros Hsrc. cbn [Shared.copyRecursive].
  unfold bind at 1. unfold exists_ at 1, existsSync. rewrite Hsrc. cbn [negb].
  unfold bind at 1. unfold reading at 1, isDirectory. rewrite Hsrc.
  reflexivity.
Qed.

Lemma loop_mirrors (fuel : nat) (src dest : path) (w : world) :
  (forall src' dest' v,
     wf (files v) -> is_Some (files v !! src') ->
     shallow (files v) src' fuel -> fresh (files v) dest' ->
     files v !! dirname dest' = Some Dir -> dest' <> [] ->
     ~ src' `prefix_of` dest' ->
     exists fs', Shared.copyRecursive skipped fuel src' dest' skips v
                 = Return tt (with_files v fs')
                 /\ mirrors skipped skips (files v) fs' src' dest') ->
  shallow (files w) src (S fuel) ->
  (forall k, ~ dest `prefix_of` (src ++ k)) ->
  ~ src `prefix_of` dest ->
  forall todo, NoDup todo ->
  forall done v,
    (forall c, c ∈ todo -> c ∉ done) ->
    (forall c, c ∈ todo -> is_Some (files w !! (src ++ [c]))) ->
    half_way skipped skips (files w) (files v) src dest done ->
    exists fs', forEach todo (copy_entry skipped skips fuel src dest) v = Return tt (with_files v fs')
                /\ half_way skipped skips (files w) fs' src dest (done ++ todo).
Proof.
  intros IH Hshallow Hapart Hnot todo. induction 1 as [|c todo Hc Hnd IHtodo];
    intros done v Hdone Hex Hinv.
  - exists (files v). split; [destruct v; reflexivity |].
    rewrite app_nil_r. exact Hinv.
  - destruct Hinv as (Hwf & Hdest & Hout & Hin).
    assert (Hcdone : c ∉ done) by (apply Hdone; left).
    assert (Hfresh : fresh (files v) (dest ++ [c])).
    { intros rel. rewrite snoc_cons, Hin.
      rewrite bool_decide_eq_false_2 by exact Hcdone. reflexivity. }
    cbn [forEach]. unfold bind at 1. unfold copy_entry at 1.
    assert (Hstep : exists fs1,
      (if skipped c then ret tt
       else if includes skips c then ret tt
       else Shared.copyRecursive skipped fuel (src ++ [c]) (dest ++ [c]) skips) v
      = Return tt (with_files v fs1)
      /\ half_way skipped skips (files w) fs1 src dest (done ++ [c])).
    { destruct (allowed skipped skips c) eqn:Hok.
      - assert (skipped c = false /\ includes skips c = false) as [-> ->].
        { unfold allowed in Hok. apply andb_true_iff in Hok as [H1 H2].
          apply negb_true_iff in H1, H2. auto. }
        destruct (IH (src ++ [c]) (dest ++ [c]) v) as (fs1 & Hrun & H1 & H2).
        + exact Hwf.
        + rewrite Hout by apply Hapart. apply Hex. left.
        + intros rel Hrel. rewrite snoc_cons in Hrel.
          rewrite Hout in Hrel by apply Hapart.
          apply Hshallow in Hrel. cbn in Hrel. lia.
        + exact Hfresh.
        + rewrite dirname_snoc. exact Hdest.
        + intros H. destruct (app_cons_not_nil _ _ _ (eq_sym H)).
        + intros [k Hk]. apply Hnot.
          destruct k as [|x k _] using rev_ind.
          * rewrite app_nil_r in Hk. apply app_inj_tail in Hk as [-> _].
            reflexivity.
          * rewrite app_assoc in Hk. apply app_inj_tail in Hk as [-> _].
            rewrite <- app_assoc. apply prefix_app_r. reflexivity.
        + exists fs1. split; [exact Hrun |].
          split; [| split; [| split]].
          * eapply wf_after; [exact Hwf | exact Hdest | exact H1 | exact H2].
          * rewrite H1 by apply not_prefix_self_snoc. exact Hdest.
          * intros q Hq. rewrite H1; [apply Hout, Hq |].
            intros H. apply Hq. etrans; [| exact H].
            apply prefix_app_r. reflexivity.
          * intros c' rel. destruct (decide (c' = c)) as [->|Hne].
            -- rewrite <- snoc_cons, H2, snoc_cons.
               rewrite Hout by apply Hapart.
               rewrite bool_decide_eq_true_2 by (apply elem_of_app; right; left).
               cbn [forallb andb]. rewrite Hok. reflexivity.
            -- rewrite H1.
               ++ rewrite Hin.
                  assert (bool_decide (c' ∈ done ++ [c])
                          = bool_decide (c' ∈ done)) as ->; [| reflexivity].
                  apply bool_decide_ext.
                  rewrite elem_of_app, list_elem_of_singleton. tauto.
               ++ intros [k Hk]. rewrite snoc_cons in Hk.
                  apply app_inv_head in Hk. congruence.
      - exists (files v). split.
        + unfold allowed in Hok. apply andb_false_iff in Hok as [H|H];
            apply negb_false_iff in H; rewrite H;
            [| destruct (skipped c)]; destruct v; reflexivity.
        + split; [exact Hwf |]. split; [exact Hdest |]. split; [exact Hout |].
          intros c' rel. rewrite Hin. destruct (decide (c' = c)) as [->|Hne].
          * rewrite bool_decide_eq_false_2 by exact Hcdone.
            cbn [forallb andb]. rewrite Hok, andb_false_r. reflexivity.
          * assert (bool_decide (c' ∈ done ++ [c])
                    = bool_decide (c' ∈ done)) as ->; [| reflexivity].
            apply bool_decide_ext.
            rewrite elem_of_app, list_elem_of_singleton. tauto. }
    destruct Hstep as (fs1 & -> & Hinv1).
    destruct (IHtodo (done ++ [c]) (with_files v fs1)) as (fs' & Hrun & Hinv').
    + intros c' Hc' Hin'. apply elem_of_app in Hin' as [Hin'|Hin'].
      * apply (Hdone c'); [right; exact Hc' | exact Hin'].
      * apply list_elem_of_singleton in Hin'. subst. contradiction.
    + intros c' Hc'. apply Hex. right. exact Hc'.
    + exact Hinv1.
    + exists fs'. split; [exact Hrun |]. rewrite <- app_assoc in Hinv'.
      exact Hinv'.
Qed.

(** The copy of a tree into a fresh place, with enough fuel, returns and
    leaves the mirror of the source. *)
Lemma copy_mirrors (fuel : nat) (src dest : path) (w : world) :
  wf (files w) -> is_Some (files w !! src) ->
  shallow (files w) src fuel -> fresh (files w) dest ->
  files w !! dirname dest = Some Dir -> dest <> [] ->
  ~ src `prefix_of` dest ->
  exists fs', Shared.copyRecursive skipped fuel src dest skips w
              = Return tt (with_files w fs')
              /\ mirrors skipped skips (files w) fs' src dest.
Proof.
  revert src dest w. induction fuel as [|fuel IH];
    intros src dest w Hwf Hsrc Hshallow Hfresh Hparent Hdest Hnot.
  { specialize (Hshallow []). rewrite app_nil_r in Hshallow.
    apply Hshallow in Hsrc. cbn in Hsrc. lia. }
  assert (Hapart : forall k, ~ dest `prefix_of` (src ++ k))
    by (intros k; eapply apart; eassumption).
  assert (Hnone : files w !! dest = None)
    by (rewrite <- (app_nil_r dest); apply Hfresh).
  destruct (exists_last Hdest) as (p & n & ->).
  rewrite dirname_snoc in Hparent.
  destruct Hsrc as [e Hsrc]. destruct e as [c|].
  - (* a file *)
    rewrite (copy_file _ _ _ _ c Hsrc).
    unfold writing, copyFileSync, readFileSync, writeFileSync.
    rewrite Hsrc, Hnone, dirname_snoc, Hparent.
    eexists. split; [reflexivity |]. split.
    + intros q Hq. apply lookup_insert_ne. intros <-. apply Hq. reflexivity.
    + intros rel. destruct rel as [|x rel].
      * rewrite !app_nil_r, lookup_insert_eq, Hsrc. reflexivity.
      * rewrite lookup_insert_ne.
        2:{ intros H. rewrite <- (app_nil_r (p ++ [n])) in H at 1.
            apply app_inv_head in H. discriminate. }
        rewrite Hfresh.
        destruct (forallb (allowed skipped skips) (x :: rel)); [| reflexivity].
        destruct (files w !! (src ++ x :: rel)) eqn:E; [| reflexivity].
        assert (files w !! src = Some Dir); [| congruence].
        apply (wf_ancestor _ src (x :: rel) Hwf); [rewrite E; eauto |].
        discriminate.
  - (* a directory *)
    pose proof (mkdirSync_child _ _ _ Hwf Hparent Hnone) as Hmk.
    assert (Hne : forall k, p ++ [n] <> src ++ k).
    { intros k H. apply (Hapart k). rewrite <- H. reflexivity. }
    assert (Hsrc1 : <[p ++ [n] := Dir]> (files w) !! src = Some Dir).
    { rewrite lookup_insert_ne; [exact Hsrc |].
      rewrite <- (app_nil_r src). apply Hne. }
    rewrite (copy_dir _ _ _ _ _ Hsrc Hnone Hmk Hsrc1).
    destruct (loop_mirrors fuel src (p ++ [n]) w IH Hshallow Hapart Hnot
                (children (<[p ++ [n] := Dir]> (files w)) src)
                (NoDup_children _ _) []
                (with_files w (<[p ++ [n] := Dir]> (files w))))
      as (fs' & Hrun & Hwf' & Hd' & Hout' & Hin').
    + intros c _ Hc. inversion Hc.
    + intros c Hc. apply elem_of_children in Hc.
      rewrite lookup_insert_ne in Hc by apply Hne. exact Hc.
    + split; [| split; [| split]]; cbn [files with_files].
      * intros x m Hx.
        destruct (decide (x ++ [m] = p ++ [n])) as [E|E].
        -- apply app_inj_tail in E as [-> _].
           rewrite lookup_insert_ne by apply path_snoc_self.
           exact Hparent.
        -- rewrite lookup_insert_ne in Hx by congruence.
           pose proof (Hwf _ _ Hx) as Hx'.
           rewrite lookup_insert_ne; [exact Hx' |].
           intros <-. rewrite Hfresh in Hx. destruct Hx; discriminate.
      * apply lookup_insert_eq.
      * intros q Hq. apply lookup_insert_ne. intros <-. apply Hq. reflexivity.
      * intros c rel. cbn [andb].
        rewrite lookup_insert_ne.
        2:{ intros H. rewrite <- (app_nil_r (p ++ [n])) in H at 1.
            apply app_inv_head in H. discriminate. }
        apply Hfresh.
    + exists fs'. split; [exact Hrun |]. split; [exact Hout' |].
      intros rel. destruct rel as [|c rel].
      * rewrite !app_nil_r, Hd', Hsrc. reflexivity.
      * rewrite Hin'. cbn [app].
        destruct (decide (c ∈ children (<[p ++ [n] := Dir]> (files w)) src))
          as [Hc|Hc].
        -- rewrite bool_decide_eq_true_2 by exact Hc. reflexivity.
        -- rewrite bool_decide_eq_false_2 by exact Hc. cbn [andb].
           destruct (forallb (allowed skipped skips) (c :: rel)); [| reflexivity].
           destruct (files w !! (src ++ c :: rel)) eqn:E; [| reflexivity].
           exfalso. apply Hc. apply elem_of_children.
           rewrite lookup_insert_ne by apply Hne.
           destruct (decide (rel = [])) as [->|Hrel]; [rewrite E; eauto |].
           rewrite <- snoc_cons in E.
           rewrite (wf_ancestor _ (src ++ [c]) rel Hwf); [eauto | | exact Hrel].
           rewrite E. eauto.
Qed.

End Mirror.

(** ** Checking the conditions of the copy by evaluation *)


Lemma starts_with_spec (p q : path) : starts_with p q = true <-> p `prefix_of` q.
Proof.
  revert q. induction p as [|a p IH]; intros q.
  - cbn. split; [intros _; apply prefix_nil | reflexivity].
  - destruct q as [|b q]; cbn.
    + split; [discriminate |]. intros H. apply prefix_nil_not in H. destruct H.
    + rewrite andb_true_iff, IH. split.
      * intros [H1 H2]. apply String.eqb_eq in H1 as ->.
        apply prefix_cons. exact H2.
      * intros H. split.
        -- apply String.eqb_eq. eapply prefix_cons_inv_1. exact H.
        -- eapply prefix_cons_inv_2. exact H.
Qed.

Lemma wf_check_sound (fs : tree) : wf_check fs = true -> wf fs.
Proof.
  unfold wf_check. rewrite forallb_forall. intros H p n [e He].
  specialize (H (p ++ [n], e)).
  rewrite <- list_elem_of_In, elem_of_map_to_list in H. specialize (H He).
  cbn [fst] in H. rewrite dirname_snoc in H.
  destruct (p ++ [n]) eqn:E; [destruct p; discriminate |].
  destruct (fs !! p) as [[c|]|]; try discriminate. reflexivity.
Qed.

Lemma fresh_check_sound (fs : tree) (p : path) :
  fresh_check fs p = true -> fresh fs p.
Proof.
  unfold fresh_check. rewrite forallb_forall. intros H rel.
  destruct (fs !! (p ++ rel)) as [e|] eqn:E; [| reflexivity].
  specialize (H (p ++ rel, e)).
  rewrite <- list_elem_of_In, elem_of_map_to_list in H. specialize (H E).
  cbn [fst] in H. apply negb_true_iff in H.
  assert (starts_with p (p ++ rel) = true) as H'
    by (apply starts_with_spec, prefix_app_r; reflexivity).
  congruence.
Qed.

Lemma shallow_check_sound (fs : tree) (p : path) (n : nat) :
  shallow_check fs p n = true -> shallow fs p n.
Proof.
  unfold shallow_check. rewrite forallb_forall. intros H rel [e He].
  specialize (H (p ++ rel, e)).
  rewrite <- list_elem_of_In, elem_of_map_to_list in H. specialize (H He).
  cbn [fst] in H.
  assert (starts_with p (p ++ rel) = true) as H'
    by (apply starts_with_spec, prefix_app_r; reflexivity).
  rewrite H' in H. cbn in H. apply Nat.ltb_lt in H.
  rewrite length_app in H. lia.
Qed.

Lemma not_reached (skipped : string -> bool) (skips : list string)
  (dest rel : path) :
  Exists (fun n => allowed skipped skips n = false) rel ->
  ~ reached skipped skips dest (dest ++ rel).
Proof.
  intros Hex [[k Hk] | (rel' & Hrel & Hall)].
  - apply (f_equal length) in Hk. rewrite !length_app in Hk.
    destruct rel; [inversion Hex | cbn in Hk; lia].
  - apply app_inv_head in Hrel. subst rel'.
    apply Exists_exists in Hex as (n & Hn & Hfalse).
    rewrite Forall_forall in Hall. rewrite (Hall n Hn) in Hfalse.
    discriminate.
Qed.

(** *** Claim C6 *)

(** C6 as stated fails on the oldest script, whose static skip test knows
    only [node_modules] and [www]: a [__pycache__] directory of the
    template is copied with its content. *)
Lemma pycache_copied_counterexample :
  let w := Demo.boot (Demo.installation "package-config.json"
                        (Json Demo.package_config)) [] in
  let r := Part003.copyRecursive 10 Demo.basic Demo.target [] w in
  files w !! (Demo.target ++ ["py"; "__pycache__"]) = None
  /\ outcome_of r = Returned
  /\ files (final r) !! (Demo.target ++ ["py"; "__pycache__"]) = Some Dir
  /\ files (final r) !! (Demo.target ++ ["py"; "__pycache__"; "app.pyc"])
     = Some (File (Text "bytecode")).
Proof.
  cbv zeta. evaluate_all.
Qed.

(** C6, amended: in the two scripts with the [SKIP_PATHS] table, a path
    below the destination with a component named [node_modules], [www],
    [__pycache__] or [.DS_Store] is neither created nor changed by the
    copy, at any depth and however the copy ends; in the oldest script
    this holds for [node_modules] and [www] only. *)
Theorem skipped_names_are_never_copied
  (fuel : nat) (src dest : path) (skipBackends : list string) (w : world)
  (rel : path) :
  (Exists (fun name => name ∈ Part002.SKIP_PATHS) rel ->
   files (final (Part001.copyRecursive fuel src dest skipBackends w))
     !! (dest ++ rel) = files w !! (dest ++ rel)
   /\ files (final (Part002.copyRecursive fuel src dest skipBackends w))
        !! (dest ++ rel) = files w !! (dest ++ rel))
  /\ (Exists (fun name => name = "node_modules" \/ name = "www") rel ->
      files (final (Part003.copyRecursive fuel src dest skipBackends w))
        !! (dest ++ rel) = files w !! (dest ++ rel)).
Proof.
  split.
  - intros Hex.
    assert (~ reached (includes Part002.SKIP_PATHS) skipBackends dest
                      (dest ++ rel)) as Hnot.
    { apply not_reached. eapply Exists_impl; [exact Hex |].
      intros n Hn. unfold allowed, includes.
      rewrite bool_decide_eq_true_2 by exact Hn. reflexivity. }
    split; apply (copy_keeps _ _ _ _ _ _ _ Hnot).
  - intros Hex. apply copy_keeps, not_reached.
    eapply Exists_impl; [exact Hex |].
    intros n [-> | ->]; reflexivity.
Qed.

Lemma skipped_names_are_never_copied_witness :
  let w := Demo.boot (Demo.installation "package-config.json"
                        (Json Demo.package_config)) [] in
  Exists (fun name => name ∈ Part002.SKIP_PATHS) ["node_modules"; "react"]
  /\ files (final (Part002.copyRecursive 10 Demo.basic Demo.target [] w))
       !! (Demo.target ++ ["node_modules"; "react"])
     = files w !! (Demo.target ++ ["node_modules"; "react"]).
Proof.
  intros w.
  assert (H : Exists (fun name => name ∈ Part002.SKIP_PATHS)
                ["node_modules"; "react"])
    by (apply Exists_cons_hd; left).
  split; [exact H |].
  exact (proj2 (proj1 (skipped_names_are_never_copied 10 Demo.basic
                         Demo.target [] w ["node_modules"; "react"]) H)).
Defined.

(** *** Claim C7 *)

Lemma skipBackends_for_both : skipBackends_for "both" = [].
Proof. reflexivity. Qed.

Lemma backend_name_not_reached (skipped : string -> bool) (name : string)
  (dest rel : path) :
  name ∈ rel ->
  ~ reached skipped [name] dest (dest ++ rel).
Proof.
  intros Hin. apply not_reached. apply Exists_exists. exists name.
  split; [exact Hin |]. unfold allowed, includes.
  rewrite bool_decide_eq_true_2 by left. apply andb_false_r.
Qed.

(** C7: with backend [r] selected, no path below the destination with a
    component named [py] is created or changed by the copy of any of the
    three scripts, and likewise for [r] when [py] is selected; so in a
    fresh target nothing exists under the other backend's directory.
    With [both] selected nothing is added to the skip test, and the copy
    of a well-formed template into a fresh target, given fuel for its
    depth, returns and leaves the mirror of the template without the
    statically skipped names: the [r] and [py] entries of the template are
    in the target. *)
Theorem unselected_backend_is_not_copied
  (fuel : nat) (src dest : path) (w : world) :
  (forall rel, "py" ∈ rel ->
     keeps (dest ++ rel) w
       (final (Part001.copyRecursive fuel src dest (skipBackends_for "r") w))
     /\ keeps (dest ++ rel) w
          (final (Part002.copyRecursive fuel src dest (skipBackends_for "r") w))
     /\ keeps (dest ++ rel) w
          (final (Part003.copyRecursive fuel src dest (skipBackends_for "r") w)))
  /\ (forall rel, "r" ∈ rel ->
      keeps (dest ++ rel) w
        (final (Part001.copyRecursive fuel src dest (skipBackends_for "py") w))
      /\ keeps (dest ++ rel) w
           (final (Part002.copyRecursive fuel src dest (skipBackends_for "py") w))
      /\ keeps (dest ++ rel) w
           (final (Part003.copyRecursive fuel src dest (skipBackends_for "py") w)))
  /\ (wf (files w) -> is_Some (files w !! src) ->
      shallow (files w) src fuel -> fresh (files w) dest ->
      files w !! dirname dest = Some Dir -> ~ src `prefix_of` dest ->
      (exists fs',
         Part002.copyRecursive fuel src dest (skipBackends_for "both") w
         = Return tt (with_files w fs')
         /\ mirrors (includes Part002.SKIP_PATHS) [] (files w) fs' src dest
         /\ fs' !! (dest ++ ["r"]) = files w !! (src ++ ["r"])
         /\ fs' !! (dest ++ ["py"]) = files w !! (src ++ ["py"]))
      /\ (exists fs',
            Part003.copyRecursive fuel src dest (skipBackends_for "both") w
            = Return tt (with_files w fs')
            /\ mirrors Part003.skipped [] (files w) fs' src dest
            /\ fs' !! (dest ++ ["r"]) = files w !! (src ++ ["r"])
            /\ fs' !! (dest ++ ["py"]) = files w !! (src ++ ["py"]))).
Proof.
  split; [| split].
  - intros rel Hin. repeat split;
      apply copy_keeps, (backend_name_not_reached _ "py"), Hin.
  - intros rel Hin. repeat split;
      apply copy_keeps, (backend_name_not_reached _ "r"), Hin.
  - intros Hwf Hsrc Hshallow Hfresh Hparent Hnot.
    assert (Hdest : dest <> []).
    { intros ->. specialize (Hfresh []). cbn in Hfresh, Hparent. congruence. }
    rewrite skipBackends_for_both. split.
    + destruct (copy_mirrors (includes Part002.SKIP_PATHS) [] fuel src dest w
                  Hwf Hsrc Hshallow Hfresh Hparent Hdest Hnot)
        as (fs' & Hrun & Hm).
      exists fs'. split; [exact Hrun |]. split; [exact Hm |].
      destruct Hm as [_ Hm]. split; apply Hm.
    + destruct (copy_mirrors Part003.skipped [] fuel src dest w
                  Hwf Hsrc Hshallow Hfresh Hparent Hdest Hnot)
        as (fs' & Hrun & Hm).
      exists fs'. split; [exact Hrun |]. split; [exact Hm |].
      destruct Hm as [_ Hm]. split; apply Hm.
Qed.

Lemma unselected_backend_is_not_copied_witness :
  let w := Demo.boot (Demo.installation "package-config.json"
                        (Json Demo.package_config)) [] in
  (wf (files w) /\ is_Some (files w !! Demo.basic)
   /\ shallow (files w) Demo.basic 10 /\ fresh (files w) Demo.target
   /\ files w !! dirname Demo.target = Some Dir
   /\ ~ Demo.basic `prefix_of` Demo.target)
  /\ (keeps (Demo.target ++ ["py"; "app.py"]) w
        (final (Part002.copyRecursive 10 Demo.basic Demo.target
                  (skipBackends_for "r") w))
      /\ exists fs',
           Part002.copyRecursive 10 Demo.basic Demo.target
             (skipBackends_for "both") w
           = Return tt (with_files w fs')
           /\ mirrors (includes Part002.SKIP_PATHS) [] (files w) fs'
                      Demo.basic Demo.target
           /\ fs' !! (Demo.target ++ ["r"]) = files w !! (Demo.basic ++ ["r"])
           /\ fs' !! (Demo.target ++ ["py"]) = files w !! (Demo.basic ++ ["py"])).
Proof.
  intros w.
  assert (H1 : wf (files w)) by (apply wf_check_sound; by_evaluation).
  assert (H2 : is_Some (files w !! Demo.basic)).
  { exists Dir. by_evaluation. }
  assert (H3 : shallow (files w) Demo.basic 10)
    by (apply shallow_check_sound; by_evaluation).
  assert (H4 : fresh (files w) Demo.target)
    by (apply fresh_check_sound; by_evaluation).
  assert (H5 : files w !! dirname Demo.target = Some Dir) by by_evaluation.
  assert (H6 : ~ Demo.basic `prefix_of` Demo.target).
  { intros H. apply starts_with_spec in H. discriminate. }
  assert (H7 : "py" ∈ ["py"; "app.py"]) by left.
  pose proof (unselected_backend_is_not_copied 10 Demo.basic Demo.target w)
    as (Hr & _ & Hboth).
  split; [exact (conj H1 (conj H2 (conj H3 (conj H4 (conj H5 H6))))) |].
  split.
  - exact (proj1 (proj2 (Hr ["py"; "app.py"] H7))).
  - exact (proj1 (Hboth H1 H2 H3 H4 H5 H6)).
Defined.

(** ** Start-up checks *)

(** X1: started with no argument or with more than one, each script
    prints the usage text on standard output and exits with code 1; no
    file is touched and no line of input is taken. *)
Theorem wrong_argument_count_prints_usage
  (h : host) (fuel : nat) (args : list string) (w : world) :
  length args <> 1 ->
  let stopped := Exit 1 (after w (stdin w) [Stdout Usage]) in
  Part001.main h fuel args w = stopped
  /\ Part002.main h fuel args w = stopped
  /\ Part003.main h fuel args w = stopped.
Proof.
  intros Hlen. destruct args as [|a [|b args]]; [| cbn in Hlen; lia |];
    repeat split; reflexivity.
Qed.

Lemma wrong_argument_count_prints_usage_witness :
  let w := Demo.boot (Demo.installation "package-config.json"
                        (Json Demo.package_config)) ["1"] in
  length ["demo"; "extra"] <> 1
  /\ Part002.main Demo.h 10 ["demo"; "extra"] w
     = Exit 1 (after w ["1"] [Stdout Usage]).
Proof.
  intros w.
  assert (H : length ["demo"; "extra"] <> 1) by (cbn; lia).
  split; [exact H |].
  exact (proj1 (proj2 (wrong_argument_count_prints_usage
                         Demo.h 10 ["demo"; "extra"] w H))).
Defined.

(** X2: the oldest script's search for the templates never throws and
    never touches a file: it returns a directory that exists (the
    installed package's, or the development checkout's, announced by one
    line), or prints one error line and exits with code 1. *)
Theorem locate_templates_finds_an_existing_directory (h : host) (w : world) :
  match Part003.locate_templates h w with
  | Return p w' =>
      existsSync (files w) p = true
      /\ files w' = files w /\ stdin w' = stdin w
      /\ (log w' = log w
          \/ (log w' = log w ++ [Stdout UsingDevTemplates]
              /\ p = dirname (dirname (dirname__ h)) ++ ["templates"]))
  | Exit code w' =>
      code = 1%Z /\ files w' = files w /\ stdin w' = stdin w
      /\ exists m, log w' = log w ++ [Stderr m]
  | _ => False
  end.
Proof.
  unfold Part003.locate_templates. run.
  destruct (require_resolve h) as [resolved|]; cbn [files stdin log manifest].
  - destruct (existsSync (files w) (dirname (dirname resolved) ++ ["templates"]))
      eqn:E; cbn [negb files stdin log manifest].
    + auto.
    + destruct (existsSync (files w) (dirname (dirname (dirname__ h)) ++ ["templates"]))
        eqn:E'; cbn [files stdin log manifest]; eauto 10.
  - destruct (existsSync (files w)
                (dirname (dirname__ h) ++ ["node_modules"; "@posit"; "shiny-react"]))
      eqn:E0; cbn [files stdin log manifest].
    + destruct (existsSync (files w)
                  ((dirname (dirname__ h) ++ ["node_modules"; "@posit"; "shiny-react"])
                   ++ ["templates"])) eqn:E; cbn [negb files stdin log manifest].
      * auto.
      * destruct (existsSync (files w) (dirname (dirname (dirname__ h)) ++ ["templates"]))
          eqn:E'; cbn [files stdin log manifest]; eauto 10.
    + eauto 10.
Qed.

(** ** Numbered prompts *)

Lemma digit_pretty_N_char (d : N) :
  (d < 10)%N -> digit (pretty_N_char d) = Some d.
Proof.
  intros H.
  assert (d = 0 \/ d = 1 \/ d = 2 \/ d = 3 \/ d = 4 \/ d = 5 \/ d = 6 \/ d = 7
          \/ d = 8 \/ d = 9)%N as Hd by lia.
  repeat (destruct Hd as [-> | Hd]; [reflexivity |]). subst d. reflexivity.
Qed.

Lemma numeral_pretty_N_go (x : N) (s : string) :
  numeral s = true -> numeral (pretty_N_go x s) = true.
Proof.
  revert s. induction (N.lt_wf_0 x) as [x _ IH]. intros s Hs.
  destruct (N.eq_dec x 0%N) as [-> | Hx].
  - rewrite pretty_N_go_0. exact Hs.
  - rewrite pretty_N_go_step by lia. apply IH.
    + apply N.div_lt; lia.
    + cbn [numeral]. rewrite digit_pretty_N_char by (apply N.mod_lt; lia).
      exact Hs.
Qed.

Lemma leading_pretty_N_go (x : N) (s : string) :
  leading digit 10 None (pretty_N_go x s)
  = leading digit 10 (if decide (x = 0%N) then None else Some x) s.
Proof.
  revert s. induction (N.lt_wf_0 x) as [x _ IH]. intros s.
  destruct (decide (x = 0%N)) as [-> | Hx].
  - rewrite pretty_N_go_0. reflexivity.
  - rewrite pretty_N_go_step by lia.
    rewrite IH by (apply N.div_lt; lia).
    cbn [leading]. rewrite digit_pretty_N_char by (apply N.mod_lt; lia).
    f_equal. f_equal.
    pose proof (N.div_mod x 10 ltac:(lia)) as Hdm.
    destruct (decide ((x `div` 10)%N = 0%N)) as [E | E]; cbn [default].
    + rewrite E in *. lia.
    + cbn. lia.
Qed.

Lemma pretty_N_go_nonempty (x : N) (s : string) :
  x <> 0%N -> pretty_N_go x s <> EmptyString.
Proof.
  revert s. induction (N.lt_wf_0 x) as [x _ IH]. intros s Hx.
  rewrite pretty_N_go_step by lia.
  destruct (decide ((x `div` 10)%N = 0%N)) as [E | E].
  - rewrite E, pretty_N_go_0. discriminate.
  - apply IH; [apply N.div_lt; lia | exact E].
Qed.

(** A string of decimal digits is read by [parseInt] in base ten, unless
    it is empty or goes on after a leading [0] with something else. *)
Lemma parseInt_numeral (c : ascii) (s : string) :
  numeral (String c s) = true ->
  parseInt (String c s)
  = (fun m => Z.of_N m) <$> leading digit 10 None (String c s).
Proof.
  cbn [numeral]. destruct (digit c) as [d|] eqn:Hc; [| discriminate].
  intros Hs.
  destruct c as [[] [] [] [] [] [] [] []]; try discriminate Hc;
    try reflexivity.
  destruct s as [| c2 s2]; [reflexivity |].
  cbn [numeral] in Hs. destruct (digit c2) as [d2|] eqn:Hc2; [| discriminate].
  destruct c2 as [[] [] [] [] [] [] [] []]; try discriminate Hc2; reflexivity.
Qed.

Lemma parseInt_pretty_N (n : N) : parseInt (pretty n) = Some (Z.of_N n).
Proof.
  unfold pretty, pretty_N. destruct (decide (n = 0%N)) as [-> | Hn].
  - reflexivity.
  - destruct (pretty_N_go n EmptyString) as [| c s] eqn:E.
    + destruct (pretty_N_go_nonempty n EmptyString Hn E).
    + rewrite parseInt_numeral.
      * rewrite <- E, leading_pretty_N_go.
        destruct (decide (n = 0%N)); [contradiction | reflexivity].
      * rewrite <- E. apply numeral_pretty_N_go. reflexivity.
Qed.

Lemma pretty_N_nonempty (n : N) : pretty n <> EmptyString.
Proof.
  unfold pretty, pretty_N. destruct (decide (n = 0%N)); [discriminate |].
  apply pretty_N_go_nonempty. assumption.
Qed.

Lemma choice_pretty (k : nat) (dflt : string) :
  choice (pretty k) dflt = Some (Z.of_nat k - 1)%Z.
Proof.
  unfold choice. unfold pretty at 1, pretty_nat.
  rewrite (eqb_empty_false _ (pretty_N_nonempty _)).
  unfold pretty, pretty_nat. rewrite parseInt_pretty_N. cbn.
  rewrite nat_N_Z. reflexivity.
Qed.

(** X3: the decimal numeral of [k], typed at a numbered prompt over
    [options], passes the range check and selects the entry at position
    [k] (index [k - 1]) exactly when [1 <= k <= length options]; [0] and
    numbers beyond the list are out of range. *)
Theorem typed_number_selects_the_listed_entry
  {A} (options : list A) (k : nat) (dflt : string) :
  (1 <= k <= length options ->
   out_of_range (choice (pretty k) dflt) (length options) = false
   /\ at_index options (choice (pretty k) dflt) = options !! (k - 1))
  /\ (k = 0 \/ length options < k ->
      out_of_range (choice (pretty k) dflt) (length options) = true).
Proof.
  rewrite choice_pretty. unfold out_of_range, at_index. split.
  - intros Hk. split.
    + apply orb_false_iff. split; [apply Z.ltb_ge | apply Z.leb_gt]; lia.
    + destruct (Z.ltb_spec (Z.of_nat k - 1) 0); [lia |].
      f_equal. lia.
  - intros Hk. apply orb_true_iff.
    destruct Hk as [-> | Hk]; [left; reflexivity | right].
    apply Z.leb_le. lia.
Qed.

Lemma typed_number_selects_the_listed_entry_witness :
  1 <= 2 <= length Part002.BACKENDS
  /\ out_of_range (choice (pretty 2) "3") (length Part002.BACKENDS) = false
  /\ at_index Part002.BACKENDS (choice (pretty 2) "3")
     = Part002.BACKENDS !! (2 - 1).
Proof.
  assert (H : 1 <= 2 <= length Part002.BACKENDS) by (cbn; lia).
  split; [exact H |].
  exact (proj1 (typed_number_selects_the_listed_entry
                  Part002.BACKENDS 2 "3") H).
Defined.

(** X5: an answer that parses to a number outside the menu, at the
    template prompt or at the backend prompt of any script, is fatal: the
    run prints "Invalid choice" with the upper bound and exits with code
    1; there is no second chance and no file is touched. *)
Theorem out_of_range_choice_is_fatal
  (h : host) (fuel : nat) (appName answer first : string)
  (w w1 : world) (templates : list template) (rest : list string) :
  let n := length templates in
  let refused upper prompts :=
    Exit 1 (after w1 rest
      ([Stdout (Creating appName)] ++ prompts ++ [Stderr (InvalidChoice upper)])) in
  let asked dflt := Prompt (template_prompt n dflt) in
  (ready (Part001.getAvailableTemplates h) h appName w templates w1 ->
     (stdin w1 = answer :: rest ->
      out_of_range (choice answer "2") n = true ->
        Part001.main h fuel [appName] w = refused n [asked "2"])
     /\ (stdin w1 = first :: answer :: rest -> picks first "2" templates ->
         out_of_range (choice answer "3") 2 = true ->
          Part001.main h fuel [appName] w
          = refused 2 [asked "2"; Prompt "Choose a backend (1-2) [1]: "]))
  /\ (ready (Part002.getAvailableTemplates h) h appName w templates w1 ->
      (stdin w1 = answer :: rest ->
       out_of_range (choice answer "1") n = true ->
         Part002.main h fuel [appName] w = refused n [asked "1"])
      /\ (stdin w1 = first :: answer :: rest -> picks first "1" templates ->
          out_of_range (choice answer "3") 3 = true ->
           Part002.main h fuel [appName] w
           = refused 3 [asked "1"; Prompt "Choose a backend (1-3) [3]: "]))
  /\ (ready003 h appName w templates w1 ->
      (stdin w1 = answer :: rest ->
       out_of_range (choice answer "1") n = true ->
         Part003.main h fuel [appName] w = refused n [asked "1"])
      /\ (stdin w1 = first :: answer :: rest -> picks first "1" templates ->
          out_of_range (choice answer "3") 3 = true ->
           Part003.main h fuel [appName] w
           = refused 3 [asked "1"; Prompt "Choose a backend (1-3) [3]: "])).
Proof.
  intros n refused asked. unfold refused, asked, n.
  split; [| split].
  - intros H. split.
    + intros Hin Hout. unfold Part001.main. at_prompts H.
      rewrite Hin, Hout. cbn [stdin files log manifest].
      unfold after. cbn [app]. rewrite <- !app_assoc. reflexivity.
    + intros Hin (Hrange & t & Ht) Hout. unfold Part001.main. at_prompts H.
      rewrite Hin, Hrange, Ht. cbn [stdin files log manifest].
      change (length Part001.BACKENDS) with 2. rewrite Hout.
      cbn [stdin files log manifest].
      unfold after. cbn [app]. rewrite <- !app_assoc. reflexivity.
  - intros H. split.
    + intros Hin Hout. unfold Part002.main. at_prompts H.
      rewrite Hin, Hout. cbn [stdin files log manifest].
      unfold after. cbn [app]. rewrite <- !app_assoc. reflexivity.
    + intros Hin (Hrange & t & Ht) Hout. unfold Part002.main. at_prompts H.
      rewrite Hin, Hrange, Ht. cbn [stdin files log manifest].
      change (length Part002.BACKENDS) with 3. rewrite Hout.
      cbn [stdin files log manifest].
      unfold after. cbn [app]. rewrite <- !app_assoc. reflexivity.
  - intros (Hfree & (dir & w0 & Hdir & Hts) & Hshown). split.
    + intros Hin Hout. unfold Part003.main.
      run. rewrite Hfree, Hdir, Hts. cbn [stdin files log manifest].
      rewrite (showTemplates_shown _ _ Hshown). cbn [stdin files log manifest].
      rewrite Hin, Hout. cbn [stdin files log manifest].
      unfold after. cbn [app]. rewrite <- !app_assoc. reflexivity.
    + intros Hin (Hrange & t & Ht) Hout. unfold Part003.main.
      run. rewrite Hfree, Hdir, Hts. cbn [stdin files log manifest].
      rewrite (showTemplates_shown _ _ Hshown). cbn [stdin files log manifest].
      rewrite Hin, Hrange, Ht. cbn [stdin files log manifest].
      change (length Part003.BACKENDS) with 3. rewrite Hout.
      cbn [stdin files log manifest].
      unfold after. cbn [app]. rewrite <- !app_assoc. reflexivity.
Qed.

Lemma pretty_N_go_app (x : N) (s t : string) :
  pretty_N_go x s +:+ t = pretty_N_go x (s +:+ t).
Proof.
  revert s. induction (N.lt_wf_0 x) as [x _ IH]. intros s.
  destruct (decide (x = 0%N)) as [-> | Hx].
  - rewrite !pretty_N_go_0. reflexivity.
  - rewrite (pretty_N_go_step x s), (pretty_N_go_step x (s +:+ t)) by lia.
    rewrite IH by (apply N.div_lt; lia). reflexivity.
Qed.

Lemma pretty_N_go_head (x : N) (s : string) :
  x <> 0%N ->
  exists c r d, pretty_N_go x s = String c r /\ digit c = Some d /\ d <> 0%N.
Proof.
  revert s. induction (N.lt_wf_0 x) as [x _ IH]. intros s Hx.
  rewrite pretty_N_go_step by lia.
  destruct (decide ((x `div` 10)%N = 0%N)) as [E | E].
  - rewrite E, pretty_N_go_0.
    exists (pretty_N_char (x `mod` 10)), s, (x `mod` 10)%N.
    split; [reflexivity |].
    split; [apply digit_pretty_N_char, N.mod_lt; lia |].
    pose proof (N.div_mod x 10 ltac:(lia)). lia.
  - apply IH; [apply N.div_lt; lia | exact E].
Qed.

Lemma parseInt_blank (padding s : string) :
  blank padding = true -> parseInt (padding +:+ s) = parseInt s.
Proof.
  induction padding as [| p padding IH]; [reflexivity |].
  cbn [blank]. intros [Hp Hrest]%andb_true_iff.
  rewrite <- (IH Hrest).
  change (String p padding +:+ s) with (String p (padding +:+ s)).
  unfold parseInt.
  change (trimStart (String p (padding +:+ s)))
    with (if is_space p then trimStart (padding +:+ s)
          else String p (padding +:+ s)).
  rewrite Hp. reflexivity.
Qed.

Lemma parseInt_digit (c : ascii) (r : string) (d : N) :
  digit c = Some d -> d <> 0%N ->
  parseInt (String c r)
  = (fun m => Z.of_N m) <$> leading digit 10 None (String c r).
Proof.
  intros Hc Hd.
  destruct c as [[] [] [] [] [] [] [] []]; try discriminate Hc;
    try reflexivity.
  injection Hc as <-. contradiction.
Qed.

Lemma leading_stops (acc : option N) (s : string) :
  stops s = true -> leading digit 10 acc s = acc.
Proof.
  destruct s as [| c s]; [reflexivity |]. cbn [stops leading].
  destruct (digit c); [discriminate | reflexivity].
Qed.

Lemma append_nonempty (a b : string) :
  b <> EmptyString -> a +:+ b <> EmptyString.
Proof. destruct a; [intros H; exact H | discriminate]. Qed.

(** X4: [parseInt] is lenient: white space before the numeral of a
    positive number and any text after it that does not start with a
    digit are ignored, so such an answer is read as the number itself. *)
Theorem padded_number_is_read_as_the_number
  (k : nat) (padding trailing dflt : string) :
  1 <= k -> blank padding = true -> stops trailing = true ->
  choice (padding +:+ pretty k +:+ trailing) dflt = Some (Z.of_nat k - 1)%Z.
Proof.
  intros Hk Hpad Hstop.
  assert (Hn : N.of_nat k <> 0%N) by lia.
  unfold pretty, pretty_nat, pretty, pretty_N.
  destruct (decide (N.of_nat k = 0%N)) as [E | _]; [contradiction |].
  assert (Happ : pretty_N_go (N.of_nat k) EmptyString +:+ trailing
                 = pretty_N_go (N.of_nat k) trailing)
    by (rewrite pretty_N_go_app; reflexivity).
  rewrite Happ. clear Happ.
  destruct (pretty_N_go_head (N.of_nat k) trailing Hn)
    as (c & r & d & Hshape & Hc & Hd).
  unfold choice.
  rewrite eqb_empty_false
    by (apply append_nonempty; rewrite Hshape; discriminate).
  rewrite parseInt_blank by exact Hpad.
  rewrite Hshape, (parseInt_digit c r d Hc Hd), <- Hshape.
  rewrite leading_pretty_N_go.
  destruct (decide (N.of_nat k = 0%N)) as [E | _]; [contradiction |].
  rewrite leading_stops by exact Hstop. cbn.
  rewrite nat_N_Z. reflexivity.
Qed.

Lemma padded_number_is_read_as_the_number_witness :
  (1 <= 2 /\ blank "  " = true /\ stops ". Python" = true)
  /\ choice ("  " +:+ pretty 2 +:+ ". Python") "1" = Some (Z.of_nat 2 - 1)%Z.
Proof.
  assert (H1 : 1 <= 2) by lia.
  assert (H2 : blank "  " = true) by reflexivity.
  assert (H3 : stops ". Python" = true) by reflexivity.
  split; [exact (conj H1 (conj H2 H3)) |].
  exact (padded_number_is_read_as_the_number 2 "  " ". Python" "1" H1 H2 H3).
Defined.

Lemma out_of_range_choice_is_fatal_witness :
  let w := Demo.boot (Demo.installation "package-config.json"
                        (Json Demo.package_config)) ["7"; "1"] in
  (ready (Part002.getAvailableTemplates Demo.h) Demo.h "demo" w
         Demo.discovered w
   /\ stdin w = ["7"; "1"]
   /\ out_of_range (choice "7" "1") (length Demo.discovered) = true)
  /\ Part002.main Demo.h 10 ["demo"] w
     = Exit 1 (after w ["1"]
         ([Stdout (Creating "demo")]
          ++ [Prompt (template_prompt (length Demo.discovered) "1")]
          ++ [Stderr (InvalidChoice (length Demo.discovered))])).
Proof.
  intros w.
  assert (Hready : ready (Part002.getAvailableTemplates Demo.h) Demo.h "demo"
                     w Demo.discovered w)
    by (split; [reflexivity
              | split; [reflexivity | split; [by_evaluation | reflexivity]]]).
  assert (Hin : stdin w = ["7"; "1"]) by reflexivity.
  assert (Hout : out_of_range (choice "7" "1") (length Demo.discovered) = true)
    by reflexivity.
  split; [exact (conj Hready (conj Hin Hout)) |].
  exact (proj1 (proj1 (proj2 (out_of_range_choice_is_fatal
                                Demo.h 10 "demo" "7" "1" w w Demo.discovered
                                ["1"])) Hready) Hin Hout).
Defined.

Lemma do_while_ext {A} (n : nat) (body body' : M (option A)) (w : world) :
  (forall v, body v = body' v) -> do_while n body w = do_while n body' w.
Proof.
  intros H. revert w. induction n as [|n IH]; intros w; [reflexivity |].
  cbn [do_while]. unfold bind. rewrite H.
  destruct (body' w) as [[a|] v | | | |]; auto.
Qed.

Lemma after_after (w : world) (r1 r2 : list string) (e1 e2 : list event) :
  after (after w r1 e1) r2 e2 = after w r2 (e1 ++ e2).
Proof. unfold after. cbn. rewrite <- app_assoc. reflexivity. Qed.

Lemma after_self (w : world) : after w (stdin w) [] = w.
Proof. destruct w. unfold after. cbn. rewrite app_nil_r. reflexivity. Qed.

Section Asking.
Context {A : Type} (prompt : string) (complaint : message).
Context (understood : string -> option A).

Lemma do_while_asking (refused : list string) (n : nat) (w : world)
  (lines : list string) :
  Forall (fun line => understood line = None) refused ->
  length refused < n ->
  stdin w = refused ++ lines ->
  match lines with
  | [] =>
      do_while n (asking prompt complaint understood) w
      = Blocked (after w [] (rounds prompt complaint refused ++ [Prompt prompt]))
  | line :: rest =>
      forall a, understood line = Some a ->
        do_while n (asking prompt complaint understood) w
        = Return a (after w rest
                      (rounds prompt complaint refused ++ [Prompt prompt]))
  end.
Proof.
  intros Hbad. revert n w. induction Hbad as [| x refused Hx Hbad IH];
    intros n w Hn Hin.
  - destruct n as [|n]; [cbn in Hn; lia |]. cbn [app] in Hin.
    destruct lines as [| line rest].
    + cbn [do_while]. unfold asking. run. rewrite Hin. reflexivity.
    + intros a Ha. cbn [do_while]. unfold asking. run. rewrite Hin, Ha.
      reflexivity.
  - destruct n as [|n]; [cbn in Hn; lia |]. cbn [app] in Hin.
    assert (Hstep : do_while (S n) (asking prompt complaint understood) w
                    = do_while n (asking prompt complaint understood)
                        (after w (refused ++ lines)
                               [Prompt prompt; Stdout complaint])).
    { cbn [do_while]. unfold asking at 1. run. rewrite Hin, Hx.
      cbn [stdin files log manifest]. unfold after.
      rewrite <- app_assoc. reflexivity. }
    rewrite Hstep.
    specialize (IH n (after w (refused ++ lines)
                            [Prompt prompt; Stdout complaint])
                  ltac:(cbn in Hn; lia) eq_refl).
    destruct lines as [| line rest].
    + rewrite IH, after_after. reflexivity.
    + intros a Ha. rewrite (IH a Ha), after_after. reflexivity.
Qed.

(** The loop takes lines until one is understood, complains about each
    line before it, and waits when the lines run out. *)
Lemma loop_asking (refused : list string) (w : world) :
  Forall (fun line => understood line = None) refused ->
  (forall line rest a,
     understood line = Some a ->
     stdin w = refused ++ line :: rest ->
     loop (asking prompt complaint understood) w
     = Return a (after w rest (rounds prompt complaint refused ++ [Prompt prompt])))
  /\ (stdin w = refused ->
      loop (asking prompt complaint understood) w
      = Blocked (after w [] (rounds prompt complaint refused ++ [Prompt prompt]))).
Proof.
  intros Hbad. split.
  - intros line rest a Ha Hin. unfold loop.
    apply (do_while_asking refused _ w (line :: rest) Hbad);
      [rewrite Hin, length_app; cbn; lia | exact Hin | exact Ha].
  - intros Hin. unfold loop.
    apply (do_while_asking refused _ w [] Hbad);
      [rewrite Hin; lia | rewrite app_nil_r; exact Hin].
Qed.

Lemma loop_ext (body : M (option A)) (w : world) :
  (forall v, body v = asking prompt complaint understood v) ->
  loop body w = loop (asking prompt complaint understood) w.
Proof. intros H. unfold loop. apply do_while_ext, H. Qed.

End Asking.

(** ** The prompt loops *)

(** X6: the documentation question of the [SKIP_PATHS] script is asked
    again, after a complaint, for every line that is none of [y], [yes],
    [n], [no] (in any case) or empty; the first such line decides ([n] and
    [no] decline, the others accept, the empty line included), the lines
    after it are left unread, and when the input ends first the script
    waits at the prompt. *)
Theorem docs_question_repeats_until_understood
  (refused : list string) (line : string) (rest : list string) (w : world) :
  let prompt := "Include CLAUDE.md for LLM assistance? (Y/n): " in
  let no l := toLowerCase l = "n" \/ toLowerCase l = "no" in
  let yes l :=
    toLowerCase l = "y" \/ toLowerCase l = "yes" \/ toLowerCase l = EmptyString in
  let printed := rounds prompt EnterYesNo refused ++ [Prompt prompt] in
  Forall (fun l => ~ no l /\ ~ yes l) refused ->
  (stdin w = refused ++ line :: rest -> no line ->
   Part002.ask_docs w = Return false (after w rest printed))
  /\ (stdin w = refused ++ line :: rest -> yes line ->
      Part002.ask_docs w = Return true (after w rest printed))
  /\ (stdin w = refused ->
      Part002.ask_docs w = Blocked (after w [] printed)).
Proof.
  intros prompt no yes printed Hbad.
  set (understood := fun l : string =>
         if String.eqb (toLowerCase l) "n" || String.eqb (toLowerCase l) "no"
         then Some false
         else if String.eqb (toLowerCase l) "y"
                 || String.eqb (toLowerCase l) "yes"
                 || String.eqb (toLowerCase l) EmptyString
              then Some true else None).
  assert (Hloop : forall v,
            Part002.ask_docs v = loop (asking prompt EnterYesNo understood) v).
  { intros v. unfold Part002.ask_docs. apply loop_ext. intros u.
    unfold asking, understood. run.
    destruct (stdin u) as [| l ls]; [reflexivity |]. cbn beta iota.
    destruct (String.eqb (toLowerCase l) "n" || String.eqb (toLowerCase l) "no");
      [reflexivity |].
    destruct (String.eqb (toLowerCase l) "y" || String.eqb (toLowerCase l) "yes"
              || String.eqb (toLowerCase l) EmptyString); reflexivity. }
  assert (Hno : forall l, no l -> understood l = Some false).
  { intros l [H | H]; unfold understood; rewrite H; reflexivity. }
  assert (Hyes : forall l, yes l -> understood l = Some true).
  { intros l [H | [H | H]]; unfold understood; rewrite H; reflexivity. }
  assert (Hnone : Forall (fun l => understood l = None) refused).
  { eapply Forall_impl; [exact Hbad |]. intros l [Hn Hy]. unfold understood.
    destruct (String.eqb_spec (toLowerCase l) "n") as [E|_];
      [destruct Hn; left; exact E |].
    destruct (String.eqb_spec (toLowerCase l) "no") as [E|_];
      [destruct Hn; right; exact E |].
    destruct (String.eqb_spec (toLowerCase l) "y") as [E|_];
      [destruct Hy; left; exact E |].
    destruct (String.eqb_spec (toLowerCase l) "yes") as [E|_];
      [destruct Hy; right; left; exact E |].
    destruct (String.eqb_spec (toLowerCase l) EmptyString) as [E|_];
      [destruct Hy; right; right; exact E |].
    reflexivity. }
  destruct (loop_asking prompt EnterYesNo understood refused w Hnone)
    as [Hgood Hwait].
  split; [| split].
  - intros Hin Hl. rewrite Hloop. apply (Hgood line rest false (Hno _ Hl) Hin).
  - intros Hin Hl. rewrite Hloop. apply (Hgood line rest true (Hyes _ Hl) Hin).
  - intros Hin. rewrite Hloop. apply Hwait, Hin.
Qed.

Lemma docs_question_repeats_until_understood_witness :
  let w := Demo.boot (Demo.installation "package-config.json"
                        (Json Demo.package_config)) ["maybe"; "2"; "YES"; "n"] in
  let prompt := "Include CLAUDE.md for LLM assistance? (Y/n): " in
  (Forall (fun l => ~ (toLowerCase l = "n" \/ toLowerCase l = "no")
                    /\ ~ (toLowerCase l = "y" \/ toLowerCase l = "yes"
                          \/ toLowerCase l = EmptyString)) ["maybe"; "2"]
   /\ stdin w = ["maybe"; "2"] ++ "YES" :: ["n"]
   /\ (toLowerCase "YES" = "y" \/ toLowerCase "YES" = "yes"
       \/ toLowerCase "YES" = EmptyString))
  /\ Part002.ask_docs w
     = Return true (after w ["n"]
         (rounds prompt EnterYesNo ["maybe"; "2"] ++ [Prompt prompt])).
Proof.
  intros w prompt.
  assert (H1 : Forall (fun l => ~ (toLowerCase l = "n" \/ toLowerCase l = "no")
                    /\ ~ (toLowerCase l = "y" \/ toLowerCase l = "yes"
                          \/ toLowerCase l = EmptyString)) ["maybe"; "2"]).
  { repeat constructor; intros H; cbn in H;
      repeat (destruct H as [H | H]; try discriminate H). }
  assert (H2 : stdin w = ["maybe"; "2"] ++ "YES" :: ["n"]) by reflexivity.
  assert (H3 : toLowerCase "YES" = "y" \/ toLowerCase "YES" = "yes"
               \/ toLowerCase "YES" = EmptyString) by (right; left; reflexivity).
  split; [exact (conj H1 (conj H2 H3)) |].
  exact (proj1 (proj2 (docs_question_repeats_until_understood
                         ["maybe"; "2"] "YES" ["n"] w H1)) H2 H3).
Defined.

(** X7: the documentation menu of the ES-module script is asked again,
    after a complaint, until a line selects 1 (include) or 2 (skip); an
    empty line selects 1; a line that is not a number is asked again
    rather than failing. *)
Theorem docs_menu_repeats_until_understood
  (refused : list string) (line : string) (rest : list string) (w : world) :
  let prompt := "Choose an option (1-2) [1]: " in
  let printed := rounds prompt (SelectBetween 2) refused ++ [Prompt prompt] in
  Forall (fun l => choice l "1" <> Some 0%Z /\ choice l "1" <> Some 1%Z) refused ->
  (stdin w = refused ++ line :: rest -> choice line "1" = Some 0%Z ->
   Part001.ask_docs w = Return true (after w rest printed))
  /\ (stdin w = refused ++ line :: rest -> choice line "1" = Some 1%Z ->
      Part001.ask_docs w = Return false (after w rest printed))
  /\ (stdin w = refused ->
      Part001.ask_docs w = Blocked (after w [] printed)).
Proof.
  intros prompt printed Hbad.
  set (understood := fun l : string =>
         match choice l "1" with
         | Some 0%Z => Some true
         | Some 1%Z => Some false
         | _ => None
         end).
  assert (Hloop : forall v,
            Part001.ask_docs v = loop (asking prompt (SelectBetween 2) understood) v).
  { intros v. unfold Part001.ask_docs. apply loop_ext. intros u.
    unfold asking, understood. run.
    destruct (stdin u) as [| l ls]; [reflexivity |]. cbn beta iota.
    destruct (choice l "1") as [[| [p|p|] | p] |]; reflexivity. }
  assert (Hnone : Forall (fun l => understood l = None) refused).
  { eapply Forall_impl; [exact Hbad |]. intros l [H0 H1]. unfold understood.
    destruct (choice l "1") as [[| [p|p|] | p] |]; congruence. }
  destruct (loop_asking prompt (SelectBetween 2) understood refused w Hnone)
    as [Hgood Hwait].
  split; [| split].
  - intros Hin Hl. rewrite Hloop. apply (Hgood line rest true); [| exact Hin].
    unfold understood. rewrite Hl. reflexivity.
  - intros Hin Hl. rewrite Hloop. apply (Hgood line rest false); [| exact Hin].
    unfold understood. rewrite Hl. reflexivity.
  - intros Hin. rewrite Hloop. apply Hwait, Hin.
Qed.

Lemma docs_menu_repeats_until_understood_witness :
  let w := Demo.boot (Demo.installation "package-custom.json"
                        (Json Demo.package_config)) ["y"; "3"; EmptyString; "2"] in
  let prompt := "Choose an option (1-2) [1]: " in
  (Forall (fun l => choice l "1" <> Some 0%Z /\ choice l "1" <> Some 1%Z)
          ["y"; "3"]
   /\ stdin w = ["y"; "3"] ++ EmptyString :: ["2"]
   /\ choice EmptyString "1" = Some 0%Z)
  /\ Part001.ask_docs w
     = Return true (after w ["2"]
         (rounds prompt (SelectBetween 2) ["y"; "3"] ++ [Prompt prompt])).
Proof.
  intros w prompt.
  assert (H1 : Forall (fun l => choice l "1" <> Some 0%Z
                                /\ choice l "1" <> Some 1%Z) ["y"; "3"])
    by (repeat constructor; discriminate).
  assert (H2 : stdin w = ["y"; "3"] ++ EmptyString :: ["2"]) by reflexivity.
  assert (H3 : choice EmptyString "1" = Some 0%Z) by reflexivity.
  split; [exact (conj H1 (conj H2 H3)) |].
  exact (proj1 (docs_menu_repeats_until_understood
                  ["y"; "3"] EmptyString ["2"] w H1) H2 H3).
Defined.

(** X8: the package-manager menu of the ES-module script is asked
    again, after a complaint, until a line selects 1, 2 or 3, which give
    [uv], [pip] and [none]; a line that is not a number is asked again. *)
Theorem package_manager_repeats_until_understood
  (refused : list string) (line : string) (rest : list string) (w : world) :
  let prompt := "Choose package manager (1-3) [1]: " in
  let printed := rounds prompt (SelectBetween 3) refused ++ [Prompt prompt] in
  Forall (fun l => forall i, choice l "1" = Some i -> (i < 0 \/ 2 < i)%Z)
         refused ->
  (forall i, stdin w = refused ++ line :: rest ->
     choice line "1" = Some i -> (0 <= i <= 2)%Z ->
     Part001.ask_package_manager w
     = Return (Part001.managers !! Z.to_nat i) (after w rest printed))
  /\ (stdin w = refused ->
      Part001.ask_package_manager w = Blocked (after w [] printed)).
Proof.
  intros prompt printed Hbad.
  set (understood := fun l : string =>
         match choice l "1" with
         | Some i =>
             if (0 <=? i)%Z && (i <=? 2)%Z
             then Some (at_index Part001.managers (choice l "1")) else None
         | None => None
         end).
  assert (Hloop : forall v,
            Part001.ask_package_manager v
            = loop (asking prompt (SelectBetween 3) understood) v).
  { intros v. unfold Part001.ask_package_manager. apply loop_ext. intros u.
    unfold asking, understood. run.
    destruct (stdin u) as [| l ls]; [reflexivity |]. cbn beta iota.
    destruct (choice l "1") as [i|]; [| reflexivity].
    destruct ((0 <=? i)%Z && (i <=? 2)%Z); reflexivity. }
  assert (Hnone : Forall (fun l => understood l = None) refused).
  { eapply Forall_impl; [exact Hbad |]. intros l H. unfold understood.
    cbv beta in H. destruct (choice l "1") as [i|]; [| reflexivity].
    specialize (H i eq_refl).
    destruct (Z.leb_spec 0 i), (Z.leb_spec i 2); cbn; try reflexivity; lia. }
  destruct (loop_asking prompt (SelectBetween 3) understood refused w Hnone)
    as [Hgood Hwait].
  split.
  - intros i Hin Hl Hi. rewrite Hloop. apply (Hgood line rest); [| exact Hin].
    unfold understood. rewrite Hl.
    destruct (Z.leb_spec 0 i), (Z.leb_spec i 2); cbn; try lia.
    f_equal. unfold at_index.
    destruct (Z.ltb_spec i 0); [lia | reflexivity].
  - intros Hin. rewrite Hloop. apply Hwait, Hin.
Qed.

Lemma package_manager_repeats_until_understood_witness :
  let w := Demo.boot (Demo.installation "package-custom.json"
                        (Json Demo.package_config)) ["uv"; "4"; "2"; "1"] in
  let prompt := "Choose package manager (1-3) [1]: " in
  (Forall (fun l => forall i, choice l "1" = Some i -> (i < 0 \/ 2 < i)%Z)
          ["uv"; "4"]
   /\ stdin w = ["uv"; "4"] ++ "2" :: ["1"]
   /\ choice "2" "1" = Some 1%Z /\ (0 <= 1 <= 2)%Z)
  /\ Part001.ask_package_manager w
     = Return (Some "pip") (after w ["1"]
         (rounds prompt (SelectBetween 3) ["uv"; "4"] ++ [Prompt prompt])).
Proof.
  intros w prompt.
  assert (H1 : Forall (fun l => forall i, choice l "1" = Some i
                                          -> (i < 0 \/ 2 < i)%Z) ["uv"; "4"]).
  { constructor; [| constructor; [| constructor]].
    - intros i H. discriminate H.
    - intros i H. injection H as <-. lia. }
  assert (H2 : stdin w = ["uv"; "4"] ++ "2" :: ["1"]) by reflexivity.
  assert (H3 : choice "2" "1" = Some 1%Z) by reflexivity.
  assert (H4 : (0 <= 1 <= 2)%Z) by lia.
  split; [exact (conj H1 (conj H2 (conj H3 H4))) |].
  exact (proj1 (package_manager_repeats_until_understood
                  ["uv"; "4"] "2" ["1"] w H1) 1%Z H2 H3 H4).
Defined.

(** ** The copy as a whole *)

Lemma outside_not_reached (skipped : string -> bool) (skips : list string)
  (dest q : path) :
  ~ q `prefix_of` dest -> ~ dest `prefix_of` q ->
  ~ reached skipped skips dest q.
Proof.
  intros H1 H2 [H | (rel & -> & _)]; [exact (H1 H) |].
  apply H2. apply prefix_app_r. reflexivity.
Qed.

(** X9: whatever the copy meets and however it ends, it changes no
    path that is neither at or below the destination nor an ancestor of
    the destination (which [mkdir] may have to create): the template it
    copies from, in particular, is left as it was. *)
Theorem copy_writes_only_below_the_destination
  (fuel : nat) (src dest q : path) (skipBackends : list string) (w : world) :
  ~ q `prefix_of` dest -> ~ dest `prefix_of` q ->
  keeps q w (final (Part001.copyRecursive fuel src dest skipBackends w))
  /\ keeps q w (final (Part002.copyRecursive fuel src dest skipBackends w))
  /\ keeps q w (final (Part003.copyRecursive fuel src dest skipBackends w)).
Proof.
  intros H1 H2. repeat split; apply copy_keeps, outside_not_reached; assumption.
Qed.

Lemma copy_writes_only_below_the_destination_witness :
  let w := Demo.boot (Demo.installation "package-config.json"
                        (Json Demo.package_config)) [] in
  let q := Demo.basic ++ ["package.json"] in
  (~ q `prefix_of` Demo.target /\ ~ Demo.target `prefix_of` q)
  /\ keeps q w (final (Part002.copyRecursive 10 Demo.basic Demo.target
                         ["py"] w)).
Proof.
  intros w q.
  assert (H1 : ~ q `prefix_of` Demo.target).
  { intros H. apply starts_with_spec in H. discriminate H. }
  assert (H2 : ~ Demo.target `prefix_of` q).
  { intros H. apply starts_with_spec in H. discriminate H. }
  split; [exact (conj H1 H2) |].
  exact (proj1 (proj2 (copy_writes_only_below_the_destination
                         10 Demo.basic Demo.target q ["py"] w H1 H2))).
Defined.

(** X10: the copy of an existing source into a destination where
    nothing exists, below an existing directory and not inside the source,
    returns, given fuel for the depth of the source, and leaves below the
    destination exactly the source tree without the entries whose name is
    statically skipped or is a backend to skip; nothing else changes. *)
Theorem copy_into_fresh_target_mirrors_the_template
  (fuel : nat) (src dest : path) (skipBackends : list string) (w : world) :
  wf (files w) -> is_Some (files w !! src) ->
  shallow (files w) src fuel -> fresh (files w) dest ->
  files w !! dirname dest = Some Dir -> ~ src `prefix_of` dest ->
  let mirrored (copy : nat -> path -> path -> list string -> M unit)
               (skipped : string -> bool) :=
    exists fs',
      copy fuel src dest skipBackends w = Return tt (with_files w fs')
      /\ mirrors skipped skipBackends (files w) fs' src dest in
  mirrored Part001.copyRecursive (includes Part001.SKIP_PATHS)
  /\ mirrored Part002.copyRecursive (includes Part002.SKIP_PATHS)
  /\ mirrored Part003.copyRecursive Part003.skipped.
Proof.
  intros Hwf Hsrc Hshallow Hfresh Hparent Hnot mirrored.
  assert (Hdest : dest <> []).
  { intros ->. specialize (Hfresh []). cbn in Hfresh, Hparent. congruence. }
  repeat split; apply copy_mirrors; assumption.
Qed.

Lemma copy_into_fresh_target_mirrors_the_template_witness :
  let w := Demo.boot (Demo.installation "package-config.json"
                        (Json Demo.package_config)) [] in
  (wf (files w) /\ is_Some (files w !! Demo.basic)
   /\ shallow (files w) Demo.basic 10 /\ fresh (files w) Demo.target
   /\ files w !! dirname Demo.target = Some Dir
   /\ ~ Demo.basic `prefix_of` Demo.target)
  /\ exists fs',
       Part001.copyRecursive 10 Demo.basic Demo.target ["py"] w
       = Return tt (with_files w fs')
       /\ mirrors (includes Part001.SKIP_PATHS) ["py"] (files w) fs'
                  Demo.basic Demo.target.
Proof.
  intros w.
  assert (H1 : wf (files w)) by (apply wf_check_sound; by_evaluation).
  assert (H2 : is_Some (files w !! Demo.basic)).
  { exists Dir. by_evaluation. }
  assert (H3 : shallow (files w) Demo.basic 10)
    by (apply shallow_check_sound; by_evaluation).
  assert (H4 : fresh (files w) Demo.target)
    by (apply fresh_check_sound; by_evaluation).
  assert (H5 : files w !! dirname Demo.target = Some Dir) by by_evaluation.
  assert (H6 : ~ Demo.basic `prefix_of` Demo.target).
  { intros H. apply starts_with_spec in H. discriminate. }
  split; [exact (conj H1 (conj H2 (conj H3 (conj H4 (conj H5 H6))))) |].
  exact (proj1 (copy_into_fresh_target_mirrors_the_template
                  10 Demo.basic Demo.target ["py"] w H1 H2 H3 H4 H5 H6)).
Defined.

(** ** Discovery as a whole *)

Lemma listed_true (keep : string -> bool) (fs : tree) (dir : path)
  (entry : string) :
  listed keep fs dir entry = true
  <-> fs !! (dir ++ [entry]) = Some Dir /\ keep entry = true.
Proof.
  unfold listed. destruct (fs !! (dir ++ [entry])) as [[c|]|]; split;
    try discriminate; try (intros [H _]; discriminate H); auto.
  intros [_ H]. exact H.
Qed.

(** X11: discovery in an existing directory lists, each once, exactly
    its sub-directories whose name passes the script's filter (not in
    [SKIP_PATHS] for the two newer scripts, not starting with a dot for
    the oldest) and leaves the files as they are; on a path that is a file
    it throws, on a missing path it prints an error and exits with
    code 1. *)
Theorem discovery_lists_the_kept_directories
  (h : host) (dir : path) (w : world) :
  let lists (discover : path -> M (list template)) (keep : string -> bool) :=
    match files w !! dir with
    | Some Dir =>
        exists ts,
          discover dir w = Return ts w
          /\ NoDup (id <$> ts)
          /\ forall entry,
               entry ∈ id <$> ts
               <-> files w !! (dir ++ [entry]) = Some Dir /\ keep entry = true
    | Some (File _) => discover dir w = Throw (SystemError "ENOTDIR") w
    | None =>
        discover dir w
        = Exit 1 (after w (stdin w) [Stderr TemplatesNotFound])
    end in
  lists (Part001.getAvailableTemplates h)
        (fun entry => bool_decide (entry ∉ Part001.SKIP_PATHS))
  /\ lists (Part002.getAvailableTemplates h)
           (fun entry => bool_decide (entry ∉ Part002.SKIP_PATHS))
  /\ lists (Part003.getAvailableTemplates h)
           (fun entry => negb (startsWith entry ".")).
Proof.
  assert (Hgen : forall keep,
    match files w !! dir with
    | Some Dir =>
        exists ts,
          Shared.getAvailableTemplates h keep dir w = Return ts w
          /\ NoDup (id <$> ts)
          /\ forall entry,
               entry ∈ id <$> ts
               <-> files w !! (dir ++ [entry]) = Some Dir /\ keep entry = true
    | Some (File _) =>
        Shared.getAvailableTemplates h keep dir w
        = Throw (SystemError "ENOTDIR") w
    | None =>
        Shared.getAvailableTemplates h keep dir w
        = Exit 1 (after w (stdin w) [Stderr TemplatesNotFound])
    end).
  { intros keep. destruct (files w !! dir) as [[c|]|] eqn:Hdir.
    - unfold Shared.getAvailableTemplates. run.
      unfold existsSync, readdirSync. rewrite Hdir. cbn [negb].
      rewrite Hdir. reflexivity.
    - eexists. split; [apply getAvailableTemplates_spec, Hdir |].
      set (kept := filter (fun e => listed keep (files w) dir e = true)
                          (children (files w) dir)).
      assert (Hids : id <$> sort h (map (fun e => described h (files w) (dir ++ [e]) e) kept)
                     ≡ₚ kept).
      { rewrite sort_Permutation. clearbody kept.
        induction kept as [| e kept IH]; [reflexivity |].
        cbn. rewrite described_id. constructor. exact IH. }
      split.
      + rewrite Hids. apply NoDup_filter, NoDup_children.
      + intros entry. rewrite Hids. unfold kept.
        rewrite list_elem_of_filter, listed_true, elem_of_children.
        split; [intros [H _]; exact H |].
        intros [H1 H2]. split; [split |]; eauto.
    - unfold Shared.getAvailableTemplates. run. unfold existsSync.
      rewrite Hdir. reflexivity. }
  intros lists. unfold lists.
  assert (Hkeep : forall l entry,
            negb (includes l entry) = bool_decide (entry ∉ l)).
  { intros l entry. unfold includes.
    destruct (decide (entry ∈ l)) as [H|H].
    - rewrite bool_decide_eq_true_2 by exact H.
      rewrite bool_decide_eq_false_2 by auto. reflexivity.
    - rewrite bool_decide_eq_false_2 by exact H.
      rewrite bool_decide_eq_true_2 by exact H. reflexivity. }
  split; [| split].
  - specialize (Hgen (fun entry => negb (includes Part001.SKIP_PATHS entry))).
    destruct (files w !! dir) as [[c|]|]; [exact Hgen | | exact Hgen].
    destruct Hgen as (ts & H1 & H2 & H3). exists ts.
    split; [exact H1 | split; [exact H2 |]].
    intros entry. rewrite <- Hkeep. apply H3.
  - specialize (Hgen (fun entry => negb (includes Part002.SKIP_PATHS entry))).
    destruct (files w !! dir) as [[c|]|]; [exact Hgen | | exact Hgen].
    destruct Hgen as (ts & H1 & H2 & H3). exists ts.
    split; [exact H1 | split; [exact H2 |]].
    intros entry. rewrite <- Hkeep. apply H3.
  - exact (Hgen (fun entry => negb (startsWith entry "."))).
Qed.

(** ** The patcher on a manifest it cannot use *)

(** X12: without a manifest in the target the patcher of every script
    does nothing at all (a side-file stays where it is); a manifest that
    is a directory, does not parse, or is [null] makes it throw before any
    file is touched. *)
Theorem unusable_manifest_stops_the_patcher
  (target : path) (appName backend : string) (w : world) :
  let stops (update : path -> string -> string -> M unit) :=
    match files w !! (target ++ ["package.json"]) with
    | None => update target appName backend w = Return tt w
    | Some Dir =>
        update target appName backend w = Throw (SystemError "EISDIR") w
    | Some (File (Json JNull)) =>
        update target appName backend w
        = Throw TypeError (holding w (Prim JNull))
    | Some (File (Json _)) => True
    | Some (File _) => update target appName backend w = Throw SyntaxError w
    end in
  stops Part001.updatePackageJson
  /\ stops Part002.updatePackageJson
  /\ stops Part003.updatePackageJson.
Proof.
  intros stops. unfold stops.
  destruct (files w !! (target ++ ["package.json"])) as [[[s | j] |] |]
    eqn:Hpkg.
  - repeat split;
      unfold Part001.updatePackageJson, Part002.updatePackageJson,
        Part003.updatePackageJson; run; unfold existsSync, readFileSync;
      rewrite Hpkg; cbn; rewrite Hpkg; reflexivity.
  - destruct j; try exact (conj I (conj I I)).
    repeat split;
      unfold Part001.updatePackageJson, Part002.updatePackageJson,
        Part003.updatePackageJson; run; unfold existsSync, readFileSync;
      rewrite Hpkg; cbn; rewrite Hpkg; reflexivity.
  - repeat split;
      unfold Part001.updatePackageJson, Part002.updatePackageJson,
        Part003.updatePackageJson; run; unfold existsSync, readFileSync;
      rewrite Hpkg; cbn; rewrite Hpkg; reflexivity.
  - repeat split;
      unfold Part001.updatePackageJson, Part002.updatePackageJson,
        Part003.updatePackageJson; run; unfold existsSync;
      rewrite Hpkg; destruct w; reflexivity.
Qed.

(** ** The manifest the oldest script writes *)

Lemma assoc_nested_set_ne (k k' inner : string) (x : json)
  (l : list (string * json)) :
  k <> k' -> assoc k (nested_set k' inner x l) = assoc k l.
Proof.
  intros Hne. unfold nested_set.
  destruct (assoc k' l) as [[]|]; try reflexivity.
  apply assoc_set_ne, Hne.
Qed.

Lemma numeral_pretty_nat (n : nat) : numeral (pretty n) = true.
Proof.
  unfold pretty, pretty_nat, pretty, pretty_N.
  destruct (decide (N.of_nat n = 0%N)); [reflexivity |].
  apply numeral_pretty_N_go. reflexivity.
Qed.

Lemma assoc_indexed_other (k : string) (items : list json) :
  numeral k = false -> assoc k (indexed items) = None.
Proof.
  intros Hk. unfold indexed.
  assert (H : forall g : nat -> nat,
            assoc k (imap (fun i v => (pretty (g i), v)) items) = None).
  { induction items as [| x items IH]; intros g; [reflexivity |].
    cbn [imap assoc].
    destruct (String.eqb_spec k (pretty (g 0))) as [E | _].
    - rewrite E, numeral_pretty_nat in Hk. discriminate Hk.
    - apply (IH (g ∘ S)). }
  apply (H (fun i => i)).
Qed.

(** X13: on a manifest that is a JSON object the oldest script's
    patcher returns and writes it back with [version] 1.0.0, with
    [scripts] replaced by the set computed from the backend id, with the
    [@posit/shiny-react] dependency pinned to ^0.0.6 when the manifest has
    a truthy one (never added otherwise), and with every other key but
    [name] as it was; no other file changes. *)
Theorem oldest_patcher_sets_version_pin_and_scripts
  (target : path) (appName backend : string) (props : list (string * json))
  (w : world) :
  files w !! target = Some Dir ->
  files w !! (target ++ ["package.json"]) = Some (File (Json (JObj props))) ->
  exists props',
    Part003.updatePackageJson target appName backend w
    = Return tt
        (holding (with_files w (<[target ++ ["package.json"] :=
                                    File (Json (JObj props'))]> (files w)))
                 (Obj (plain props')))
    /\ assoc "version" props' = Some (JStr "1.0.0")
    /\ assoc "scripts" props' = Some (JObj (Part003.scripts_for backend))
    /\ assoc "dependencies" props'
       = match assoc "dependencies" props with
         | Some (JObj deps) =>
             if truthy (assoc "@posit/shiny-react" deps)
             then Some (JObj (assoc_set "@posit/shiny-react" (JStr "^0.0.6")
                                        deps))
             else Some (JObj deps)
         | other => other
         end
    /\ forall k, k ∉ ["name"; "version"; "dependencies"; "scripts"] ->
                 assoc k props' = assoc k props.
Proof.
  intros Hdir Hpkg. exists (patched003 backend appName props).
  split; [rewrite (part003_patch _ _ _ _ _ Hdir Hpkg); reflexivity |].
  unfold patched003.
  set (p2 := assoc_set "version" (JStr "1.0.0")
               (assoc_set "name" (JStr appName) props)).
  assert (Hdeps : assoc "dependencies" p2 = assoc "dependencies" props).
  { unfold p2. rewrite !assoc_set_ne by discriminate. reflexivity. }
  set (p3 := if truthy (assoc "dependencies" p2)
                && truthy (assoc "@posit/shiny-react"
                             (own_props (assoc "dependencies" p2)))
             then nested_set "dependencies" "@posit/shiny-react"
                             (JStr "^0.0.6") p2
             else p2).
  assert (Hother : forall k, k <> "dependencies" -> assoc k p3 = assoc k p2).
  { intros k Hk. unfold p3.
    destruct (truthy (assoc "dependencies" p2)
              && truthy (assoc "@posit/shiny-react"
                           (own_props (assoc "dependencies" p2))));
      [apply assoc_nested_set_ne, Hk | reflexivity]. }
  split; [| split; [| split]].
  - rewrite assoc_set_ne by discriminate.
    rewrite Hother by discriminate. unfold p2. apply assoc_set_eq.
  - apply assoc_set_eq.
  - rewrite assoc_set_ne by discriminate. unfold p3. rewrite Hdeps.
    destruct (assoc "dependencies" props) as [d|] eqn:Hd; cbn [truthy andb].
    + destruct d as [| bit | num | str | items | deps];
        cbn [truthy own_props andb assoc].
      * exact Hdeps.
      * rewrite andb_false_r. exact Hdeps.
      * rewrite andb_false_r. exact Hdeps.
      * rewrite assoc_indexed_other by reflexivity.
        cbn [truthy]. rewrite andb_false_r. exact Hdeps.
      * rewrite assoc_indexed_other by reflexivity. exact Hdeps.
      * destruct (truthy (assoc "@posit/shiny-react" deps)).
        -- unfold nested_set. rewrite Hdeps. apply assoc_set_eq.
        -- exact Hdeps.
    + exact Hdeps.
  - intros k Hk.
    rewrite assoc_set_ne by (intros ->; apply Hk; set_solver).
    rewrite Hother by (intros ->; apply Hk; set_solver).
    unfold p2. rewrite !assoc_set_ne by (intros ->; apply Hk; set_solver).
    reflexivity.
Qed.

Lemma oldest_patcher_sets_version_pin_and_scripts_witness :
  let w := Demo.boot (Demo.copied "package-config.json"
                        (Json Demo.package_config)) [] in
  let props := own_props (Some Demo.package_json) in
  (files w !! Demo.target = Some Dir
   /\ files w !! (Demo.target ++ ["package.json"])
      = Some (File (Json (JObj props))))
  /\ exists props',
       Part003.updatePackageJson Demo.target "demo" "py" w
       = Return tt
           (holding (with_files w (<[Demo.target ++ ["package.json"] :=
                                       File (Json (JObj props'))]> (files w)))
                    (Obj (plain props')))
       /\ assoc "version" props' = Some (JStr "1.0.0")
       /\ assoc "scripts" props' = Some (JObj (Part003.scripts_for "py"))
       /\ assoc "dependencies" props'
          = match assoc "dependencies" props with
            | Some (JObj deps) =>
                if truthy (assoc "@posit/shiny-react" deps)
                then Some (JObj (assoc_set "@posit/shiny-react"
                                           (JStr "^0.0.6") deps))
                else Some (JObj deps)
            | other => other
            end
       /\ forall k, k ∉ ["name"; "version"; "dependencies"; "scripts"] ->
                    assoc k props' = assoc k props.
Proof.
  intros w props.
  assert (H1 : files w !! Demo.target = Some Dir) by by_evaluation.
  assert (H2 : files w !! (Demo.target ++ ["package.json"])
               = Some (File (Json (JObj props)))) by by_evaluation.
  split; [exact (conj H1 H2) |].
  exact (oldest_patcher_sets_version_pin_and_scripts
           Demo.target "demo" "py" props w H1 H2).
Defined.

(** ** Patching twice *)

Lemma assoc_is_Some_keys {A} (k : string) (l : list (string * A)) :
  is_Some (assoc k l) <-> k ∈ l.*1.
Proof.
  induction l as [| [k' v] l IH]; cbn.
  - split; [intros [x H]; discriminate H | intros H; inversion H].
  - destruct (String.eqb_spec k k') as [-> | Hne].
    + split; [intros _; left | eauto].
    + rewrite IH. split; [intros H; right; exact H |].
      intros H. apply elem_of_cons in H as [H | H]; [contradiction | exact H].
Qed.

Lemma assoc_None_keys {A} (k : string) (l : list (string * A)) :
  assoc k l = None <-> k ∉ l.*1.
Proof.
  rewrite <- assoc_is_Some_keys. destruct (assoc k l) as [v|]; split.
  - discriminate.
  - intros H. destruct H. eauto.
  - intros _ [x Hx]. discriminate.
  - reflexivity.
Qed.

Lemma assoc_set_same {A} (k : string) (v : A) (l : list (string * A)) :
  assoc k l = Some v -> assoc_set k v l = l.
Proof.
  induction l as [| [k' v'] l IH]; cbn; [discriminate |].
  destruct (String.eqb_spec k k') as [-> | Hne].
  - intros [= ->]. reflexivity.
  - intros H. rewrite (IH H). reflexivity.
Qed.

Lemma assoc_set_fresh {A} (k : string) (v : A) (l : list (string * A)) :
  k ∉ l.*1 -> assoc_set k v l = l ++ [(k, v)].
Proof.
  induction l as [| [k' v'] l IH]; cbn; [reflexivity |].
  intros H. apply not_elem_of_cons in H as [Hne H].
  destruct (String.eqb_spec k k') as [-> | _]; [contradiction |].
  rewrite (IH H). reflexivity.
Qed.

Lemma assoc_set_keys_in {A} (k : string) (v : A) (l : list (string * A)) :
  k ∈ l.*1 -> (assoc_set k v l).*1 = l.*1.
Proof.
  induction l as [| [k' v'] l IH]; cbn; [intros H; inversion H |].
  destruct (String.eqb_spec k k') as [-> | Hne]; [reflexivity |].
  intros H. apply elem_of_cons in H as [H | H]; [contradiction |].
  cbn. rewrite (IH H). reflexivity.
Qed.

Lemma assoc_set_keys_sub {A} (k k' : string) (v : A) (l : list (string * A)) :
  k ∈ l.*1 -> k ∈ (assoc_set k' v l).*1.
Proof.
  intros H. apply assoc_is_Some_keys, assoc_set_is_Some, assoc_is_Some_keys, H.
Qed.

Lemma assoc_set_NoDup {A} (k : string) (v : A) (l : list (string * A)) :
  NoDup l.*1 -> NoDup (assoc_set k v l).*1.
Proof.
  intros H. destruct (decide (k ∈ l.*1)) as [Hin | Hout].
  - rewrite assoc_set_keys_in by exact Hin. exact H.
  - rewrite assoc_set_fresh by exact Hout. rewrite fmap_app. cbn.
    apply NoDup_app. split; [exact H |]. split.
    + intros x Hx Hx'. apply list_elem_of_singleton in Hx'. subst x.
      contradiction.
    + apply NoDup_singleton.
Qed.

Lemma assoc_list_ext {A} (l l' : list (string * A)) :
  NoDup l.*1 -> l.*1 = l'.*1 -> (forall k, assoc k l = assoc k l') -> l = l'.
Proof.
  revert l'. induction l as [| [k v] l IH]; intros [| [k' v'] l'] Hnd Hkeys Hval;
    try discriminate Hkeys; [reflexivity |].
  cbn in Hkeys. injection Hkeys as <- Hkeys.
  apply NoDup_cons in Hnd as [Hk Hnd].
  pose proof (Hval k) as Hv. cbn in Hv. rewrite String.eqb_refl in Hv.
  injection Hv as <-. f_equal. apply IH; [exact Hnd | exact Hkeys |].
  intros x. destruct (String.eqb_spec x k) as [-> | Hne].
  - rewrite (proj2 (assoc_None_keys k l) Hk).
    symmetry. apply assoc_None_keys. rewrite <- Hkeys. exact Hk.
  - specialize (Hval x). cbn in Hval.
    destruct (String.eqb_spec x k); [contradiction | exact Hval].
Qed.

(** *** Object spread *)

Lemma assign_cons {A} (k : string) (v : A) (b acc : list (string * A)) :
  assign ((k, v) :: b) acc = assign b (assoc_set k v acc).
Proof. reflexivity. Qed.

Lemma assign_keys_sub {A} (b acc : list (string * A)) (k : string) :
  k ∈ acc.*1 -> k ∈ (assign b acc).*1.
Proof.
  revert acc. induction b as [| [k' v'] b IH]; intros acc H; [exact H |].
  rewrite assign_cons. apply IH, assoc_set_keys_sub, H.
Qed.

Lemma assign_keys_from {A} (b acc : list (string * A)) (k : string) :
  k ∈ b.*1 -> k ∈ (assign b acc).*1.
Proof.
  revert acc. induction b as [| [k' v'] b IH]; intros acc H; [inversion H |].
  rewrite assign_cons. cbn in H. apply elem_of_cons in H as [-> | H].
  - apply assign_keys_sub, assoc_is_Some_keys. rewrite assoc_set_eq. eauto.
  - apply IH, H.
Qed.

Lemma assign_NoDup {A} (b acc : list (string * A)) :
  NoDup acc.*1 -> NoDup (assign b acc).*1.
Proof.
  revert acc. induction b as [| [k v] b IH]; intros acc H; [exact H |].
  rewrite assign_cons. apply IH, assoc_set_NoDup, H.
Qed.

Lemma assign_keys_same {A} (b acc : list (string * A)) :
  (forall k, k ∈ b.*1 -> k ∈ acc.*1) -> (assign b acc).*1 = acc.*1.
Proof.
  revert acc. induction b as [| [k v] b IH]; intros acc H; [reflexivity |].
  rewrite assign_cons, IH.
  - apply assoc_set_keys_in, H. left.
  - intros x Hx. apply assoc_set_keys_sub, H. right. exact Hx.
Qed.

Lemma assoc_snoc {A} (k k' : string) (v' : A) (l : list (string * A)) :
  assoc k (l ++ [(k', v')])
  = match assoc k l with
    | Some v => Some v
    | None => if String.eqb k k' then Some v' else None
    end.
Proof.
  induction l as [| [k0 v0] l IH]; cbn; [reflexivity |].
  destruct (String.eqb k k0); [reflexivity | exact IH].
Qed.

(** The last pair for a key wins. *)
Lemma assoc_assign {A} (b acc : list (string * A)) (k : string) :
  assoc k (assign b acc)
  = match assoc k (rev b) with
    | Some v => Some v
    | None => assoc k acc
    end.
Proof.
  revert acc. induction b as [| [k' v'] b IH]; intros acc; [reflexivity |].
  rewrite assign_cons, IH. cbn [rev]. rewrite assoc_snoc.
  destruct (assoc k (rev b)); [reflexivity |].
  destruct (String.eqb_spec k k') as [-> | Hne].
  - apply assoc_set_eq.
  - apply assoc_set_ne, Hne.
Qed.

Lemma assign_rebuild {A} (l acc : list (string * A)) :
  NoDup (acc ++ l).*1 -> assign l acc = acc ++ l.
Proof.
  revert acc. induction l as [| [k v] l IH]; intros acc H.
  - rewrite app_nil_r. reflexivity.
  - rewrite assign_cons.
    assert (Hk : k ∉ acc.*1).
    { rewrite fmap_app in H. apply NoDup_app in H as (_ & H & _).
      intros Hin. apply (H k Hin). left. }
    rewrite assoc_set_fresh by exact Hk.
    rewrite IH; rewrite <- app_assoc; [reflexivity | exact H].
Qed.

Lemma assign_twice {A} (b acc : list (string * A)) :
  NoDup acc.*1 -> assign b (assign b acc) = assign b acc.
Proof.
  intros H. symmetry. apply assoc_list_ext.
  - apply assign_NoDup, H.
  - symmetry. apply assign_keys_same. intros k Hk. apply assign_keys_from, Hk.
  - intros k. rewrite !assoc_assign. destruct (assoc k (rev b)); reflexivity.
Qed.

Lemma spread_assign (a b : option json) :
  spread a b = JObj (assign (own_props b) (assign (own_props a) [])).
Proof. reflexivity. Qed.

(** Spreading the same object in again changes nothing. *)
Lemma spread_twice (a b : option json) :
  spread (Some (spread a b)) b = spread a b.
Proof.
  rewrite !spread_assign. cbn [own_props]. f_equal.
  set (l := assign (own_props b) (assign (own_props a) [])).
  assert (Hl : NoDup l.*1) by (apply assign_NoDup, assign_NoDup, NoDup_nil_2).
  rewrite (assign_rebuild l []) by exact Hl. cbn [app].
  unfold l. apply assign_twice, assign_NoDup, NoDup_nil_2.
Qed.

(** *** The merging loop on property lists *)

Lemma merge_rounds_props (cond : string -> bool) (entry : option json)
  (keys : list string) (l : list (string * json)) :
  "__proto__" ∉ keys ->
  merge_rounds cond entry keys (plain l)
  = plain (merge_props cond entry keys l).
Proof.
  revert l. induction keys as [| key keys IH]; intros l Hk; [reflexivity |].
  apply not_elem_of_cons in Hk as [Hne Hk].
  unfold merge_rounds, merge_props in *. cbn [fold_left].
  rewrite <- (IH _ Hk). f_equal.
  unfold merge_round. destruct (cond key); [| reflexivity].
  rewrite obj_get_own by (reflexivity || congruence).
  rewrite obj_set_plain_key by congruence. reflexivity.
Qed.

Lemma merge_props_cons (cond : string -> bool) (entry : option json)
  (key : string) (keys : list string) (l : list (string * json)) :
  merge_props cond entry (key :: keys) l
  = merge_props cond entry keys
      (if cond key
       then assoc_set key (spread (assoc key l) (assoc key (own_props entry))) l
       else l).
Proof. reflexivity. Qed.

Lemma merge_props_NoDup (cond : string -> bool) (entry : option json)
  (keys : list string) (l : list (string * json)) :
  NoDup l.*1 -> NoDup (merge_props cond entry keys l).*1.
Proof.
  revert l. induction keys as [| key keys IH]; intros l H; [exact H |].
  rewrite merge_props_cons. apply IH.
  destruct (cond key); [apply assoc_set_NoDup, H | exact H].
Qed.

Lemma merge_props_keys_sub (cond : string -> bool) (entry : option json)
  (keys : list string) (l : list (string * json)) (k : string) :
  k ∈ l.*1 -> k ∈ (merge_props cond entry keys l).*1.
Proof.
  revert l. induction keys as [| key keys IH]; intros l H; [exact H |].
  rewrite merge_props_cons. apply IH.
  destruct (cond key); [apply assoc_set_keys_sub, H | exact H].
Qed.

Lemma merge_props_keys_same (cond : string -> bool) (entry : option json)
  (keys : list string) (l : list (string * json)) :
  (forall k, k ∈ keys -> cond k = true -> k ∈ l.*1) ->
  (merge_props cond entry keys l).*1 = l.*1.
Proof.
  revert l. induction keys as [| key keys IH]; intros l H; [reflexivity |].
  rewrite merge_props_cons. destruct (cond key) eqn:Hc.
  - rewrite IH.
    + apply assoc_set_keys_in, H; [left | exact Hc].
    + intros k Hk Hck. apply assoc_set_keys_sub, H; [right; exact Hk | exact Hck].
  - apply IH. intros k Hk Hck. apply H; [right; exact Hk | exact Hck].
Qed.

Lemma assoc_merge_props (cond : string -> bool) (entry : option json)
  (keys : list string) (l : list (string * json)) (k : string) :
  NoDup keys ->
  assoc k (merge_props cond entry keys l)
  = if bool_decide (k ∈ keys) && cond k
    then Some (spread (assoc k l) (assoc k (own_props entry)))
    else assoc k l.
Proof.
  revert l. induction keys as [| key keys IH]; intros l Hnd; [reflexivity |].
  apply NoDup_cons in Hnd as [Hkey Hnd].
  rewrite merge_props_cons, (IH _ Hnd).
  destruct (decide (k = key)) as [-> | Hne].
  - rewrite (bool_decide_eq_false_2 _ Hkey).
    rewrite bool_decide_eq_true_2 by left. cbn [andb].
    destruct (cond key); [apply assoc_set_eq | reflexivity].
  - assert (Hsame : assoc k (if cond key
                             then assoc_set key
                                    (spread (assoc key l)
                                            (assoc key (own_props entry))) l
                             else l) = assoc k l).
    { destruct (cond key); [apply assoc_set_ne, Hne | reflexivity]. }
    rewrite Hsame.
    destruct (decide (k ∈ keys)) as [Hin | Hout].
    + rewrite !bool_decide_eq_true_2 by (exact Hin || (right; exact Hin)).
      reflexivity.
    + rewrite (bool_decide_eq_false_2 _ Hout).
      rewrite bool_decide_eq_false_2; [reflexivity |].
      intros H. apply elem_of_cons in H as [H | H]; contradiction.
Qed.

Lemma assigned_first_keys_sub (first_key : option (string * json))
  (l : list (string * json)) (k : string) :
  k ∈ l.*1 -> k ∈ (assigned_first first_key l).*1.
Proof.
  unfold assigned_first. destruct first_key as [[k0 v0]|]; [| auto].
  apply assoc_set_keys_sub.
Qed.

Lemma assigned_first_NoDup (first_key : option (string * json))
  (l : list (string * json)) :
  NoDup l.*1 -> NoDup (assigned_first first_key l).*1.
Proof.
  unfold assigned_first. destruct first_key as [[k0 v0]|]; [| auto].
  apply assoc_set_NoDup.
Qed.

Lemma assoc_assigned_first (first_key : option (string * json))
  (l : list (string * json)) (k : string) :
  assoc k (assigned_first first_key l)
  = match first_key with
    | Some (k0, v0) => if String.eqb k k0 then Some v0 else assoc k l
    | None => assoc k l
    end.
Proof.
  unfold assigned_first. destruct first_key as [[k0 v0]|]; [| reflexivity].
  destruct (String.eqb_spec k k0) as [-> | Hne];
    [apply assoc_set_eq | apply assoc_set_ne, Hne].
Qed.

(** Setting the name and merging the entry a second time gives back the
    same property list. *)
Lemma merge_again (cond : string -> bool) (entry : option json)
  (first_key : option (string * json)) (nm : json)
  (l1 : list (string * json)) :
  (forall k0 v0, first_key = Some (k0, v0) -> cond k0 = false /\ k0 <> "name") ->
  NoDup (own_props entry).*1 ->
  NoDup l1.*1 ->
  assoc "name" l1 = Some nm ->
  let keys := (own_props entry).*1 in
  let r := merge_props cond entry keys (assigned_first first_key l1) in
  merge_props cond entry keys
    (assigned_first first_key (assoc_set "name" nm r)) = r.
Proof.
  intros first_key_skipped keys_NoDup l1_NoDup l1_named keys r.
  assert (Hr : forall k, assoc k r
                 = if bool_decide (k ∈ keys) && cond k
                   then Some (spread (assoc k (assigned_first first_key l1))
                                     (assoc k (own_props entry)))
                   else assoc k (assigned_first first_key l1))
    by (intros k; apply assoc_merge_props, keys_NoDup).
  assert (Hname_in : "name" ∈ r.*1).
  { apply merge_props_keys_sub, assigned_first_keys_sub, assoc_is_Some_keys.
    rewrite l1_named. eauto. }
  set (l1' := assoc_set "name" nm r).
  assert (Hl1' : forall k, assoc k l1'
                   = if String.eqb k "name" then Some nm else assoc k r).
  { intros k. unfold l1'. destruct (String.eqb_spec k "name") as [-> | Hne];
      [apply assoc_set_eq | apply assoc_set_ne, Hne]. }
  assert (Hkeys' : l1'.*1 = r.*1)
    by (apply assoc_set_keys_in, Hname_in).
  assert (Hsub : forall k, k ∈ r.*1 -> k ∈ (assigned_first first_key l1').*1).
  { intros k Hk. apply assigned_first_keys_sub. rewrite Hkeys'. exact Hk. }
  assert (Hfirst_in : forall k0 v0, first_key = Some (k0, v0) -> k0 ∈ r.*1).
  { intros k0 v0 E. apply merge_props_keys_sub, assoc_is_Some_keys.
    rewrite assoc_assigned_first, E, String.eqb_refl. eauto. }
  symmetry. apply assoc_list_ext.
  - apply merge_props_NoDup, assigned_first_NoDup, l1_NoDup.
  - rewrite merge_props_keys_same.
    + rewrite <- Hkeys'. unfold assigned_first.
      destruct first_key as [[k0 v0]|] eqn:Hfirst; [| reflexivity].
      symmetry. apply assoc_set_keys_in. rewrite Hkeys'.
      apply (Hfirst_in k0 v0 eq_refl).
    + intros k Hk Hc. apply Hsub, assoc_is_Some_keys. rewrite Hr.
      rewrite bool_decide_eq_true_2 by exact Hk. rewrite Hc. cbn. eauto.
  - intros k. rewrite (assoc_merge_props _ _ keys _ _ keys_NoDup), Hr.
    assert (Hsame : bool_decide (k ∈ keys) && cond k = false ->
                    assoc k (assigned_first first_key l1')
                    = assoc k (assigned_first first_key l1)).
    { intros Hc.
      assert (Hrest : match first_key with
                      | Some (k0, _) => k <> k0
                      | None => True
                      end -> assoc k l1' = assoc k l1).
      { intros Hk0. rewrite Hl1'.
        destruct (String.eqb_spec k "name") as [-> | Hnn];
          [symmetry; exact l1_named |].
        rewrite Hr, Hc, assoc_assigned_first.
        destruct first_key as [[k0 v0]|]; [| reflexivity].
        destruct (String.eqb_spec k k0); [contradiction | reflexivity]. }
      rewrite !assoc_assigned_first.
      destruct first_key as [[k0 v0]|]; [| exact (Hrest I)].
      destruct (String.eqb_spec k k0) as [E | Hne];
        [reflexivity | exact (Hrest Hne)]. }
    destruct (bool_decide (k ∈ keys) && cond k) eqn:Hc;
      [| symmetry; apply Hsame; reflexivity].
    apply andb_true_iff in Hc as [Hin Hck].
    assert (Hb : forall l, assoc k (assigned_first first_key l) = assoc k l).
    { intros l. rewrite assoc_assigned_first.
      destruct first_key as [[k0 v0]|] eqn:Hfirst; [| reflexivity].
      destruct (String.eqb_spec k k0) as [E | _]; [| reflexivity].
      destruct (first_key_skipped k0 v0 eq_refl) as [Hf _]. congruence. }
    rewrite !Hb, Hl1'. f_equal.
    destruct (String.eqb_spec k "name") as [-> | Hnn].
    + rewrite l1_named. reflexivity.
    + rewrite Hr, Hin, Hck, Hb. cbn [andb]. symmetry. apply spread_twice.
Qed.

Lemma patched002_props (entry : option json) (l : list (string * json)) :
  "__proto__" ∉ (own_props entry).*1 ->
  patched002 entry (plain l) = plain (props002 entry l).
Proof.
  intros Hproto. unfold patched002, props002.
  destruct (truthy entry); [| reflexivity].
  destruct (truthy (assoc "scripts" (own_props entry))).
  - rewrite obj_set_plain_key by discriminate.
    apply merge_rounds_props, Hproto.
  - apply merge_rounds_props, Hproto.
Qed.

Lemma patched001_props (entry : option json) (l : list (string * json)) :
  "__proto__" ∉ (own_props entry).*1 ->
  patched001 entry (plain l) = plain (props001 entry l).
Proof.
  intros Hproto. unfold patched001, props001.
  destruct (truthy entry); [| reflexivity].
  apply merge_rounds_props, Hproto.
Qed.

Lemma props002_again (entry : option json) (nm : json)
  (l1 : list (string * json)) :
  NoDup (own_props entry).*1 -> NoDup l1.*1 -> assoc "name" l1 = Some nm ->
  props002 entry (assoc_set "name" nm (props002 entry l1)) = props002 entry l1.
Proof.
  intros Hkeys Hnd Hname. unfold props002.
  destruct (truthy entry).
  - apply merge_again; try assumption.
    intros k0 v0 H.
    destruct (truthy (assoc "scripts" (own_props entry))); [| discriminate H].
    injection H as <- _. split; [reflexivity | discriminate].
  - rewrite assoc_set_same by exact Hname. reflexivity.
Qed.

Lemma props001_again (entry : option json) (nm : json)
  (l1 : list (string * json)) :
  NoDup (own_props entry).*1 -> NoDup l1.*1 -> assoc "name" l1 = Some nm ->
  props001 entry (assoc_set "name" nm (props001 entry l1)) = props001 entry l1.
Proof.
  intros Hkeys Hnd Hname. unfold props001.
  destruct (truthy entry).
  - apply merge_again; try assumption. discriminate.
  - rewrite assoc_set_same by exact Hname. reflexivity.
Qed.

Lemma patched_at (patch : option json -> object -> object) (fs : tree)
  (side : path) (backend appName : string) (props : list (string * json))
  (cfg : json) :
  fs !! side = Some (File (Json cfg)) ->
  patched patch fs side backend appName props
  = match cfg with
    | JNull => plain (assoc_set "name" (JStr appName) props)
    | _ => patch (assoc backend (own_props (Some cfg)))
                 (plain (assoc_set "name" (JStr appName) props))
    end.
Proof. intros H. unfold patched. rewrite H. destruct cfg; reflexivity. Qed.

(** What either patcher with a side-file does, given what its [try]
    block computes on property lists. *)
Lemma patched_again (patch : option json -> object -> object)
  (props_of : option json -> list (string * json) -> list (string * json))
  (fs fs2 : tree) (side : path) (backend appName : string)
  (props : list (string * json)) (cfg : json) :
  (forall l, patch (assoc backend (own_props (Some cfg))) (plain l)
             = plain (props_of (assoc backend (own_props (Some cfg))) l)) ->
  (forall l1, NoDup l1.*1 -> assoc "name" l1 = Some (JStr appName) ->
     props_of (assoc backend (own_props (Some cfg)))
       (assoc_set "name" (JStr appName)
          (props_of (assoc backend (own_props (Some cfg))) l1))
     = props_of (assoc backend (own_props (Some cfg))) l1) ->
  NoDup props.*1 ->
  fs !! side = Some (File (Json cfg)) ->
  fs2 !! side = Some (File (Json cfg)) ->
  let o := patched patch fs side backend appName props in
  patched patch fs2 side backend appName (own o) = o.
Proof.
  intros Hprops Hagain Hnd Hside Hside2 o. unfold o.
  rewrite (patched_at patch fs2 side _ _ _ cfg Hside2).
  rewrite (patched_at patch fs side _ _ _ cfg Hside).
  set (l1 := assoc_set "name" (JStr appName) props).
  assert (Hl1 : NoDup l1.*1) by (apply assoc_set_NoDup, Hnd).
  assert (Hname : assoc "name" l1 = Some (JStr appName))
    by apply assoc_set_eq.
  assert (Hnull : plain (assoc_set "name" (JStr appName) (own (plain l1)))
                  = plain l1).
  { cbn [own plain]. rewrite assoc_set_same by exact Hname. reflexivity. }
  assert (Hmerge : patch (assoc backend (own_props (Some cfg)))
                     (plain (assoc_set "name" (JStr appName)
                        (own (patch (assoc backend (own_props (Some cfg)))
                                    (plain l1)))))
                   = patch (assoc backend (own_props (Some cfg))) (plain l1)).
  { rewrite (Hprops l1). cbn [own plain]. rewrite Hprops.
    rewrite (Hagain l1 Hl1 Hname). reflexivity. }
  destruct cfg; first [exact Hnull | exact Hmerge].
Qed.

Lemma rerun_writes_the_same
  (update : path -> string -> string -> M unit)
  (patch : option json -> object -> object) (side_name : string)
  (target : path) (appName backend : string) (props : list (string * json))
  (cfg : json) (w : world) :
  let pkg := target ++ ["package.json"] in
  let side := target ++ [side_name] in
  (forall props v,
     files v !! target = Some Dir ->
     files v !! pkg = Some (File (Json (JObj props))) ->
     let o := patched patch (files v) side backend appName props in
     update target appName backend v
     = Return tt
         {| files := <[pkg := File (Json (JObj (own o)))]>
                       (if consumable (files v) side then delete side (files v)
                        else files v);
            stdin := stdin v;
            log := log v ++
                   (if existsSync (files v) side
                       && negb (consumable (files v) side)
                    then [Stdout ConfigNotApplied] else []);
            manifest := Obj o |}) ->
  side_name <> "package.json" ->
  (forall fs2, fs2 !! side = Some (File (Json cfg)) ->
     patched patch fs2 side backend appName
       (own (patched patch (files w) side backend appName props))
     = patched patch (files w) side backend appName props) ->
  files w !! target = Some Dir ->
  files w !! pkg = Some (File (Json (JObj props))) ->
  let once := update target appName backend w in
  let again := update target appName backend (resupplied (final once) side cfg) in
  exists props', written once pkg props' /\ written again pkg props'.
Proof.
  intros pkg side Hrun Hname Hagain Hdir Hpkg once again.
  set (o := patched patch (files w) side backend appName props) in *.
  exists (own o).
  assert (Hps : pkg <> side) by (apply path_snoc_ne; congruence).
  assert (Htp : target <> pkg) by (intros H; exact (path_snoc_self _ _ (eq_sym H))).
  assert (Hts : target <> side) by (intros H; exact (path_snoc_self _ _ (eq_sym H))).
  pose proof (Hrun props w Hdir Hpkg) as H1. cbv zeta in H1. fold o in H1.
  unfold again, once. rewrite H1. cbn [final].
  split.
  - split; [reflexivity |]. cbn [final files]. apply lookup_insert_eq.
  - match goal with
    | |- written (update _ _ _ ?v) _ _ => set (w2 := v)
    end.
    assert (Hdir2 : files w2 !! target = Some Dir).
    { unfold w2, resupplied. cbn [files with_files].
      rewrite lookup_insert_ne by congruence.
      rewrite lookup_insert_ne by congruence.
      destruct (consumable (files w) side);
        [rewrite lookup_delete_ne by congruence |]; exact Hdir. }
    assert (Hpkg2 : files w2 !! pkg = Some (File (Json (JObj (own o))))).
    { unfold w2, resupplied. cbn [files with_files].
      rewrite lookup_insert_ne by congruence. apply lookup_insert_eq. }
    assert (Hside2 : files w2 !! side = Some (File (Json cfg))).
    { unfold w2, resupplied. cbn [files with_files]. apply lookup_insert_eq. }
    pose proof (Hrun (own o) w2 Hdir2 Hpkg2) as H2. cbv zeta in H2.
    rewrite (Hagain (files w2) Hside2) in H2. fold o in H2.
    rewrite H2. split; [reflexivity |]. cbn [final files].
    apply lookup_insert_eq.
Qed.

Lemma patched003_again (backend appName : string)
  (props : list (string * json)) :
  patched003 backend appName (patched003 backend appName props)
  = patched003 backend appName props.
Proof.
  set (r := patched003 backend appName props).
  assert (Hother : forall k, k <> "scripts" -> k <> "dependencies" ->
            assoc k r
            = assoc k (assoc_set "version" (JStr "1.0.0")
                         (assoc_set "name" (JStr appName) props))).
  { intros k H1 H2. unfold r, patched003.
    rewrite assoc_set_ne by exact H1.
    match goal with
    | |- assoc k (if ?c then _ else _) = _ => destruct c
    end; [apply assoc_nested_set_ne, H2 | reflexivity]. }
  assert (Hname : assoc "name" r = Some (JStr appName)).
  { rewrite Hother by discriminate. rewrite assoc_set_ne by discriminate.
    apply assoc_set_eq. }
  assert (Hversion : assoc "version" r = Some (JStr "1.0.0")).
  { rewrite Hother by discriminate. apply assoc_set_eq. }
  assert (Hscripts : assoc "scripts" r
                     = Some (JObj (Part003.scripts_for backend))).
  { unfold r, patched003. apply assoc_set_eq. }
  unfold patched003 at 1. fold r.
  rewrite (assoc_set_same "name" _ r Hname).
  rewrite (assoc_set_same "version" _ r Hversion).
  assert (Hpin : (if truthy (assoc "dependencies" r)
                     && truthy (assoc "@posit/shiny-react"
                                  (own_props (assoc "dependencies" r)))
                  then nested_set "dependencies" "@posit/shiny-react"
                                  (JStr "^0.0.6") r
                  else r) = r).
  { destruct (truthy (assoc "dependencies" r)
              && truthy (assoc "@posit/shiny-react"
                           (own_props (assoc "dependencies" r)))) eqn:Hc;
      [| reflexivity].
    unfold nested_set.
    destruct (assoc "dependencies" r) as [[| | | | | deps]|] eqn:Hd;
      try reflexivity.
    cbn [truthy own_props andb] in Hc.
    assert (Hv : assoc "@posit/shiny-react" deps = Some (JStr "^0.0.6")).
    { revert Hd. unfold r, patched003.
      rewrite assoc_set_ne by discriminate.
      set (p2 := assoc_set "version" (JStr "1.0.0")
                   (assoc_set "name" (JStr appName) props)).
      destruct (truthy (assoc "dependencies" p2)
                && truthy (assoc "@posit/shiny-react"
                             (own_props (assoc "dependencies" p2)))) eqn:Hc0.
      - unfold nested_set.
        destruct (assoc "dependencies" p2) as [[| | | | | d0]|] eqn:Hd0;
          try (cbn in Hc0; rewrite ?andb_false_r in Hc0; discriminate Hc0).
        + cbn [truthy own_props andb] in Hc0.
          rewrite assoc_indexed_other in Hc0 by reflexivity.
          cbn in Hc0. rewrite andb_false_r in Hc0. discriminate Hc0.
        + cbn [truthy own_props andb] in Hc0.
          rewrite assoc_indexed_other in Hc0 by reflexivity.
          discriminate Hc0.
        + rewrite assoc_set_eq. intros [= <-]. apply assoc_set_eq.
      - intros Hd. rewrite Hd in Hc0. cbn [truthy own_props andb] in Hc0.
        congruence. }
    rewrite (assoc_set_same _ _ deps Hv).
    apply assoc_set_same. exact Hd. }
  rewrite Hpin. apply assoc_set_same, Hscripts.
Qed.

(** X14: patching is idempotent: on a manifest that is a JSON object
    with distinct keys, running the patcher a second time on its own
    result (with the consumed side-file put back, for the two scripts that
    have one) returns and writes the manifest the first run wrote.  (The
    entry of the side-file lists each key once and none is
    [__proto__].) *)
Theorem patching_again_changes_nothing
  (target : path) (appName backend : string) (props : list (string * json))
  (cfg : json) (w : world) :
  let pkg := target ++ ["package.json"] in
  let entry := assoc backend (own_props (Some cfg)) in
  files w !! target = Some Dir ->
  files w !! pkg = Some (File (Json (JObj props))) ->
  NoDup props.*1 ->
  NoDup (own_props entry).*1 ->
  "__proto__" ∉ (own_props entry).*1 ->
  let same (update : path -> string -> string -> M unit) (supply : world -> world) :=
    exists props',
      written (update target appName backend w) pkg props'
      /\ written (update target appName backend
                    (supply (final (update target appName backend w))))
                 pkg props' in
  (files w !! (target ++ ["package-custom.json"]) = Some (File (Json cfg)) ->
   same Part001.updatePackageJson
        (fun v => resupplied v (target ++ ["package-custom.json"]) cfg))
  /\ (files w !! (target ++ ["package-config.json"]) = Some (File (Json cfg)) ->
      same Part002.updatePackageJson
           (fun v => resupplied v (target ++ ["package-config.json"]) cfg))
  /\ same Part003.updatePackageJson (fun v => v).
Proof.
  intros pkg entry Hdir Hpkg Hnd Hkeys Hproto same. unfold same.
  split; [| split].
  - intros Hside.
    apply (rerun_writes_the_same Part001.updatePackageJson patched001
             "package-custom.json" target appName backend props cfg w);
      try assumption; try discriminate.
    + intros props0 v H1 H2. apply part001_patch; assumption.
    + intros fs2 Hside2.
      apply (patched_again patched001 props001 (files w) fs2 _ backend appName
               props cfg); try assumption.
      * intros l. apply patched001_props, Hproto.
      * intros l1 H1 H2. apply props001_again; assumption.
  - intros Hside.
    apply (rerun_writes_the_same Part002.updatePackageJson patched002
             "package-config.json" target appName backend props cfg w);
      try assumption; try discriminate.
    + intros props0 v H1 H2. apply part002_patch; assumption.
    + intros fs2 Hside2.
      apply (patched_again patched002 props002 (files w) fs2 _ backend appName
               props cfg); try assumption.
      * intros l. apply patched002_props, Hproto.
      * intros l1 H1 H2. apply props002_again; assumption.
  - exists (patched003 backend appName props).
    rewrite (part003_patch _ _ _ _ _ Hdir Hpkg). cbn [final].
    split.
    + split; [reflexivity |]. cbn [final files]. apply lookup_insert_eq.
    + rewrite (part003_patch _ _ _ (patched003 backend appName props)).
      * rewrite patched003_again. split; [reflexivity |]. cbn [final files].
        apply lookup_insert_eq.
      * cbn [files]. rewrite lookup_insert_ne; [exact Hdir |].
        intros H. exact (path_snoc_self _ _ H).
      * cbn [files]. apply lookup_insert_eq.
Qed.

Lemma patching_again_changes_nothing_witness :
  let w := Demo.boot (Demo.copied "package-config.json"
                        (Json Demo.package_config)) [] in
  let props := own_props (Some Demo.package_json) in
  let pkg := Demo.target ++ ["package.json"] in
  let side := Demo.target ++ ["package-config.json"] in
  let entry := assoc "r" (own_props (Some Demo.package_config)) in
  (files w !! Demo.target = Some Dir
   /\ files w !! pkg = Some (File (Json (JObj props)))
   /\ NoDup props.*1
   /\ NoDup (own_props entry).*1
   /\ ("__proto__" ∉ (own_props entry).*1)
   /\ files w !! side = Some (File (Json Demo.package_config)))
  /\ exists props',
       written (Part002.updatePackageJson Demo.target "demo" "r" w) pkg props'
       /\ written (Part002.updatePackageJson Demo.target "demo" "r"
                     (resupplied
                        (final (Part002.updatePackageJson Demo.target "demo"
                                  "r" w))
                        side Demo.package_config))
                  pkg props'.
Proof.
  intros w props pkg side entry.
  assert (H1 : files w !! Demo.target = Some Dir) by by_evaluation.
  assert (H2 : files w !! pkg = Some (File (Json (JObj props))))
    by by_evaluation.
  assert (H3 : NoDup props.*1)
    by (apply (bool_decide_eq_true_1 _); by_evaluation).
  assert (H4 : NoDup (own_props entry).*1)
    by (apply (bool_decide_eq_true_1 _); by_evaluation).
  assert (H5 : "__proto__" ∉ (own_props entry).*1)
    by (apply (bool_decide_eq_true_1 _); by_evaluation).
  assert (H6 : files w !! side = Some (File (Json Demo.package_config)))
    by by_evaluation.
  split; [exact (conj H1 (conj H2 (conj H3 (conj H4 (conj H5 H6))))) |].
  exact (proj1 (proj2 (patching_again_changes_nothing
                         Demo.target "demo" "r" props Demo.package_config w
                         H1 H2 H3 H4 H5)) H6).
Defined.

(** ** A whole run *)

Lemma ask_docs_002_asking (v : world) :
  Part002.ask_docs v
  = loop (asking "Include CLAUDE.md for LLM assistance? (Y/n): " EnterYesNo
                 yes_no) v.
Proof.
  unfold Part002.ask_docs. apply loop_ext. intros u.
  unfold asking, yes_no. run.
  destruct (stdin u) as [| l ls]; [reflexivity |]. cbn beta iota zeta.
  destruct (String.eqb (toLowerCase l) "n" || String.eqb (toLowerCase l) "no");
    [reflexivity |].
  destruct (String.eqb (toLowerCase l) "y" || String.eqb (toLowerCase l) "yes"
            || String.eqb (toLowerCase l) EmptyString); reflexivity.
Qed.

Lemma ask_docs_002_answered (v : world) (line : string) (rest : list string)
  (docs : bool) :
  stdin v = line :: rest -> yes_no line = Some docs ->
  Part002.ask_docs v
  = Return docs (after v rest
      [Prompt "Include CLAUDE.md for LLM assistance? (Y/n): "]).
Proof.
  intros Hin Hline. rewrite ask_docs_002_asking.
  apply (proj1 (loop_asking _ EnterYesNo yes_no [] v (Forall_nil_2 _))
           line rest docs Hline Hin).
Qed.

Lemma discovered_is_directory (h : host) (keep : string -> bool) (dir : path)
  (w w' : world) (ts : list template) (t : template) :
  Shared.getAvailableTemplates h keep dir w = Return ts w' ->
  t ∈ ts ->
  w' = w /\ files w !! (dir ++ [id t]) = Some Dir.
Proof.
  intros Hrun Ht.
  pose proof (getAvailableTemplates_Return _ _ _ _ _ _ Hrun) as Hdir.
  rewrite (getAvailableTemplates_spec _ _ _ _ Hdir) in Hrun.
  injection Hrun as <- <-. split; [reflexivity |].
  rewrite sort_Permutation in Ht.
  apply list_elem_of_In, in_map_iff in Ht as (e & <- & He).
  rewrite described_id.
  apply list_elem_of_In, list_elem_of_filter in He as [He _].
  apply listed_true in He as [He _]. exact He.
Qed.

Ltac in_list := repeat (first [constructor 1 | constructor 2]).

Lemma fresh_outside (fs : tree) (dest q : path) :
  fresh fs dest -> is_Some (fs !! q) -> ~ dest `prefix_of` q.
Proof.
  intros Hfresh [e He] [k ->]. rewrite Hfresh in He. discriminate He.
Qed.

Lemma skipBackends_for_cases (selected : string) :
  skipBackends_for selected = ["py"] \/ skipBackends_for selected = ["r"]
  \/ skipBackends_for selected = [].
Proof.
  unfold skipBackends_for.
  destruct (String.eqb selected "r"); [auto |].
  destruct (String.eqb selected "py"); auto.
Qed.

(** The patcher of the [package-config.json] script, seen from outside:
    on a target whose manifest is missing or a JSON object it returns,
    takes no input, and touches the manifest and the side-file only. *)
Lemma patch_frame_002 (target : path) (appName backend : string) (v : world) :
  files v !! target = Some Dir ->
  match files v !! (target ++ ["package.json"]) with
  | None | Some (File (Json (JObj _))) => True
  | _ => False
  end ->
  exists v',
    Part002.updatePackageJson target appName backend v = Return tt v'
    /\ stdin v' = stdin v
    /\ (forall q, q <> target ++ ["package.json"] ->
                  q <> target ++ ["package-config.json"] ->
                  files v' !! q = files v !! q)
    /\ (forall props,
          files v !! (target ++ ["package.json"])
          = Some (File (Json (JObj props))) ->
          files v !! (target ++ ["package-config.json"]) = None ->
          files v' !! (target ++ ["package.json"])
          = Some (File (Json (JObj (assoc_set "name" (JStr appName) props))))).
Proof.
  intros Hdir Hpkg.
  destruct (files v !! (target ++ ["package.json"]))
    as [[[s | [| | | | | props]] |] |] eqn:E; try contradiction.
  - rewrite (part002_patch _ _ _ _ _ Hdir E). cbv zeta.
    eexists. split; [reflexivity |]. cbn [files stdin].
    split; [reflexivity |]. split.
    + intros q Hq1 Hq2. rewrite lookup_insert_ne by congruence.
      destruct (consumable (files v) (target ++ ["package-config.json"]));
        [rewrite lookup_delete_ne by congruence |]; reflexivity.
    + intros props' [= <-] Hside. rewrite lookup_insert_eq.
      unfold patched. rewrite Hside. reflexivity.
  - exists v. split.
    + unfold Part002.updatePackageJson. run. unfold existsSync. rewrite E.
      destruct v; reflexivity.
    + split; [reflexivity |]. split; [reflexivity |].
      intros props' H. discriminate H.
Qed.

(** The documentation step for one file, seen from outside. *)
Lemma render_doc_frame (h : host) (templatesDir targetDir : path)
  (source dest pattern appName : string) (v : world) :
  files v !! targetDir = Some Dir ->
  files v !! (templatesDir ++ [source]) <> Some Dir ->
  files v !! (targetDir ++ [dest]) <> Some Dir ->
  exists v',
    render_doc h templatesDir targetDir source dest pattern appName v
    = Return tt v'
    /\ stdin v' = stdin v
    /\ (forall q, q <> targetDir ++ [dest] -> files v' !! q = files v !! q)
    /\ (forall c, files v !! (templatesDir ++ [source]) = Some (File c) ->
          files v' !! (targetDir ++ [dest])
          = Some (File (Text (replace_g pattern appName (utf8 h c))))).
Proof.
  intros Hdir Hsrc Hdest. unfold render_doc. run.
  unfold existsSync, readFileSync, writeFileSync.
  destruct (files v !! (templatesDir ++ [source])) as [[c |] |] eqn:E;
    [| contradiction |].
  - rewrite E. cbn [files stdin log manifest].
    rewrite dirname_snoc, Hdir.
    destruct (files v !! (targetDir ++ [dest])) as [[c' |] |] eqn:E';
      [| contradiction |];
      (eexists; split; [reflexivity |]; cbn [files stdin with_files];
       split; [reflexivity |]; split;
       [intros q Hq; apply lookup_insert_ne; congruence
       | intros c0 [= <-]; apply lookup_insert_eq]).
  - eexists. split; [reflexivity |]. cbn [files stdin].
    split; [reflexivity |]. split; [reflexivity |].
    intros c H. discriminate H.
Qed.

(** X15: a run of the [package-config.json] script with one argument, a
    fresh target whose parent exists, and three understood answers returns
    normally; it reads exactly the three answers, leaves every path outside
    the target as it was, and fills the target with the selected template
    less the skipped names and the backend directories not chosen, the
    manifest renamed (for a template without side-file), and, when asked
    for, the documentation file: the text of the shared template with
    every match of [hello-world-app] replaced as [replace] does it, the
    dollar patterns of the name expanded.  The menu must be printable:
    no description that throws on conversion. *)
Theorem a_valid_run_creates_the_project
  (h : host) (fuel : nat) (appName a1 a2 a3 : string) (rest : list string)
  (w w1 : world) (templates : list template) (t : template) (b : backend)
  (docs : bool) :
  let targetDir := resolve h appName in
  let templatesDir := dirname (dirname__ h) ++ ["templates"] in
  let templateDir := templatesDir ++ [id t] in
  let skips := skipBackends_for (backend_id b) in
  ready (Part002.getAvailableTemplates h) h appName w templates w1 ->
  stdin w = a1 :: a2 :: a3 :: rest ->
  out_of_range (choice a1 "1") (length templates) = false ->
  at_index templates (choice a1 "1") = Some t ->
  out_of_range (choice a2 "3") 3 = false ->
  at_index Part002.BACKENDS (choice a2 "3") = Some b ->
  yes_no a3 = Some docs ->
  wf (files w) ->
  fresh (files w) targetDir ->
  files w !! dirname targetDir = Some Dir ->
  shallow (files w) templateDir fuel ->
  ~ templateDir `prefix_of` targetDir ->
  match files w !! (templateDir ++ ["package.json"]) with
  | None | Some (File (Json (JObj _))) => True
  | _ => False
  end ->
  (docs = true ->
   files w !! (templatesDir ++ ["CLAUDE.md.template"]) <> Some Dir
   /\ files w !! (templateDir ++ ["CLAUDE.md"]) <> Some Dir
   /\ targetDir <> templatesDir ++ ["CLAUDE.md.template"]) ->
  let r := Part002.main h fuel [appName] w in
  outcome_of r = Returned
  /\ stdin (final r) = rest
  /\ files (final r) !! targetDir = Some Dir
  /\ (forall q, ~ targetDir `prefix_of` q -> files (final r) !! q = files w !! q)
  /\ (forall rel,
        rel ∉ [["package.json"]; ["package-config.json"]; ["CLAUDE.md"]] ->
        files (final r) !! (targetDir ++ rel)
        = if forallb (allowed (includes Part002.SKIP_PATHS) skips) rel
          then files w !! (templateDir ++ rel) else None)
  /\ (forall props,
        files w !! (templateDir ++ ["package.json"])
        = Some (File (Json (JObj props))) ->
        files w !! (templateDir ++ ["package-config.json"]) = None ->
        files (final r) !! (targetDir ++ ["package.json"])
        = Some (File (Json (JObj (assoc_set "name" (JStr appName) props)))))
  /\ (forall c,
        files w !! (templatesDir ++ ["CLAUDE.md.template"]) = Some (File c) ->
        files (final r) !! (targetDir ++ ["CLAUDE.md"])
        = if docs then Some (File (Text (replace_g "hello-world-app" appName
                                          (utf8 h c))))
          else files w !! (templateDir ++ ["CLAUDE.md"])).
Proof.
  intros targetDir templatesDir templateDir skips Hready Hin Hr1 Ht Hr2 Hb
    Hdocs Hwf Hfresh Hparent Hshallow Hapart Hmanifest Hdoc r.
  assert (Hw1 : w1 = w /\ files w !! templateDir = Some Dir).
  { destruct Hready as (_ & _ & Hts & _).
    apply (discovered_is_directory _ _ _ _ _ _ t Hts).
    unfold at_index in Ht. destruct (choice a1 "1") as [z|]; [| discriminate].
    destruct (z <? 0)%Z; [discriminate |].
    eapply list_elem_of_lookup_2. exact Ht. }
  destruct Hw1 as [-> Htdir].
  assert (Htemplates : files w !! templatesDir = Some Dir).
  { destruct Hready as (_ & _ & Hts & _).
    exact (getAvailableTemplates_Return _ _ _ _ _ _ Hts). }
  assert (Hdest : targetDir <> []).
  { intros E. specialize (Hfresh []). rewrite E in Hfresh, Hparent.
    cbn in Hfresh, Hparent. congruence. }
  assert (Hallowed : forall name,
            name ∈ ["package.json"; "package-config.json"; "CLAUDE.md"] ->
            allowed (includes Part002.SKIP_PATHS) skips name = true).
  { intros name Hname. unfold skips.
    destruct (skipBackends_for_cases (backend_id b)) as [-> | [-> | ->]];
      repeat (apply elem_of_cons in Hname as [-> | Hname]; [reflexivity |]);
      inversion Hname. }
  (* the run, step by step *)
  assert (Hrun : exists fs1 v3,
            r = Return tt v3
            /\ stdin v3 = rest
            /\ mirrors (includes Part002.SKIP_PATHS) skips (files w) fs1
                       templateDir targetDir
            /\ (forall q, q <> targetDir ++ ["package.json"] ->
                          q <> targetDir ++ ["package-config.json"] ->
                          q <> targetDir ++ ["CLAUDE.md"] ->
                          files v3 !! q = fs1 !! q)
            /\ (forall props,
                  fs1 !! (targetDir ++ ["package.json"])
                  = Some (File (Json (JObj props))) ->
                  fs1 !! (targetDir ++ ["package-config.json"]) = None ->
                  files v3 !! (targetDir ++ ["package.json"])
                  = Some (File (Json (JObj (assoc_set "name" (JStr appName)
                                                      props)))))
            /\ (forall c,
                  files w !! (templatesDir ++ ["CLAUDE.md.template"])
                  = Some (File c) ->
                  files v3 !! (targetDir ++ ["CLAUDE.md"])
                  = if docs
                    then Some (File (Text (replace_g "hello-world-app" appName
                                          (utf8 h c))))
                    else fs1 !! (targetDir ++ ["CLAUDE.md"]))).
  { unfold r, Part002.main. at_prompts Hready.
    rewrite Hin, Hr1, Ht. cbn [stdin files log manifest].
    change (length Part002.BACKENDS) with 3. rewrite Hr2, Hb.
    cbn [stdin files log manifest].
    match goal with
    | |- context [Part002.ask_docs ?v] =>
        rewrite (ask_docs_002_answered v a3 rest docs eq_refl Hdocs)
    end.
    cbn [after stdin files log manifest].
    match goal with
    | |- context [Part002.copyRecursive _ _ _ _ ?v] => set (v1 := v)
    end.
    destruct (copy_mirrors (includes Part002.SKIP_PATHS) skips fuel
                templateDir targetDir v1 Hwf (ex_intro _ _ Htdir) Hshallow
                Hfresh Hparent Hdest Hapart) as (fs1 & Hcopy & Hmirror).
    unfold Part002.copyRecursive. fold templatesDir targetDir.
    fold templateDir. fold skips. rewrite Hcopy.
    change (files v1) with (files w) in Hmirror.
    pose proof Hmirror as [Hout Hin1].
    assert (Hdir1 : fs1 !! targetDir = Some Dir).
    { specialize (Hin1 []). rewrite !app_nil_r in Hin1.
      rewrite Hin1. exact Htdir. }
    assert (Hrel1 : forall name,
              name ∈ ["package.json"; "package-config.json"; "CLAUDE.md"] ->
              fs1 !! (targetDir ++ [name]) = files w !! (templateDir ++ [name])).
    { intros name Hname. rewrite (Hin1 [name]). cbn [forallb].
      rewrite (Hallowed name Hname). reflexivity. }
    destruct (patch_frame_002 targetDir appName (backend_id b)
                (with_files v1 fs1)) as (v2 & Hpatch & Hstdin2 & Hframe2 & Hname2).
    { exact Hdir1. }
    { cbn [files with_files]. rewrite Hrel1 by in_list. exact Hmanifest. }
    rewrite Hpatch. cbn [files with_files stdin] in Hstdin2, Hframe2, Hname2.
    assert (Hdir2 : files v2 !! targetDir = Some Dir).
    { rewrite Hframe2; [exact Hdir1 | |];
        intros E; exact (path_snoc_self _ _ (eq_sym E)). }
    assert (Hclaude2 : files v2 !! (targetDir ++ ["CLAUDE.md"])
                       = fs1 !! (targetDir ++ ["CLAUDE.md"]))
      by (apply Hframe2; apply path_snoc_ne; discriminate).
    destruct docs.
    - destruct (Hdoc eq_refl) as (Hd1 & Hd2 & Hd3).
      assert (Hnp : ~ targetDir `prefix_of` (templatesDir ++ ["CLAUDE.md.template"])).
      { intros [k Hk].
        induction k as [| x k' _] using rev_ind.
        - rewrite app_nil_r in Hk. congruence.
        - rewrite app_assoc in Hk. apply app_inj_tail in Hk as [Hk _].
          pose proof (Hfresh k') as Hf. rewrite <- Hk, Htemplates in Hf.
          discriminate Hf. }
      assert (Htpl2 : files v2 !! (templatesDir ++ ["CLAUDE.md.template"])
                      = files w !! (templatesDir ++ ["CLAUDE.md.template"])).
      { rewrite Hframe2.
        - apply Hout, Hnp.
        - intros E. apply Hnp. rewrite E. apply prefix_app_r. reflexivity.
        - intros E. apply Hnp. rewrite E. apply prefix_app_r. reflexivity. }
      destruct (render_doc_frame h templatesDir targetDir "CLAUDE.md.template"
                  "CLAUDE.md" "hello-world-app" appName v2)
        as (v3 & Hdocrun & Hstdin3 & Hframe3 & Hwritten3).
      { exact Hdir2. }
      { rewrite Htpl2. exact Hd1. }
      { rewrite Hclaude2, Hrel1 by in_list. exact Hd2. }
      unfold when. rewrite Hdocrun. cbn [files stdin log manifest].
      exists fs1. eexists. split; [reflexivity |]. cbn [files stdin].
      split; [rewrite ?Hstdin3, Hstdin2; reflexivity |].
      split; [exact Hmirror |]. split; [| split].
      + intros q Hq1 Hq2 Hq3. rewrite Hframe3 by exact Hq3.
        apply Hframe2; assumption.
      + intros props Hp Hs.
        rewrite Hframe3 by (apply path_snoc_ne; discriminate).
        apply Hname2; assumption.
      + intros c Hc. apply Hwritten3. rewrite Htpl2. exact Hc.
    - unfold when, ret. cbn [files stdin log manifest].
      exists fs1. eexists. split; [reflexivity |]. cbn [files stdin].
      split; [rewrite ?Hstdin3, Hstdin2; reflexivity |].
      split; [exact Hmirror |]. split; [| split].
      + intros q Hq1 Hq2 Hq3. apply Hframe2; assumption.
      + intros props Hp Hs. apply Hname2; assumption.
      + intros c Hc. exact Hclaude2. }
  destruct Hrun as (fs1 & v3 & -> & Hstdin & [Hout Hin1] & Hframe & Hname & Hclaude).
  cbn [outcome_of final].
  split; [reflexivity |]. split; [exact Hstdin |].
  assert (Hspecial : forall q name, ~ targetDir `prefix_of` q ->
            q <> targetDir ++ [name]).
  { intros q name Hq ->. apply Hq, prefix_app_r. reflexivity. }
  split; [| split; [| split; [| split]]].
  - rewrite Hframe by (intros E; exact (path_snoc_self _ _ (eq_sym E))).
    specialize (Hin1 []). rewrite !app_nil_r in Hin1. rewrite Hin1.
    destruct Hready as (_ & _ & Hts & _). exact Htdir.
  - intros q Hq. rewrite Hframe by (apply Hspecial, Hq). apply Hout, Hq.
  - intros rel Hrel. rewrite Hframe.
    + apply Hin1.
    + intros E. apply app_inv_head in E. apply Hrel. rewrite E. in_list.
    + intros E. apply app_inv_head in E. apply Hrel. rewrite E. in_list.
    + intros E. apply app_inv_head in E. apply Hrel. rewrite E. in_list.
  - intros props Hp Hs. apply Hname.
    + rewrite (Hin1 ["package.json"]). cbn [forallb].
      rewrite Hallowed by in_list. exact Hp.
    + rewrite (Hin1 ["package-config.json"]). cbn [forallb].
      rewrite Hallowed by in_list. exact Hs.
  - intros c Hc. rewrite (Hclaude c Hc). destruct docs; [reflexivity |].
    rewrite (Hin1 ["CLAUDE.md"]). cbn [forallb].
    rewrite Hallowed by in_list. reflexivity.
Qed.

Lemma locate_templates_frame (h : host) (w w0 : world) (p : path) :
  Part003.locate_templates h w = Return p w0 ->
  files w0 = files w /\ stdin w0 = stdin w.
Proof.
  unfold Part003.locate_templates. run.
  destruct (require_resolve h) as [resolved|]; cbn [files stdin log manifest].
  - destruct (existsSync (files w) (dirname (dirname resolved) ++ ["templates"]));
      cbn [negb files stdin log manifest].
    + intros [= <- <-]. auto.
    + destruct (existsSync (files w)
                  (dirname (dirname (dirname__ h)) ++ ["templates"]));
        cbn [files stdin log manifest]; [| discriminate].
      intros [= <- <-]. auto.
  - destruct (existsSync (files w)
                (dirname (dirname__ h) ++ ["node_modules"; "@posit"; "shiny-react"]));
      cbn [files stdin log manifest]; [| discriminate].
    destruct (existsSync (files w)
                ((dirname (dirname__ h) ++ ["node_modules"; "@posit"; "shiny-react"])
                 ++ ["templates"])); cbn [negb files stdin log manifest].
    + intros [= <- <-]. auto.
    + destruct (existsSync (files w)
                  (dirname (dirname (dirname__ h)) ++ ["templates"]));
        cbn [files stdin log manifest]; [| discriminate].
      intros [= <- <-]. auto.
Qed.

(** The patcher of the oldest script, seen from outside. *)
Lemma patch_frame_003 (target : path) (appName backend : string) (v : world) :
  files v !! target = Some Dir ->
  match files v !! (target ++ ["package.json"]) with
  | None | Some (File (Json (JObj _))) => True
  | _ => False
  end ->
  exists v',
    Part003.updatePackageJson target appName backend v = Return tt v'
    /\ stdin v' = stdin v
    /\ (forall q, q <> target ++ ["package.json"] ->
                  files v' !! q = files v !! q)
    /\ (forall props,
          files v !! (target ++ ["package.json"])
          = Some (File (Json (JObj props))) ->
          files v' !! (target ++ ["package.json"])
          = Some (File (Json (JObj (patched003 backend appName props))))).
Proof.
  intros Hdir Hpkg.
  destruct (files v !! (target ++ ["package.json"]))
    as [[[s | [| | | | | props]] |] |] eqn:E; try contradiction.
  - rewrite (part003_patch _ _ _ _ _ Hdir E).
    eexists. split; [reflexivity |]. cbn [files stdin].
    split; [reflexivity |]. split.
    + intros q Hq. apply lookup_insert_ne. congruence.
    + intros props' [= <-]. apply lookup_insert_eq.
  - exists v. split.
    + unfold Part003.updatePackageJson. run. unfold existsSync. rewrite E.
      destruct v; reflexivity.
    + split; [reflexivity |]. split; [reflexivity |].
      intros props' H. discriminate H.
Qed.

(** X16: the same for the oldest script: the templates directory is the
    one located at start-up, the menu is printable, the documentation is
    included only for the answers y and yes (its text computed by the same
    replacement), and the manifest is the patched one (name, dependency
    pin, scripts of the chosen backend). *)
Theorem a_valid_run_of_the_oldest_script_creates_the_project
  (h : host) (fuel : nat) (appName a1 a2 a3 : string) (rest : list string)
  (w w0 w1 : world) (templatesDir : path) (templates : list template)
  (t : template) (b : backend) :
  let targetDir := resolve h appName in
  let templateDir := templatesDir ++ [id t] in
  let skips := skipBackends_for (backend_id b) in
  let docs := String.eqb (toLowerCase a3) "y"
              || String.eqb (toLowerCase a3) "yes" in
  Part003.locate_templates h w = Return templatesDir w0 ->
  Part003.getAvailableTemplates h templatesDir w0 = Return templates w1 ->
  shown templates ->
  stdin w = a1 :: a2 :: a3 :: rest ->
  out_of_range (choice a1 "1") (length templates) = false ->
  at_index templates (choice a1 "1") = Some t ->
  out_of_range (choice a2 "3") 3 = false ->
  at_index Part003.BACKENDS (choice a2 "3") = Some b ->
  wf (files w) ->
  fresh (files w) targetDir ->
  files w !! dirname targetDir = Some Dir ->
  shallow (files w) templateDir fuel ->
  ~ templateDir `prefix_of` targetDir ->
  match files w !! (templateDir ++ ["package.json"]) with
  | None | Some (File (Json (JObj _))) => True
  | _ => False
  end ->
  (docs = true ->
   files w !! (templatesDir ++ ["CLAUDE.md.template"]) <> Some Dir
   /\ files w !! (templateDir ++ ["CLAUDE.md"]) <> Some Dir
   /\ targetDir <> templatesDir ++ ["CLAUDE.md.template"]) ->
  let r := Part003.main h fuel [appName] w in
  outcome_of r = Returned
  /\ stdin (final r) = rest
  /\ files (final r) !! targetDir = Some Dir
  /\ (forall q, ~ targetDir `prefix_of` q -> files (final r) !! q = files w !! q)
  /\ (forall rel,
        rel ∉ [["package.json"]; ["CLAUDE.md"]] ->
        files (final r) !! (targetDir ++ rel)
        = if forallb (allowed Part003.skipped skips) rel
          then files w !! (templateDir ++ rel) else None)
  /\ (forall props,
        files w !! (templateDir ++ ["package.json"])
        = Some (File (Json (JObj props))) ->
        files (final r) !! (targetDir ++ ["package.json"])
        = Some (File (Json (JObj (patched003 (backend_id b) appName props)))))
  /\ (forall c,
        files w !! (templatesDir ++ ["CLAUDE.md.template"]) = Some (File c) ->
        files (final r) !! (targetDir ++ ["CLAUDE.md"])
        = if docs then Some (File (Text (replace_g "hello-world-app" appName
                                          (utf8 h c))))
          else files w !! (templateDir ++ ["CLAUDE.md"])).
Proof.
  intros targetDir templateDir skips docs Hloc Hts Hshown Hin Hr1 Ht Hr2 Hb
    Hwf Hfresh Hparent Hshallow Hapart Hmanifest Hdoc r.
  destruct (locate_templates_frame _ _ _ _ Hloc) as [Hfiles0 Hstdin0].
  assert (Hw1 : w1 = w0 /\ files w0 !! templateDir = Some Dir).
  { apply (discovered_is_directory _ _ _ _ _ _ t Hts).
    unfold at_index in Ht. destruct (choice a1 "1") as [z|]; [| discriminate].
    destruct (z <? 0)%Z; [discriminate |].
    eapply list_elem_of_lookup_2. exact Ht. }
  destruct Hw1 as [-> Htdir]. rewrite Hfiles0 in Htdir.
  assert (Htemplates : files w !! templatesDir = Some Dir).
  { rewrite <- Hfiles0. exact (getAvailableTemplates_Return _ _ _ _ _ _ Hts). }
  assert (Hfree : existsSync (files w) targetDir = false).
  { unfold existsSync. pose proof (Hfresh []) as Hf.
    rewrite app_nil_r in Hf. rewrite Hf. reflexivity. }
  assert (Hdest : targetDir <> []).
  { intros E. specialize (Hfresh []). rewrite E in Hfresh, Hparent.
    cbn in Hfresh, Hparent. congruence. }
  assert (Hallowed : forall name,
            name ∈ ["package.json"; "CLAUDE.md"] ->
            allowed Part003.skipped skips name = true).
  { intros name Hname. unfold skips.
    destruct (skipBackends_for_cases (backend_id b)) as [-> | [-> | ->]];
      repeat (apply elem_of_cons in Hname as [-> | Hname]; [reflexivity |]);
      inversion Hname. }
  assert (Hrun : exists fs1 v3,
            r = Return tt v3
            /\ stdin v3 = rest
            /\ mirrors Part003.skipped skips (files w) fs1
                       templateDir targetDir
            /\ (forall q, q <> targetDir ++ ["package.json"] ->
                          q <> targetDir ++ ["CLAUDE.md"] ->
                          files v3 !! q = fs1 !! q)
            /\ (forall props,
                  fs1 !! (targetDir ++ ["package.json"])
                  = Some (File (Json (JObj props))) ->
                  files v3 !! (targetDir ++ ["package.json"])
                  = Some (File (Json (JObj (patched003 (backend_id b) appName
                                                       props)))))
            /\ (forall c,
                  files w !! (templatesDir ++ ["CLAUDE.md.template"])
                  = Some (File c) ->
                  files v3 !! (targetDir ++ ["CLAUDE.md"])
                  = if docs
                    then Some (File (Text (replace_g "hello-world-app" appName
                                          (utf8 h c))))
                    else fs1 !! (targetDir ++ ["CLAUDE.md"]))).
  { unfold r, Part003.main. run. fold targetDir. rewrite Hfree, Hloc, Hts.
    cbn [stdin files log manifest].
    rewrite (showTemplates_shown _ _ Hshown). cbn [stdin files log manifest].
    rewrite Hstdin0, Hin, Hr1, Ht. cbn [stdin files log manifest].
    change (length Part003.BACKENDS) with 3. rewrite Hr2, Hb.
    cbn [stdin files log manifest]. fold docs.
    match goal with
    | |- context [Part003.copyRecursive _ _ _ _ ?v] => set (v1 := v)
    end.
    assert (Hv1 : files v1 = files w) by exact Hfiles0.
    destruct (copy_mirrors Part003.skipped skips fuel
                templateDir targetDir v1) as (fs1 & Hcopy & Hmirror);
      try (rewrite Hv1; assumption); try assumption.
    { rewrite Hv1, Htdir. eauto. }
    unfold Part003.copyRecursive. fold templateDir. fold skips. rewrite Hcopy.
    rewrite Hv1 in Hmirror.
    pose proof Hmirror as [Hout Hin1].
    assert (Hdir1 : fs1 !! targetDir = Some Dir).
    { specialize (Hin1 []). rewrite !app_nil_r in Hin1.
      rewrite Hin1. exact Htdir. }
    assert (Hrel1 : forall name,
              name ∈ ["package.json"; "CLAUDE.md"] ->
              fs1 !! (targetDir ++ [name]) = files w !! (templateDir ++ [name])).
    { intros name Hname. rewrite (Hin1 [name]). cbn [forallb].
      rewrite (Hallowed name Hname). reflexivity. }
    destruct (patch_frame_003 targetDir appName (backend_id b)
                (with_files v1 fs1)) as (v2 & Hpatch & Hstdin2 & Hframe2 & Hname2).
    { exact Hdir1. }
    { cbn [files with_files]. rewrite Hrel1 by in_list. exact Hmanifest. }
    rewrite Hpatch. cbn [files with_files stdin] in Hstdin2, Hframe2, Hname2.
    assert (Hdir2 : files v2 !! targetDir = Some Dir).
    { rewrite Hframe2; [exact Hdir1 |].
      intros E; exact (path_snoc_self _ _ (eq_sym E)). }
    assert (Hclaude2 : files v2 !! (targetDir ++ ["CLAUDE.md"])
                       = fs1 !! (targetDir ++ ["CLAUDE.md"]))
      by (apply Hframe2; apply path_snoc_ne; discriminate).
    destruct docs eqn:Edocs.
    - destruct (Hdoc eq_refl) as (Hd1 & Hd2 & Hd3).
      assert (Hnp : ~ targetDir `prefix_of` (templatesDir ++ ["CLAUDE.md.template"])).
      { intros [k Hk].
        induction k as [| x k' _] using rev_ind.
        - rewrite app_nil_r in Hk. congruence.
        - rewrite app_assoc in Hk. apply app_inj_tail in Hk as [Hk _].
          pose proof (Hfresh k') as Hf. rewrite <- Hk, Htemplates in Hf.
          discriminate Hf. }
      assert (Htpl2 : files v2 !! (templatesDir ++ ["CLAUDE.md.template"])
                      = files w !! (templatesDir ++ ["CLAUDE.md.template"])).
      { rewrite Hframe2.
        - apply Hout, Hnp.
        - intros E. apply Hnp. rewrite E. apply prefix_app_r. reflexivity. }
      destruct (render_doc_frame h templatesDir targetDir "CLAUDE.md.template"
                  "CLAUDE.md" "hello-world-app" appName v2)
        as (v3 & Hdocrun & Hstdin3 & Hframe3 & Hwritten3).
      { exact Hdir2. }
      { rewrite Htpl2. exact Hd1. }
      { rewrite Hclaude2, Hrel1 by in_list. exact Hd2. }
      unfold when. rewrite Hdocrun. cbn [files stdin log manifest].
      exists fs1. eexists. split; [reflexivity |]. cbn [files stdin].
      split; [rewrite ?Hstdin3, Hstdin2; reflexivity |].
      split; [exact Hmirror |]. split; [| split].
      + intros q Hq1 Hq3. rewrite Hframe3 by exact Hq3.
        apply Hframe2; assumption.
      + intros props Hp.
        rewrite Hframe3 by (apply path_snoc_ne; discriminate).
        apply Hname2; assumption.
      + intros c Hc. apply Hwritten3. rewrite Htpl2. exact Hc.
    - unfold when, ret. cbn [files stdin log manifest].
      exists fs1. eexists. split; [reflexivity |]. cbn [files stdin].
      split; [rewrite ?Hstdin3, Hstdin2; reflexivity |].
      split; [exact Hmirror |]. split; [| split].
      + intros q Hq1 Hq3. apply Hframe2; assumption.
      + intros props Hp. apply Hname2; assumption.
      + intros c Hc. exact Hclaude2. }
  destruct Hrun as (fs1 & v3 & -> & Hstdin & [Hout Hin1] & Hframe & Hname & Hclaude).
  cbn [outcome_of final].
  split; [reflexivity |]. split; [exact Hstdin |].
  assert (Hspecial : forall q name, ~ targetDir `prefix_of` q ->
            q <> targetDir ++ [name]).
  { intros q name Hq ->. apply Hq, prefix_app_r. reflexivity. }
  split; [| split; [| split; [| split]]].
  - rewrite Hframe by (intros E; exact (path_snoc_self _ _ (eq_sym E))).
    specialize (Hin1 []). rewrite !app_nil_r in Hin1. rewrite Hin1.
    exact Htdir.
  - intros q Hq. rewrite Hframe by (apply Hspecial, Hq). apply Hout, Hq.
  - intros rel Hrel. rewrite Hframe.
    + apply Hin1.
    + intros E. apply app_inv_head in E. apply Hrel. rewrite E. in_list.
    + intros E. apply app_inv_head in E. apply Hrel. rewrite E. in_list.
  - intros props Hp. apply Hname.
    rewrite (Hin1 ["package.json"]). cbn [forallb].
    rewrite Hallowed by in_list. exact Hp.
  - intros c Hc. rewrite (Hclaude c Hc). destruct docs; [reflexivity |].
    rewrite (Hin1 ["CLAUDE.md"]). cbn [forallb].
    rewrite Hallowed by in_list. reflexivity.
Qed.

Lemma ask_docs_001_answered (v : world) (line : string) (rest : list string)
  (docs : bool) :
  stdin v = line :: rest -> yes_no_menu line = Some docs ->
  Part001.ask_docs v
  = Return docs (after v rest [Prompt "Choose an option (1-2) [1]: "]).
Proof.
  intros Hin Hline.
  assert (Hloop : Part001.ask_docs v
                  = loop (asking "Choose an option (1-2) [1]: "
                                 (SelectBetween 2) yes_no_menu) v).
  { unfold Part001.ask_docs. apply loop_ext. intros u.
    unfold asking, yes_no_menu. run.
    destruct (stdin u) as [| l ls]; [reflexivity |]. cbn beta iota.
    destruct (choice l "1") as [[| [p|p|] | p] |]; reflexivity. }
  rewrite Hloop.
  apply (proj1 (loop_asking _ (SelectBetween 2) yes_no_menu [] v
                  (Forall_nil_2 _)) line rest docs Hline Hin).
Qed.

Lemma ask_package_manager_answered (v : world) (line : string)
  (rest : list string) (m : option string) :
  stdin v = line :: rest -> manager_of line = Some m ->
  Part001.ask_package_manager v
  = Return m (after v rest [Prompt "Choose package manager (1-3) [1]: "]).
Proof.
  intros Hin Hline.
  assert (Hloop : Part001.ask_package_manager v
                  = loop (asking "Choose package manager (1-3) [1]: "
                                 (SelectBetween 3) manager_of) v).
  { unfold Part001.ask_package_manager. apply loop_ext. intros u.
    unfold asking, manager_of. run.
    destruct (stdin u) as [| l ls]; [reflexivity |]. cbn beta iota.
    destruct (choice l "1") as [i|]; [| reflexivity].
    destruct ((0 <=? i)%Z && (i <=? 2)%Z); reflexivity. }
  rewrite Hloop.
  apply (proj1 (loop_asking _ (SelectBetween 3) manager_of [] v
                  (Forall_nil_2 _)) line rest m Hline Hin).
Qed.

(** The patcher of the ES-module script, seen from outside. *)
Lemma patch_frame_001 (target : path) (appName backend : string) (v : world) :
  files v !! target = Some Dir ->
  match files v !! (target ++ ["package.json"]) with
  | None | Some (File (Json (JObj _))) => True
  | _ => False
  end ->
  exists v',
    Part001.updatePackageJson target appName backend v = Return tt v'
    /\ stdin v' = stdin v
    /\ (forall q, q <> target ++ ["package.json"] ->
                  q <> target ++ ["package-custom.json"] ->
                  files v' !! q = files v !! q)
    /\ (forall props,
          files v !! (target ++ ["package.json"])
          = Some (File (Json (JObj props))) ->
          files v !! (target ++ ["package-custom.json"]) = None ->
          files v' !! (target ++ ["package.json"])
          = Some (File (Json (JObj (assoc_set "name" (JStr appName) props))))).
Proof.
  intros Hdir Hpkg.
  destruct (files v !! (target ++ ["package.json"]))
    as [[[s | [| | | | | props]] |] |] eqn:E; try contradiction.
  - rewrite (part001_patch _ _ _ _ _ Hdir E). cbv zeta.
    eexists. split; [reflexivity |]. cbn [files stdin].
    split; [reflexivity |]. split.
    + intros q Hq1 Hq2. rewrite lookup_insert_ne by congruence.
      destruct (consumable (files v) (target ++ ["package-custom.json"]));
        [rewrite lookup_delete_ne by congruence |]; reflexivity.
    + intros props' [= <-] Hside. rewrite lookup_insert_eq.
      unfold patched. rewrite Hside. reflexivity.
  - exists v. split.
    + unfold Part001.updatePackageJson. run. unfold existsSync. rewrite E.
      destruct v; reflexivity.
    + split; [reflexivity |]. split; [reflexivity |].
      intros props' H. discriminate H.
Qed.

(** A file of the shared templates directory copied as it is, when it
    exists: the second documentation step of the ES-module script. *)
Lemma copy_doc_frame (templatesDir targetDir : path) (name : string)
  (v : world) :
  files v !! targetDir = Some Dir ->
  files v !! (templatesDir ++ [name]) <> Some Dir ->
  files v !! (targetDir ++ [name]) <> Some Dir ->
  exists v',
    (documented <- exists_ (templatesDir ++ [name]) ;;
     if documented then
       writing (fun fs => copyFileSync fs (templatesDir ++ [name])
                                       (targetDir ++ [name]))
     else console_log (DocTemplateMissing name)) v
    = Return tt v'
    /\ stdin v' = stdin v
    /\ (forall q, q <> targetDir ++ [name] -> files v' !! q = files v !! q)
    /\ (forall c, files v !! (templatesDir ++ [name]) = Some (File c) ->
          files v' !! (targetDir ++ [name]) = Some (File c)).
Proof.
  intros Hdir Hsrc Hdest. run.
  unfold existsSync, copyFileSync, readFileSync, writeFileSync.
  destruct (files v !! (templatesDir ++ [name])) as [[c |] |] eqn:E;
    [| contradiction |].
  - cbn [files stdin log manifest]. rewrite ?E, dirname_snoc, Hdir.
    destruct (files v !! (targetDir ++ [name])) as [[c' |] |] eqn:E';
      [| contradiction |];
      (eexists; split; [reflexivity |]; cbn [files stdin with_files];
       split; [reflexivity |]; split;
       [intros q Hq; apply lookup_insert_ne; congruence
       | intros c0 [= <-]; apply lookup_insert_eq]).
  - eexists. split; [reflexivity |]. cbn [files stdin].
    split; [reflexivity |]. split; [reflexivity |].
    intros c H. discriminate H.
Qed.

Lemma not_under_fresh (fs : tree) (dest dir : path) (name : string) :
  fresh fs dest -> fs !! dir = Some Dir -> dest <> dir ++ [name] ->
  ~ dest `prefix_of` (dir ++ [name]).
Proof.
  intros Hfresh Hdir Hne [k Hk].
  induction k as [| x k' _] using rev_ind.
  - rewrite app_nil_r in Hk. congruence.
  - rewrite app_assoc in Hk. apply app_inj_tail in Hk as [Hk _].
    pose proof (Hfresh k') as Hf. rewrite <- Hk, Hdir in Hf.
    discriminate Hf.
Qed.

(** X17: the same for the ES-module script: the package-manager menu is
    asked only for the Python backend, the manifest side-file is
    [package-custom.json], and two documentation files are written when
    asked for, one with every match of [{project_name}] replaced as
    [replace] does it and one copied as it is. *)
Theorem a_valid_run_of_the_module_script_creates_the_project
  (h : host) (fuel : nat) (appName a1 a2 a3 : string) (pm rest : list string)
  (w w1 : world) (templates : list template) (t : template) (b : backend)
  (docs : bool) :
  let targetDir := resolve h appName in
  let templatesDir := dirname (dirname__ h) ++ ["templates"] in
  let templateDir := templatesDir ++ [id t] in
  let skips := skipBackends_for (backend_id b) in
  ready (Part001.getAvailableTemplates h) h appName w templates w1 ->
  stdin w = a1 :: a2 :: pm ++ a3 :: rest ->
  out_of_range (choice a1 "2") (length templates) = false ->
  at_index templates (choice a1 "2") = Some t ->
  out_of_range (choice a2 "3") 2 = false ->
  at_index Part001.BACKENDS (choice a2 "3") = Some b ->
  (if String.eqb (backend_id b) "py"
   then exists line, pm = [line] /\ is_Some (manager_of line)
   else pm = []) ->
  yes_no_menu a3 = Some docs ->
  wf (files w) ->
  fresh (files w) targetDir ->
  files w !! dirname targetDir = Some Dir ->
  shallow (files w) templateDir fuel ->
  ~ templateDir `prefix_of` targetDir ->
  match files w !! (templateDir ++ ["package.json"]) with
  | None | Some (File (Json (JObj _))) => True
  | _ => False
  end ->
  (docs = true ->
   forall name, name ∈ ["CLAUDE.md.template"; "SHINY-REACT.md"] ->
     files w !! (templatesDir ++ [name]) <> Some Dir
     /\ targetDir <> templatesDir ++ [name]) ->
  (docs = true ->
   forall name, name ∈ ["CLAUDE.md"; "SHINY-REACT.md"] ->
     files w !! (templateDir ++ [name]) <> Some Dir) ->
  let r := Part001.main h fuel [appName] w in
  outcome_of r = Returned
  /\ stdin (final r) = rest
  /\ files (final r) !! targetDir = Some Dir
  /\ (forall q, ~ targetDir `prefix_of` q -> files (final r) !! q = files w !! q)
  /\ (forall rel,
        rel ∉ [["package.json"]; ["package-custom.json"]; ["CLAUDE.md"];
               ["SHINY-REACT.md"]] ->
        files (final r) !! (targetDir ++ rel)
        = if forallb (allowed (includes Part001.SKIP_PATHS) skips) rel
          then files w !! (templateDir ++ rel) else None)
  /\ (forall props,
        files w !! (templateDir ++ ["package.json"])
        = Some (File (Json (JObj props))) ->
        files w !! (templateDir ++ ["package-custom.json"]) = None ->
        files (final r) !! (targetDir ++ ["package.json"])
        = Some (File (Json (JObj (assoc_set "name" (JStr appName) props)))))
  /\ (forall c,
        files w !! (templatesDir ++ ["CLAUDE.md.template"]) = Some (File c) ->
        files (final r) !! (targetDir ++ ["CLAUDE.md"])
        = if docs then Some (File (Text (replace_g "{project_name}" appName
                                          (utf8 h c))))
          else files w !! (templateDir ++ ["CLAUDE.md"]))
  /\ (forall c,
        files w !! (templatesDir ++ ["SHINY-REACT.md"]) = Some (File c) ->
        files (final r) !! (targetDir ++ ["SHINY-REACT.md"])
        = if docs then Some (File c)
          else files w !! (templateDir ++ ["SHINY-REACT.md"])).
Proof.
  intros targetDir templatesDir templateDir skips Hready Hin Hr1 Ht Hr2 Hb
    Hpm Hdocs Hwf Hfresh Hparent Hshallow Hapart Hmanifest Hsrc Hdst r.
  assert (Hw1 : w1 = w /\ files w !! templateDir = Some Dir).
  { destruct Hready as (_ & _ & Hts & _).
    apply (discovered_is_directory _ _ _ _ _ _ t Hts).
    unfold at_index in Ht. destruct (choice a1 "2") as [z|]; [| discriminate].
    destruct (z <? 0)%Z; [discriminate |].
    eapply list_elem_of_lookup_2. exact Ht. }
  destruct Hw1 as [-> Htdir].
  assert (Htemplates : files w !! templatesDir = Some Dir).
  { destruct Hready as (_ & _ & Hts & _).
    exact (getAvailableTemplates_Return _ _ _ _ _ _ Hts). }
  assert (Hdest : targetDir <> []).
  { intros E. specialize (Hfresh []). rewrite E in Hfresh, Hparent.
    cbn in Hfresh, Hparent. congruence. }
  assert (Hallowed : forall name,
            name ∈ ["package.json"; "package-custom.json"; "CLAUDE.md";
                    "SHINY-REACT.md"] ->
            allowed (includes Part001.SKIP_PATHS) skips name = true).
  { intros name Hname. unfold skips.
    destruct (skipBackends_for_cases (backend_id b)) as [-> | [-> | ->]];
      repeat (apply elem_of_cons in Hname as [-> | Hname]; [reflexivity |]);
      inversion Hname. }
  assert (Hrun : exists fs1 v3,
            r = Return tt v3
            /\ stdin v3 = rest
            /\ mirrors (includes Part001.SKIP_PATHS) skips (files w) fs1
                       templateDir targetDir
            /\ (forall q, q <> targetDir ++ ["package.json"] ->
                          q <> targetDir ++ ["package-custom.json"] ->
                          q <> targetDir ++ ["CLAUDE.md"] ->
                          q <> targetDir ++ ["SHINY-REACT.md"] ->
                          files v3 !! q = fs1 !! q)
            /\ (forall props,
                  fs1 !! (targetDir ++ ["package.json"])
                  = Some (File (Json (JObj props))) ->
                  fs1 !! (targetDir ++ ["package-custom.json"]) = None ->
                  files v3 !! (targetDir ++ ["package.json"])
                  = Some (File (Json (JObj (assoc_set "name" (JStr appName)
                                                      props)))))
            /\ (forall c,
                  files w !! (templatesDir ++ ["CLAUDE.md.template"])
                  = Some (File c) ->
                  files v3 !! (targetDir ++ ["CLAUDE.md"])
                  = if docs
                    then Some (File (Text (replace_g "{project_name}" appName
                                          (utf8 h c))))
                    else fs1 !! (targetDir ++ ["CLAUDE.md"]))
            /\ (forall c,
                  files w !! (templatesDir ++ ["SHINY-REACT.md"])
                  = Some (File c) ->
                  files v3 !! (targetDir ++ ["SHINY-REACT.md"])
                  = if docs then Some (File c)
                    else fs1 !! (targetDir ++ ["SHINY-REACT.md"]))).
  { unfold r, Part001.main. at_prompts Hready.
    rewrite Hin, Hr1, Ht. cbn [stdin files log manifest].
    change (length Part001.BACKENDS) with 2. rewrite Hr2, Hb.
    cbn [stdin files log manifest].
    assert (Hasked : exists m events,
              (if String.eqb (backend_id b) "py"
               then Part001.ask_package_manager
               else fun w0 : world => Return None w0)
                {| files := files w; stdin := pm ++ a3 :: rest;
                   log := ((log w ++ [Stdout (Creating appName)]) ++
                           [Prompt ("Choose a template (1-"
                                    +:+ pretty (length templates) +:+ ") [2]: ")])
                          ++ [Prompt "Choose a backend (1-2) [1]: "];
                   manifest := manifest w |}
              = Return m {| files := files w; stdin := a3 :: rest;
                            log := events; manifest := manifest w |}).
    { destruct (String.eqb (backend_id b) "py").
      - destruct Hpm as (line & -> & m & Hm).
        eexists. eexists.
        erewrite ask_package_manager_answered;
          [reflexivity | reflexivity | exact Hm].
      - rewrite Hpm. eexists. eexists. reflexivity. }
    destruct Hasked as (m & events & Hasked). rewrite Hasked.
    erewrite ask_docs_001_answered; [| reflexivity | exact Hdocs].
    cbn [after stdin files log manifest].
    match goal with
    | |- context [Part001.copyRecursive _ _ _ _ ?v] => set (v1 := v)
    end.
    destruct (copy_mirrors (includes Part001.SKIP_PATHS) skips fuel
                templateDir targetDir v1 Hwf (ex_intro _ _ Htdir) Hshallow
                Hfresh Hparent Hdest Hapart) as (fs1 & Hcopy & Hmirror).
    unfold Part001.copyRecursive. fold templatesDir targetDir.
    fold templateDir. fold skips. rewrite Hcopy.
    change (files v1) with (files w) in Hmirror.
    pose proof Hmirror as [Hout Hin1].
    assert (Hdir1 : fs1 !! targetDir = Some Dir).
    { specialize (Hin1 []). rewrite !app_nil_r in Hin1.
      rewrite Hin1. exact Htdir. }
    assert (Hrel1 : forall name,
              name ∈ ["package.json"; "package-custom.json"; "CLAUDE.md";
                      "SHINY-REACT.md"] ->
              fs1 !! (targetDir ++ [name]) = files w !! (templateDir ++ [name])).
    { intros name Hname. rewrite (Hin1 [name]). cbn [forallb].
      rewrite (Hallowed name Hname). reflexivity. }
    destruct (patch_frame_001 targetDir appName (backend_id b)
                (with_files v1 fs1)) as (v2 & Hpatch & Hstdin2 & Hframe2 & Hname2).
    { exact Hdir1. }
    { cbn [files with_files]. rewrite Hrel1 by in_list. exact Hmanifest. }
    rewrite Hpatch. cbn [files with_files stdin] in Hstdin2, Hframe2, Hname2.
    assert (Hdir2 : files v2 !! targetDir = Some Dir).
    { rewrite Hframe2; [exact Hdir1 | |];
        intros E; exact (path_snoc_self _ _ (eq_sym E)). }
    assert (Hkeep2 : forall name, name ∈ ["CLAUDE.md"; "SHINY-REACT.md"] ->
              files v2 !! (targetDir ++ [name]) = fs1 !! (targetDir ++ [name])).
    { intros name Hname. apply Hframe2; apply path_snoc_ne; intros ->;
        repeat (apply elem_of_cons in Hname as [Hname | Hname];
                [discriminate Hname |]); inversion Hname. }
    destruct docs.
    - assert (Hnp : forall name,
                name ∈ ["CLAUDE.md.template"; "SHINY-REACT.md"] ->
                ~ targetDir `prefix_of` (templatesDir ++ [name])).
      { intros name Hname.
        apply (not_under_fresh (files w)); [exact Hfresh | exact Htemplates |].
        apply (Hsrc eq_refl name Hname). }
      assert (Htpl2 : forall name,
                name ∈ ["CLAUDE.md.template"; "SHINY-REACT.md"] ->
                files v2 !! (templatesDir ++ [name])
                = files w !! (templatesDir ++ [name])).
      { intros name Hname. rewrite Hframe2.
        - apply Hout, Hnp, Hname.
        - intros E. apply (Hnp name Hname). rewrite E.
          apply prefix_app_r. reflexivity.
        - intros E. apply (Hnp name Hname). rewrite E.
          apply prefix_app_r. reflexivity. }
      destruct (render_doc_frame h templatesDir targetDir "CLAUDE.md.template"
                  "CLAUDE.md" "{project_name}" appName v2)
        as (v3 & Hdocrun & Hstdin3 & Hframe3 & Hwritten3).
      { exact Hdir2. }
      { rewrite Htpl2 by in_list. apply (Hsrc eq_refl). in_list. }
      { rewrite Hkeep2, Hrel1 by in_list. apply (Hdst eq_refl). in_list. }
      rewrite Hdocrun. cbn beta iota.
      destruct (copy_doc_frame templatesDir targetDir "SHINY-REACT.md" v3)
        as (v4 & Hcd & Hstdin4 & Hframe4 & Hwritten4).
      { rewrite Hframe3; [exact Hdir2 |].
        intros E; exact (path_snoc_self _ _ (eq_sym E)). }
      { rewrite Hframe3.
        - rewrite Htpl2 by in_list. apply (Hsrc eq_refl). in_list.
        - intros E. apply (Hnp "SHINY-REACT.md"); [in_list |].
          rewrite E. apply prefix_app_r. reflexivity. }
      { rewrite Hframe3 by (apply path_snoc_ne; discriminate).
        rewrite Hkeep2, Hrel1 by in_list. apply (Hdst eq_refl). in_list. }
      revert Hcd. run. intros Hcd. fold templatesDir targetDir. rewrite Hcd.
      cbn [files stdin log manifest].
      exists fs1. eexists. split; [reflexivity |]. cbn [files stdin].
      split; [rewrite Hstdin4, Hstdin3, Hstdin2; reflexivity |].
      split; [exact Hmirror |]. split; [| split; [| split]].
      + intros q Hq1 Hq2 Hq3 Hq4. rewrite Hframe4 by exact Hq4.
        rewrite Hframe3 by exact Hq3. apply Hframe2; assumption.
      + intros props Hp Hs.
        rewrite Hframe4 by (apply path_snoc_ne; discriminate).
        rewrite Hframe3 by (apply path_snoc_ne; discriminate).
        apply Hname2; assumption.
      + intros c Hc.
        rewrite Hframe4 by (apply path_snoc_ne; discriminate).
        apply Hwritten3. rewrite Htpl2 by in_list. exact Hc.
      + intros c Hc. apply Hwritten4.
        rewrite Hframe3.
        * rewrite Htpl2 by in_list. exact Hc.
        * intros E. apply (Hnp "SHINY-REACT.md"); [in_list |].
          rewrite E. apply prefix_app_r. reflexivity.
    - cbn [files stdin log manifest].
      exists fs1. eexists. split; [reflexivity |]. cbn [files stdin].
      split; [rewrite Hstdin2; reflexivity |].
      split; [exact Hmirror |]. split; [| split; [| split]].
      + intros q Hq1 Hq2 Hq3 Hq4. apply Hframe2; assumption.
      + intros props Hp Hs. apply Hname2; assumption.
      + intros c Hc. apply Hkeep2. in_list.
      + intros c Hc. apply Hkeep2. in_list. }
  destruct Hrun as (fs1 & v3 & -> & Hstdin & [Hout Hin1] & Hframe & Hname
                    & Hclaude & Hshiny).
  cbn [outcome_of final].
  split; [reflexivity |]. split; [exact Hstdin |].
  assert (Hspecial : forall q name, ~ targetDir `prefix_of` q ->
            q <> targetDir ++ [name]).
  { intros q name Hq ->. apply Hq, prefix_app_r. reflexivity. }
  split; [| split; [| split; [| split; [| split]]]].
  - rewrite Hframe by (intros E; exact (path_snoc_self _ _ (eq_sym E))).
    specialize (Hin1 []). rewrite !app_nil_r in Hin1. rewrite Hin1.
    exact Htdir.
  - intros q Hq. rewrite Hframe by (apply Hspecial, Hq). apply Hout, Hq.
  - intros rel Hrel. rewrite Hframe.
    + apply Hin1.
    + intros E. apply app_inv_head in E. apply Hrel. rewrite E. in_list.
    + intros E. apply app_inv_head in E. apply Hrel. rewrite E. in_list.
    + intros E. apply app_inv_head in E. apply Hrel. rewrite E. in_list.
    + intros E. apply app_inv_head in E. apply Hrel. rewrite E. in_list.
  - intros props Hp Hs. apply Hname.
    + rewrite (Hin1 ["package.json"]). cbn [forallb].
      rewrite Hallowed by in_list. exact Hp.
    + rewrite (Hin1 ["package-custom.json"]). cbn [forallb].
      rewrite Hallowed by in_list. exact Hs.
  - intros c Hc. rewrite (Hclaude c Hc). destruct docs; [reflexivity |].
    rewrite (Hin1 ["CLAUDE.md"]). cbn [forallb].
    rewrite Hallowed by in_list. reflexivity.
  - intros c Hc. rewrite (Hshiny c Hc). destruct docs; [reflexivity |].
    rewrite (Hin1 ["SHINY-REACT.md"]). cbn [forallb].
    rewrite Hallowed by in_list. reflexivity.
Qed.

Lemma a_valid_run_creates_the_project_witness :
  let fs :=
    <[Demo.templates ++ ["CLAUDE.md.template"]
      := File (Text "# hello-world-app")]>
      (Demo.installation "package-config.json" (Json Demo.package_config)) in
  let w := Demo.boot fs ["1"; "3"; "y"] in
  let target := ["work"; "a$&b"] in
  let r := Part002.main Demo.h 10 ["a$&b"] w in
  (ready (Part002.getAvailableTemplates Demo.h) Demo.h "a$&b" w
         Demo.discovered w
   /\ stdin w = ["1"; "3"; "y"]
   /\ wf (files w)
   /\ fresh (files w) target
   /\ shallow (files w) Demo.basic 10)
  /\ outcome_of r = Returned
  /\ stdin (final r) = []
  /\ files (final r) !! target = Some Dir
  /\ files (final r) !! (target ++ ["CLAUDE.md"])
     = Some (File (Text "# ahello-world-appb")).
Proof.
  intros fs w target r.
  set (t := {| id := "1-basic"; name := "Basic";
               description := JStr "Hello world" |}).
  set (b := {| backend_id := "both"; backend_name := "Both R and Python" |}).
  assert (Hready : ready (Part002.getAvailableTemplates Demo.h) Demo.h "a$&b"
                     w Demo.discovered w)
    by (split; [by_evaluation
              | split; [by_evaluation
                       | split; [by_evaluation | reflexivity]]]).
  assert (Hin : stdin w = ["1"; "3"; "y"]) by reflexivity.
  assert (H1 : out_of_range (choice "1" "1") (length Demo.discovered) = false)
    by reflexivity.
  assert (H2 : at_index Demo.discovered (choice "1" "1") = Some t)
    by reflexivity.
  assert (H3 : out_of_range (choice "3" "3") 3 = false) by reflexivity.
  assert (H4 : at_index Part002.BACKENDS (choice "3" "3") = Some b)
    by reflexivity.
  assert (H5 : yes_no "y" = Some true) by reflexivity.
  assert (H6 : wf (files w)) by (apply wf_check_sound; by_evaluation).
  assert (H7 : fresh (files w) target)
    by (apply fresh_check_sound; by_evaluation).
  assert (H8 : files w !! dirname target = Some Dir) by by_evaluation.
  assert (H9 : shallow (files w) Demo.basic 10)
    by (apply shallow_check_sound; by_evaluation).
  assert (H10 : ~ Demo.basic `prefix_of` target).
  { intros H. apply starts_with_spec in H. discriminate H. }
  assert (E11 : files w !! (Demo.basic ++ ["package.json"])
                = Some (File (Json (JObj (own_props (Some Demo.package_json))))))
    by by_evaluation.
  assert (H11 : match files w !! (Demo.basic ++ ["package.json"]) with
                | None | Some (File (Json (JObj _))) => True
                | _ => False
                end) by (rewrite E11; exact I).
  assert (E12 : files w !! (Demo.templates ++ ["CLAUDE.md.template"])
                = Some (File (Text "# hello-world-app"))) by by_evaluation.
  assert (E13 : files w !! (Demo.basic ++ ["CLAUDE.md"]) = None)
    by by_evaluation.
  assert (H12 : true = true ->
                files w !! (Demo.templates ++ ["CLAUDE.md.template"]) <> Some Dir
                /\ files w !! (Demo.basic ++ ["CLAUDE.md"]) <> Some Dir
                /\ target <> Demo.templates ++ ["CLAUDE.md.template"]).
  { intros _. rewrite E12, E13. repeat split; discriminate. }
  split; [exact (conj Hready (conj Hin (conj H6 (conj H7 H9)))) |].
  pose proof (a_valid_run_creates_the_project
                Demo.h 10 "a$&b" "1" "3" "y" [] w w Demo.discovered t b true
                Hready Hin H1 H2 H3 H4 H5 H6 H7 H8 H9 H10 H11 H12)
    as (R1 & R2 & R3 & _ & _ & _ & R7).
  exact (conj R1 (conj R2 (conj R3 (R7 _ E12)))).
Defined.

Lemma a_valid_run_of_the_oldest_script_creates_the_project_witness :
  let fs :=
    <[Demo.templates ++ ["CLAUDE.md.template"]
      := File (Text "hello-world-app, or hello-world-app")]>
      (Demo.installation "package-config.json" (Json Demo.package_config)) in
  let w := Demo.boot fs ["1"; "1"; "Yes"] in
  let r := Part003.main Demo.h 10 ["demo"] w in
  (Part003.locate_templates Demo.h w = Return Demo.templates w
   /\ Part003.getAvailableTemplates Demo.h Demo.templates w
      = Return Demo.discovered w
   /\ shown Demo.discovered
   /\ stdin w = ["1"; "1"; "Yes"]
   /\ wf (files w)
   /\ fresh (files w) Demo.target
   /\ shallow (files w) Demo.basic 10)
  /\ outcome_of r = Returned
  /\ stdin (final r) = []
  /\ files (final r) !! Demo.target = Some Dir
  /\ files (final r) !! (Demo.target ++ ["CLAUDE.md"])
     = Some (File (Text "demo, or demo")).
Proof.
  intros fs w r.
  set (t := {| id := "1-basic"; name := "Basic";
               description := JStr "Hello world" |}).
  set (b := {| backend_id := "r"; backend_name := "R (Shiny for R)" |}).
  assert (Hloc : Part003.locate_templates Demo.h w = Return Demo.templates w)
    by by_evaluation.
  assert (Hts : Part003.getAvailableTemplates Demo.h Demo.templates w
                = Return Demo.discovered w) by by_evaluation.
  assert (Hshown : shown Demo.discovered) by reflexivity.
  assert (Hin : stdin w = ["1"; "1"; "Yes"]) by reflexivity.
  assert (H1 : out_of_range (choice "1" "1") (length Demo.discovered) = false)
    by reflexivity.
  assert (H2 : at_index Demo.discovered (choice "1" "1") = Some t)
    by reflexivity.
  assert (H3 : out_of_range (choice "1" "3") 3 = false) by reflexivity.
  assert (H4 : at_index Part003.BACKENDS (choice "1" "3") = Some b)
    by reflexivity.
  assert (H6 : wf (files w)) by (apply wf_check_sound; by_evaluation).
  assert (H7 : fresh (files w) Demo.target)
    by (apply fresh_check_sound; by_evaluation).
  assert (H8 : files w !! dirname Demo.target = Some Dir) by by_evaluation.
  assert (H9 : shallow (files w) Demo.basic 10)
    by (apply shallow_check_sound; by_evaluation).
  assert (H10 : ~ Demo.basic `prefix_of` Demo.target).
  { intros H. apply starts_with_spec in H. discriminate H. }
  assert (E11 : files w !! (Demo.basic ++ ["package.json"])
                = Some (File (Json (JObj (own_props (Some Demo.package_json))))))
    by by_evaluation.
  assert (H11 : match files w !! (Demo.basic ++ ["package.json"]) with
                | None | Some (File (Json (JObj _))) => True
                | _ => False
                end) by (rewrite E11; exact I).
  assert (E12 : files w !! (Demo.templates ++ ["CLAUDE.md.template"])
                = Some (File (Text "hello-world-app, or hello-world-app")))
    by by_evaluation.
  assert (E13 : files w !! (Demo.basic ++ ["CLAUDE.md"]) = None)
    by by_evaluation.
  assert (H12 : String.eqb (toLowerCase "Yes") "y"
                || String.eqb (toLowerCase "Yes") "yes" = true ->
                files w !! (Demo.templates ++ ["CLAUDE.md.template"]) <> Some Dir
                /\ files w !! (Demo.basic ++ ["CLAUDE.md"]) <> Some Dir
                /\ Demo.target <> Demo.templates ++ ["CLAUDE.md.template"]).
  { intros _. rewrite E12, E13. repeat split; discriminate. }
  split;
    [exact (conj Hloc (conj Hts (conj Hshown
              (conj Hin (conj H6 (conj H7 H9)))))) |].
  pose proof (a_valid_run_of_the_oldest_script_creates_the_project
                Demo.h 10 "demo" "1" "1" "Yes" [] w w w Demo.templates
                Demo.discovered t b
                Hloc Hts Hshown Hin H1 H2 H3 H4 H6 H7 H8 H9 H10 H11 H12)
    as (R1 & R2 & R3 & _ & _ & _ & R7).
  exact (conj R1 (conj R2 (conj R3 (R7 _ E12)))).
Defined.

Lemma a_valid_run_of_the_module_script_creates_the_project_witness :
  let w := Demo.boot (Demo.installation "package-custom.json"
                        (Json Demo.package_config))
             ["1"; "2"; "3"; EmptyString] in
  let r := Part001.main Demo.h 10 ["demo"] w in
  (ready (Part001.getAvailableTemplates Demo.h) Demo.h "demo" w
         Demo.discovered w
   /\ stdin w = "1" :: "2" :: ["3"] ++ EmptyString :: []
   /\ wf (files w)
   /\ fresh (files w) Demo.target
   /\ shallow (files w) Demo.basic 10)
  /\ outcome_of r = Returned
  /\ stdin (final r) = []
  /\ files (final r) !! Demo.target = Some Dir
  /\ files (final r) !! (Demo.target ++ ["CLAUDE.md"])
     = Some (File (Text "# demo")).
Proof.
  intros w r.
  set (t := {| id := "1-basic"; name := "Basic";
               description := JStr "Hello world" |}).
  set (b := {| backend_id := "py";
               backend_name := "Python (Shiny for Python)" |}).
  assert (Hready : ready (Part001.getAvailableTemplates Demo.h) Demo.h "demo"
                     w Demo.discovered w)
    by (split; [reflexivity
              | split; [reflexivity | split; [by_evaluation | reflexivity]]]).
  assert (Hin : stdin w = "1" :: "2" :: ["3"] ++ EmptyString :: [])
    by reflexivity.
  assert (H1 : out_of_range (choice "1" "2") (length Demo.discovered) = false)
    by reflexivity.
  assert (H2 : at_index Demo.discovered (choice "1" "2") = Some t)
    by reflexivity.
  assert (H3 : out_of_range (choice "2" "3") 2 = false) by reflexivity.
  assert (H4 : at_index Part001.BACKENDS (choice "2" "3") = Some b)
    by reflexivity.
  assert (Hpm : if String.eqb (backend_id b) "py"
                then exists line, ["3"] = [line] /\ is_Some (manager_of line)
                else ["3"] = [])
    by (exists "3"; split; [reflexivity | exists (Some "none"); reflexivity]).
  assert (H5 : yes_no_menu EmptyString = Some true) by reflexivity.
  assert (H6 : wf (files w)) by (apply wf_check_sound; by_evaluation).
  assert (H7 : fresh (files w) Demo.target)
    by (apply fresh_check_sound; by_evaluation).
  assert (H8 : files w !! dirname Demo.target = Some Dir) by by_evaluation.
  assert (H9 : shallow (files w) Demo.basic 10)
    by (apply shallow_check_sound; by_evaluation).
  assert (H10 : ~ Demo.basic `prefix_of` Demo.target).
  { intros H. apply starts_with_spec in H. discriminate H. }
  assert (E11 : files w !! (Demo.basic ++ ["package.json"])
                = Some (File (Json (JObj (own_props (Some Demo.package_json))))))
    by by_evaluation.
  assert (H11 : match files w !! (Demo.basic ++ ["package.json"]) with
                | None | Some (File (Json (JObj _))) => True
                | _ => False
                end) by (rewrite E11; exact I).
  assert (E12 : files w !! (Demo.templates ++ ["CLAUDE.md.template"])
                = Some (File (Text "# {project_name}"))) by by_evaluation.
  assert (E13 : files w !! (Demo.templates ++ ["SHINY-REACT.md"]) = None)
    by by_evaluation.
  assert (E14 : files w !! (Demo.basic ++ ["CLAUDE.md"]) = None)
    by by_evaluation.
  assert (E15 : files w !! (Demo.basic ++ ["SHINY-REACT.md"]) = None)
    by by_evaluation.
  assert (H12 : true = true ->
                forall name, name ∈ ["CLAUDE.md.template"; "SHINY-REACT.md"] ->
                  files w !! (Demo.templates ++ [name]) <> Some Dir
                  /\ Demo.target <> Demo.templates ++ [name]).
  { intros _ name Hname.
    apply elem_of_cons in Hname as [-> | Hname];
      [rewrite E12; split; discriminate |].
    apply elem_of_cons in Hname as [-> | Hname];
      [rewrite E13; split; discriminate | inversion Hname]. }
  assert (H13 : true = true ->
                forall name, name ∈ ["CLAUDE.md"; "SHINY-REACT.md"] ->
                  files w !! (Demo.basic ++ [name]) <> Some Dir).
  { intros _ name Hname.
    apply elem_of_cons in Hname as [-> | Hname];
      [rewrite E14; discriminate |].
    apply elem_of_cons in Hname as [-> | Hname];
      [rewrite E15; discriminate | inversion Hname]. }
  split; [exact (conj Hready (conj Hin (conj H6 (conj H7 H9)))) |].
  pose proof (a_valid_run_of_the_module_script_creates_the_project
                Demo.h 10 "demo" "1" "2" EmptyString ["3"] [] w w
                Demo.discovered t b true
                Hready Hin H1 H2 H3 H4 Hpm H5 H6 H7 H8 H9 H10 H11 H12 H13)
    as (R1 & R2 & R3 & _ & _ & _ & R7 & _).
  exact (conj R1 (conj R2 (conj R3 (R7 _ E12)))).
Defined.

(** ** The closing instructions of the oldest script *)

(** X18: the closing instructions of the oldest script name a backend
    only if its directory was copied, name every copied backend of a
    listed choice, and hold the blank separator exactly for [both]. *)
Theorem instructions_cover_the_copied_backends (selectedBackend : string) :
  let instructions := Part003.getBackendInstructions selectedBackend in
  let copied name := name ∉ skipBackends_for selectedBackend in
  ("  # For R backend:" ∈ instructions -> copied "r")
  /\ ("  # For Python backend:" ∈ instructions -> copied "py")
  /\ (selectedBackend ∈ backend_id <$> Part003.BACKENDS ->
      (copied "r" -> "  # For R backend:" ∈ instructions)
      /\ (copied "py" -> "  # For Python backend:" ∈ instructions))
  /\ (EmptyString ∈ instructions <-> selectedBackend = "both").
Proof.
  intros instructions copied. unfold instructions, copied.
  unfold Part003.getBackendInstructions, skipBackends_for.
  destruct (String.eqb_spec selectedBackend "r") as [-> | Hr];
    [| destruct (String.eqb_spec selectedBackend "py") as [-> | Hpy];
       [| destruct (String.eqb_spec selectedBackend "both") as [-> | Hboth]]];
    cbn; unfold not; rewrite ?elem_of_cons, ?elem_of_nil.
  - intuition discriminate.
  - intuition discriminate.
  - intuition discriminate.
  - intuition congruence.
Qed.

Lemma instructions_cover_the_copied_backends_witness :
  "  # For Python backend:" ∈ Part003.getBackendInstructions "py"
  /\ "py" ∉ skipBackends_for "py".
Proof.
  assert (H : "  # For Python backend:" ∈ Part003.getBackendInstructions "py")
    by (cbn; in_list).
  split; [exact H |].
  exact (proj1 (proj2 (instructions_cover_the_copied_backends "py")) H).
Defined.

(** ** Empty answers *)

Lemma discovery_typed (h : host) (keep : string -> bool) (dir : path)
  (w w1 : world) (templates : list template) (lines : list string) :
  Shared.getAvailableTemplates h keep dir w = Return templates w1 ->
  w1 = w
  /\ Shared.getAvailableTemplates h keep dir (typed w lines)
     = Return templates (typed w lines).
Proof.
  intros Hts.
  pose proof (getAvailableTemplates_Return _ _ _ _ _ _ Hts) as Hd.
  rewrite (getAvailableTemplates_spec _ _ _ _ Hd) in Hts.
  injection Hts as <- <-.
  split; [reflexivity |].
  rewrite getAvailableTemplates_spec by exact Hd. reflexivity.
Qed.

Lemma locate_templates_typed (h : host) (w w0 : world) (p : path)
  (lines : list string) :
  Part003.locate_templates h w = Return p w0 ->
  Part003.locate_templates h (typed w lines) = Return p (typed w0 lines).
Proof.
  unfold Part003.locate_templates, typed. run.
  cbn [files stdin log manifest].
  destruct (require_resolve h) as [resolved|]; cbn [files stdin log manifest].
  - destruct (existsSync (files w) (dirname (dirname resolved) ++ ["templates"]));
      cbn [negb files stdin log manifest].
    + intros [= <- <-]. reflexivity.
    + destruct (existsSync (files w)
                  (dirname (dirname (dirname__ h)) ++ ["templates"]));
        cbn [files stdin log manifest]; [| discriminate].
      intros [= <- <-]. reflexivity.
  - destruct (existsSync (files w)
                (dirname (dirname__ h) ++ ["node_modules"; "@posit"; "shiny-react"]));
      cbn [files stdin log manifest]; [| discriminate].
    destruct (existsSync (files w)
                ((dirname (dirname__ h) ++ ["node_modules"; "@posit"; "shiny-react"])
                 ++ ["templates"])); cbn [negb files stdin log manifest].
    + intros [= <- <-]. reflexivity.
    + destruct (existsSync (files w)
                  (dirname (dirname (dirname__ h)) ++ ["templates"]));
        cbn [files stdin log manifest]; [| discriminate].
      intros [= <- <-]. reflexivity.
Qed.

Lemma empty_template_answer_002 (h : host) (fuel : nat) (appName : string)
  (w w1 : world) (templates : list template) (rest : list string) :
  ready (Part002.getAvailableTemplates h) h appName w templates w1 ->
  stdin w = EmptyString :: rest ->
  Part002.main h fuel [appName] w
  = Part002.main h fuel [appName] (typed w ("1" :: rest)).
Proof.
  intros (Hfree & Hdir & Hts & Hshown) Hin.
  destruct (discovery_typed _ _ _ _ _ _ ("1" :: rest) Hts) as [-> Hts'].
  unfold Part002.main. run.
  change (files (typed w ("1" :: rest))) with (files w).
  rewrite Hfree. cbn [negb].
  change (files (typed w ("1" :: rest))) with (files w).
  rewrite Hdir. cbn [negb].
  unfold Part002.getAvailableTemplates in *. rewrite Hts, Hts'.
  cbn [typed files stdin log manifest].
  rewrite !showTemplates_shown by exact Hshown.
  cbn [typed files stdin log manifest]. rewrite Hin.
  rewrite choice_empty by discriminate. reflexivity.
Qed.

Lemma empty_backend_answer_002 (h : host) (fuel : nat)
  (appName first : string) (w w1 : world) (templates : list template)
  (rest : list string) :
  ready (Part002.getAvailableTemplates h) h appName w templates w1 ->
  stdin w = first :: EmptyString :: rest ->
  picks first "1" templates ->
  Part002.main h fuel [appName] w
  = Part002.main h fuel [appName] (typed w (first :: "3" :: rest)).
Proof.
  intros (Hfree & Hdir & Hts & Hshown) Hin [Hrange [t Ht]].
  destruct (discovery_typed _ _ _ _ _ _ (first :: "3" :: rest) Hts)
    as [-> Hts'].
  unfold Part002.main. run.
  change (files (typed w (first :: "3" :: rest))) with (files w).
  rewrite Hfree. cbn [negb].
  change (files (typed w (first :: "3" :: rest))) with (files w).
  rewrite Hdir. cbn [negb].
  unfold Part002.getAvailableTemplates in *. rewrite Hts, Hts'.
  cbn [typed files stdin log manifest].
  rewrite !showTemplates_shown by exact Hshown.
  cbn [typed files stdin log manifest]. rewrite Hin.
  rewrite Hrange, Ht. cbn [files stdin log manifest].
  rewrite choice_empty by discriminate. reflexivity.
Qed.

Lemma empty_template_answer_001 (h : host) (fuel : nat) (appName : string)
  (w w1 : world) (templates : list template) (rest : list string) :
  ready (Part001.getAvailableTemplates h) h appName w templates w1 ->
  stdin w = EmptyString :: rest ->
  Part001.main h fuel [appName] w
  = Part001.main h fuel [appName] (typed w ("2" :: rest)).
Proof.
  intros (Hfree & Hdir & Hts & Hshown) Hin.
  destruct (discovery_typed _ _ _ _ _ _ ("2" :: rest) Hts) as [-> Hts'].
  unfold Part001.main. run.
  change (files (typed w ("2" :: rest))) with (files w).
  rewrite Hfree. cbn [negb].
  change (files (typed w ("2" :: rest))) with (files w).
  rewrite Hdir. cbn [negb].
  unfold Part001.getAvailableTemplates in *. rewrite Hts, Hts'.
  cbn [typed files stdin log manifest].
  rewrite !showTemplates_shown by exact Hshown.
  cbn [typed files stdin log manifest]. rewrite Hin.
  rewrite choice_empty by discriminate. reflexivity.
Qed.

Lemma empty_answers_003 (h : host) (fuel : nat) (appName first : string)
  (w w1 : world) (templates : list template) (rest : list string) :
  ready003 h appName w templates w1 ->
  (stdin w = EmptyString :: rest ->
   Part003.main h fuel [appName] w
   = Part003.main h fuel [appName] (typed w ("1" :: rest)))
  /\ (stdin w = first :: EmptyString :: rest ->
      picks first "1" templates ->
      Part003.main h fuel [appName] w
      = Part003.main h fuel [appName] (typed w (first :: "3" :: rest))).
Proof.
  intros (Hfree & (templatesDir & w0 & Hloc & Hts) & Hshown).
  destruct (locate_templates_frame _ _ _ _ Hloc) as [_ Hstdin0].
  split; [intros Hin | intros Hin [Hrange [t Ht]]].
  - pose proof (locate_templates_typed _ _ _ _ ("1" :: rest) Hloc) as Hloc'.
    destruct (discovery_typed _ _ _ _ _ _ ("1" :: rest) Hts) as [-> Hts'].
    unfold Part003.main. run.
    change (files (typed w ("1" :: rest))) with (files w).
    rewrite Hfree, Hloc, Hloc'.
    unfold Part003.getAvailableTemplates in *. rewrite Hts, Hts'.
    cbn [typed files stdin log manifest].
    rewrite !showTemplates_shown by exact Hshown.
    cbn [typed files stdin log manifest]. rewrite Hstdin0, Hin.
    rewrite choice_empty by discriminate. reflexivity.
  - pose proof (locate_templates_typed _ _ _ _ (first :: "3" :: rest) Hloc)
      as Hloc'.
    destruct (discovery_typed _ _ _ _ _ _ (first :: "3" :: rest) Hts)
      as [-> Hts'].
    unfold Part003.main. run.
    change (files (typed w (first :: "3" :: rest))) with (files w).
    rewrite Hfree, Hloc, Hloc'.
    unfold Part003.getAvailableTemplates in *. rewrite Hts, Hts'.
    cbn [typed files stdin log manifest].
    rewrite !showTemplates_shown by exact Hshown.
    cbn [typed files stdin log manifest]. rewrite Hstdin0, Hin.
    rewrite Hrange, Ht. cbn [files stdin log manifest].
    rewrite choice_empty by discriminate. reflexivity.
Qed.

(** X19: an empty line at a numbered prompt gives the same run as typing
    the number the prompt announces: at the template prompt of every
    script, and at the backend prompt of the two three-backend scripts
    once the template answer picked a template. *)
Theorem empty_answer_is_the_announced_default
  (h : host) (fuel : nat) (appName first : string)
  (w w1 : world) (templates : list template) (rest : list string) :
  (ready (Part001.getAvailableTemplates h) h appName w templates w1 ->
   stdin w = EmptyString :: rest ->
   Part001.main h fuel [appName] w
   = Part001.main h fuel [appName] (typed w ("2" :: rest)))
  /\ (ready (Part002.getAvailableTemplates h) h appName w templates w1 ->
      (stdin w = EmptyString :: rest ->
       Part002.main h fuel [appName] w
       = Part002.main h fuel [appName] (typed w ("1" :: rest)))
      /\ (stdin w = first :: EmptyString :: rest ->
          picks first "1" templates ->
          Part002.main h fuel [appName] w
          = Part002.main h fuel [appName] (typed w (first :: "3" :: rest))))
  /\ (ready003 h appName w templates w1 ->
      (stdin w = EmptyString :: rest ->
       Part003.main h fuel [appName] w
       = Part003.main h fuel [appName] (typed w ("1" :: rest)))
      /\ (stdin w = first :: EmptyString :: rest ->
          picks first "1" templates ->
          Part003.main h fuel [appName] w
          = Part003.main h fuel [appName] (typed w (first :: "3" :: rest)))).
Proof.
  split; [| split].
  - apply empty_template_answer_001.
  - intros Hready. split.
    + apply (empty_template_answer_002 _ _ _ _ _ _ _ Hready).
    + apply (empty_backend_answer_002 _ _ _ _ _ _ _ _ Hready).
  - apply empty_answers_003.
Qed.

Lemma empty_answer_is_the_announced_default_witness :
  let w := Demo.boot (Demo.installation "package-config.json"
                        (Json Demo.package_config))
                     [EmptyString; EmptyString; "y"] in
  (ready (Part002.getAvailableTemplates Demo.h) Demo.h "demo" w
         Demo.discovered w
   /\ stdin w = [EmptyString; EmptyString; "y"]
   /\ picks EmptyString "1" Demo.discovered)
  /\ Part002.main Demo.h 10 ["demo"] w
     = Part002.main Demo.h 10 ["demo"] (typed w [EmptyString; "3"; "y"]).
Proof.
  intros w.
  assert (Hready : ready (Part002.getAvailableTemplates Demo.h) Demo.h "demo"
                     w Demo.discovered w)
    by (split; [reflexivity
              | split; [reflexivity | split; [by_evaluation | reflexivity]]]).
  assert (Hin : stdin w = [EmptyString; EmptyString; "y"]) by reflexivity.
  assert (Hpicks : picks EmptyString "1" Demo.discovered)
    by (split; [reflexivity | eexists; reflexivity]).
  split; [exact (conj Hready (conj Hin Hpicks)) |].
  exact (proj2 (proj1 (proj2 (empty_answer_is_the_announced_default
                                Demo.h 10 "demo" EmptyString w w
                                Demo.discovered ["y"])) Hready)
               Hin Hpicks).
Defined.

(** ** A menu that cannot be printed *)

(** X20: discovery keeps whatever truthy value the metadata gives as
    description; when one of the descriptions throws on conversion to a
    string, every script stops while printing the menu: the catch-all
    handler reports a TypeError and the run exits with code 1 before the
    first prompt, no line read and no file touched. *)
Theorem unprintable_description_stops_at_the_menu
  (h : host) (fuel : nat) (appName : string) (w w1 : world)
  (templates : list template) :
  ~ shown templates ->
  existsSync (files w) (resolve h appName) = false ->
  let stopped :=
    Exit 1 (after w1 (stdin w1)
              [Stdout (Creating appName);
               Stderr (ErrorCreatingApp TypeError)]) in
  let templatesDir := dirname (dirname__ h) ++ ["templates"] in
  (existsSync (files w) templatesDir = true ->
   Part001.getAvailableTemplates h templatesDir w = Return templates w1 ->
   Part001.main h fuel [appName] w = stopped)
  /\ (existsSync (files w) templatesDir = true ->
      Part002.getAvailableTemplates h templatesDir w = Return templates w1 ->
      Part002.main h fuel [appName] w = stopped)
  /\ (forall dir w0,
        Part003.locate_templates h w = Return dir w0 ->
        Part003.getAvailableTemplates h dir w0 = Return templates w1 ->
        Part003.main h fuel [appName] w = stopped).
Proof.
  intros Hnot Hfree stopped templatesDir. unfold stopped, templatesDir.
  split; [| split].
  - intros Hdir Hts. unfold Part001.main. run.
    rewrite Hfree, Hdir. cbn [negb]. rewrite Hts.
    cbn [stdin files log manifest].
    rewrite (showTemplates_throws _ _ Hnot). cbn [stdin files log manifest].
    unfold after. rewrite <- !app_assoc. reflexivity.
  - intros Hdir Hts. unfold Part002.main. run.
    rewrite Hfree, Hdir. cbn [negb]. rewrite Hts.
    cbn [stdin files log manifest].
    rewrite (showTemplates_throws _ _ Hnot). cbn [stdin files log manifest].
    unfold after. rewrite <- !app_assoc. reflexivity.
  - intros dir w0 Hloc Hts. unfold Part003.main. run.
    rewrite Hfree, Hloc, Hts. cbn [stdin files log manifest].
    rewrite (showTemplates_throws _ _ Hnot). cbn [stdin files log manifest].
    unfold after. rewrite <- !app_assoc. reflexivity.
Qed.

Lemma unprintable_description_stops_at_the_menu_witness :
  let odd := JObj [("toString", JNum 1)] in
  let fs :=
    <[Demo.templates ++ ["plain"; "package.json"]
      := File (Json (JObj [("description", odd)]))]>
      (Demo.installation "package-config.json" (Json Demo.package_config)) in
  let w := Demo.boot fs ["1"; "3"; "y"] in
  let found :=
    [ {| id := "1-basic"; name := "Basic";
         description := JStr "Hello world" |};
      {| id := "2-shadcn"; name := "2-shadcn";
         description := default_description |};
      {| id := "plain"; name := "plain"; description := odd |} ] in
  (~ shown found
   /\ existsSync (files w) (resolve Demo.h "demo") = false
   /\ existsSync (files w) Demo.templates = true
   /\ Part002.getAvailableTemplates Demo.h Demo.templates w = Return found w)
  /\ Part002.main Demo.h 10 ["demo"] w
     = Exit 1 (after w ["1"; "3"; "y"]
                 [Stdout (Creating "demo");
                  Stderr (ErrorCreatingApp TypeError)]).
Proof.
  intros odd fs w found.
  assert (Hnot : ~ shown found) by (intros H; discriminate H).
  assert (Hfree : existsSync (files w) (resolve Demo.h "demo") = false)
    by by_evaluation.
  assert (Hdir : existsSync (files w) Demo.templates = true) by by_evaluation.
  assert (Hts : Part002.getAvailableTemplates Demo.h Demo.templates w
                = Return found w) by by_evaluation.
  split; [exact (conj Hnot (conj Hfree (conj Hdir Hts))) |].
  exact (proj1 (proj2 (unprintable_description_stops_at_the_menu
                         Demo.h 10 "demo" w w found Hnot Hfree))
               Hdir Hts).
Defined.

(** ** The replacement in the documentation file *)

Lemma GetSubstitution_other (matched before after : string) (c : ascii)
  (r : string) :
  c <> "$"%char ->
  GetSubstitution matched before after (String c r)
  = String c (GetSubstitution matched before after r).
Proof.
  intros Hc.
  destruct c as [[] [] [] [] [] [] [] []]; try reflexivity.
  exfalso. apply Hc. reflexivity.
Qed.

Lemma GetSubstitution_plain (matched before after name : string) :
  no_dollar name = true ->
  GetSubstitution matched before after name = name.
Proof.
  unfold no_dollar. induction name as [| c r IH]; [reflexivity |].
  cbn [list_ascii_of_string forallb]. intros H.
  apply andb_prop in H as [Hc Hr].
  rewrite GetSubstitution_other.
  - rewrite IH by exact Hr. reflexivity.
  - intros ->. discriminate Hc.
Qed.

(** Without a dollar sign in the name, the scan does not look behind. *)
Lemma replace_from_before (pattern name b b' : string) (k : nat) (s : string) :
  no_dollar name = true ->
  replace_from pattern name b k s = replace_from pattern name b' k s.
Proof.
  intros Hname. revert b b' k.
  induction s as [| c s IH]; intros b b' k; [reflexivity |].
  cbn [replace_from]. destruct k as [| k]; [| apply IH].
  destruct (String.prefix pattern (String c s)).
  - rewrite !GetSubstitution_plain by exact Hname. f_equal. apply IH.
  - f_equal. apply IH.
Qed.

Lemma replace_from_skip (pattern name b : string) (x s : string) :
  no_dollar name = true ->
  replace_from pattern name b (String.length x) (x +:+ s)
  = replace_from pattern name EmptyString 0 s.
Proof.
  intros Hname. revert b. induction x as [| c x IH]; intros b.
  - cbn [String.length String.append]. apply replace_from_before, Hname.
  - cbn [String.length String.append replace_from]. apply IH.
Qed.

Lemma prefix_append (p s : string) : String.prefix p (p +:+ s) = true.
Proof.
  induction p as [| c p IH];
    [change (EmptyString +:+ s) with s; destruct s; reflexivity |].
  change (String c p +:+ s) with (String c (p +:+ s)).
  cbn [String.prefix].
  destruct (ascii_dec c c); [exact IH | congruence].
Qed.

(** X21: a project name without a dollar sign goes into the documentation
    file as it is: the replacement obeys the equations of a literal
    replace-all from the left (nothing at the end of the text; at a match
    the name, then the rest after the match; elsewhere the character, then
    the rest). *)
Theorem name_without_dollar_is_inserted_verbatim (pattern name : string) :
  no_dollar name = true ->
  pattern <> EmptyString ->
  replace_g pattern name EmptyString = EmptyString
  /\ (forall rest,
        replace_g pattern name (pattern +:+ rest)
        = name +:+ replace_g pattern name rest)
  /\ (forall c rest,
        String.prefix pattern (String c rest) = false ->
        replace_g pattern name (String c rest)
        = String c (replace_g pattern name rest)).
Proof.
  intros Hname Hpattern. split; [reflexivity |]. split.
  - intros rest. destruct pattern as [| c p]; [congruence |].
    unfold replace_g.
    change (String c p +:+ rest) with (String c (p +:+ rest)).
    cbn [replace_from].
    change (String c (p +:+ rest)) with (String c p +:+ rest).
    rewrite prefix_append, GetSubstitution_plain by exact Hname.
    f_equal.
    replace (String.length (String c p) - 1) with (String.length p)
      by (cbn [String.length]; lia).
    apply replace_from_skip, Hname.
  - intros c rest Hno. unfold replace_g. cbn [replace_from].
    rewrite Hno. f_equal. apply replace_from_before, Hname.
Qed.

Lemma name_without_dollar_is_inserted_verbatim_witness :
  (no_dollar "demo" = true /\ "hello-world-app" <> EmptyString)
  /\ replace_g "hello-world-app" "demo" ("hello-world-app" +:+ " v1")
     = "demo" +:+ replace_g "hello-world-app" "demo" " v1".
Proof.
  assert (H1 : no_dollar "demo" = true) by reflexivity.
  assert (H2 : "hello-world-app" <> EmptyString) by discriminate.
  split; [exact (conj H1 H2) |].
  exact (proj1 (proj2 (name_without_dollar_is_inserted_verbatim
                         "hello-world-app" "demo" H1 H2)) " v1").
Defined.
